(** * Prison-report extraction pipeline: a shallow embedding

    The development follows [functions/file_scraping_functions.py] and
    [functions/processing_data_functions.py].  Python [str] values are
    modelled by [string]; a character is a code point below 256, which
    covers ASCII and Latin-1 text.  Character classes ([str.isspace],
    [\s], [\d], [str.lower]) are the ones Python uses on that range.

    Part I holds the definitions, in source order; Part II the lemmas. *)

From Stdlib Require Import String Ascii List ZArith NArith Lia Bool Arith.
From Stdlib Require Import Sorting.Sorted Permutation.
Import ListNotations.
Open Scope string_scope.
Open Scope nat_scope.

(* ================================================================== *)
(** * Part I.  Definitions *)
(* ================================================================== *)

(** ** Python string primitives *)

Module Py.

Definition ord (c : ascii) : N := N_of_ascii c.

Definition between (lo hi : N) (c : ascii) : bool :=
  ((lo <=? ord c) && (ord c <=? hi))%N.

(** [str.isspace] on one character; also the class [\s] of [re]. *)
Definition isspace (c : ascii) : bool :=
  between 9 13 c || between 28 32 c || (ord c =? 133)%N || (ord c =? 160)%N.

(** The class [\d] of [re]: decimal digits. *)
Definition isdecimal (c : ascii) : bool := between 48 57 c.

(** [str.isdigit] on one character: decimal digits and the superscripts
    one, two and three. *)
Definition isdigit_char (c : ascii) : bool :=
  isdecimal c || (ord c =? 178)%N || (ord c =? 179)%N || (ord c =? 185)%N.

(** The class [[A-Za-z]]. *)
Definition isasciialpha (c : ascii) : bool :=
  between 65 90 c || between 97 122 c.

Definition lower_char (c : ascii) : ascii :=
  if between 65 90 c || (between 192 222 c && negb (ord c =? 215)%N)
  then ascii_of_N (ord c + 32) else c.

Fixpoint lower (s : string) : string :=
  match s with
  | EmptyString => EmptyString
  | String c r => String (lower_char c) (lower r)
  end.

Fixpoint chars (s : string) : list ascii :=
  match s with
  | EmptyString => []
  | String c r => c :: chars r
  end.

(** [s.startswith(p)] *)
Fixpoint startswith (p s : string) : bool :=
  match p, s with
  | EmptyString, _ => true
  | String a p', String b s' => Ascii.eqb a b && startswith p' s'
  | String _ _, EmptyString => false
  end.

(** [p in s] *)
Fixpoint contains (p s : string) : bool :=
  startswith p s ||
  match s with
  | EmptyString => false
  | String _ r => contains p r
  end.

(** [s.endswith(p)] *)
Fixpoint endswith (p s : string) : bool :=
  String.eqb p s ||
  match s with
  | EmptyString => false
  | String _ r => endswith p r
  end.

(** [c in s] for a single character [c]. *)
Fixpoint char_in (c : ascii) (s : string) : bool :=
  match s with
  | EmptyString => false
  | String d r => Ascii.eqb c d || char_in c r
  end.

(** [s.count(p)]: occurrences of [p] met from left to right without
    overlap; [skip] characters of the last occurrence are still to pass. *)
Fixpoint count_go (p s : string) (skip : nat) : nat :=
  match s with
  | EmptyString => 0
  | String _ r =>
      match skip with
      | S k => count_go p r k
      | O => if startswith p s
             then S (count_go p r (String.length p - 1))
             else count_go p r 0
      end
  end.

Definition count (p s : string) : nat :=
  match p with
  | EmptyString => S (String.length s)
  | _ => count_go p s 0
  end.

Fixpoint lstrip (s : string) : string :=
  match s with
  | EmptyString => EmptyString
  | String c r => if isspace c then lstrip r else s
  end.

Fixpoint rstrip (s : string) : string :=
  match s with
  | EmptyString => EmptyString
  | String c r =>
      match rstrip r with
      | EmptyString => if isspace c then EmptyString else String c EmptyString
      | r' => String c r'
      end
  end.

(** [s.strip()] *)
Definition strip (s : string) : string := rstrip (lstrip s).

(** [s.split(sep)] for a one-character separator. *)
Fixpoint split_on (sep : ascii) (s : string) : list string :=
  match s with
  | EmptyString => [EmptyString]
  | String c r =>
      if Ascii.eqb c sep then EmptyString :: split_on sep r
      else match split_on sep r with
           | w :: ws => String c w :: ws
           | [] => [String c EmptyString]
           end
  end.

(** [s.split()]: the maximal runs of non-blank characters. *)
Fixpoint split (s : string) : list string :=
  match s with
  | EmptyString => []
  | String c r =>
      if isspace c then split r
      else match r with
           | EmptyString => [String c EmptyString]
           | String d _ =>
               if isspace d then String c EmptyString :: split r
               else match split r with
                    | w :: ws => String c w :: ws
                    | [] => [String c EmptyString]
                    end
           end
  end.

(** [sep.join(parts)] *)
Fixpoint join (sep : string) (parts : list string) : string :=
  match parts with
  | [] => EmptyString
  | [w] => w
  | w :: ws => w ++ sep ++ join sep ws
  end.

(** [s.replace(c, '')] for a one-character [c]. *)
Fixpoint remove_char (c : ascii) (s : string) : string :=
  match s with
  | EmptyString => EmptyString
  | String d r => if Ascii.eqb c d then remove_char c r else String d (remove_char c r)
  end.

(** [s.isdigit()] *)
Definition isdigit (s : string) : bool :=
  match s with
  | EmptyString => false
  | _ => forallb isdigit_char (chars s)
  end.

Definition nonempty (s : string) : bool :=
  match s with EmptyString => false | _ => true end.

(** [any(k in s for k in ks)] *)
Definition any_in (ks : list string) (s : string) : bool :=
  existsb (fun k => contains k s) ks.

Definition newline : ascii := ascii_of_nat 10.
Definition nul : ascii := ascii_of_nat 0.

End Py.

(** ** Regular expressions

    The patterns of the source are plain regular languages; whether
    [re.match] or [re.search] finds a match is decided by derivatives. *)

Module Re.

Inductive regex : Type :=
| Nul
| Eps
| Cls (p : ascii -> bool)
| Seq (r1 r2 : regex)
| Alt (r1 r2 : regex)
| Star (r : regex).

Definition Plus (r : regex) : regex := Seq r (Star r).
Definition Opt (r : regex) : regex := Alt r Eps.
Definition Chr (c : ascii) : regex := Cls (Ascii.eqb c).

Fixpoint Lit (s : string) : regex :=
  match s with
  | EmptyString => Eps
  | String c r => Seq (Chr c) (Lit r)
  end.

Fixpoint nullable (r : regex) : bool :=
  match r with
  | Nul => false
  | Eps => true
  | Cls _ => false
  | Seq r1 r2 => nullable r1 && nullable r2
  | Alt r1 r2 => nullable r1 || nullable r2
  | Star _ => true
  end.

Fixpoint deriv (c : ascii) (r : regex) : regex :=
  match r with
  | Nul => Nul
  | Eps => Nul
  | Cls p => if p c then Eps else Nul
  | Seq r1 r2 =>
      if nullable r1 then Alt (Seq (deriv c r1) r2) (deriv c r2)
      else Seq (deriv c r1) r2
  | Alt r1 r2 => Alt (deriv c r1) (deriv c r2)
  | Star r1 => Seq (deriv c r1) (Star r1)
  end.

(** [re.fullmatch(r, s)]; also [re.match] for a pattern that ends in [$]
    on a string without a line break. *)
Fixpoint fullmatch (r : regex) (s : string) : bool :=
  match s with
  | EmptyString => nullable r
  | String c s' => fullmatch (deriv c r) s'
  end.

(** [re.match(r, s)]: some prefix of [s] is in the language of [r]. *)
Fixpoint rmatch (r : regex) (s : string) : bool :=
  nullable r ||
  match s with
  | EmptyString => false
  | String c s' => rmatch (deriv c r) s'
  end.

(** [re.search(r, s)]: a match starts somewhere in [s]. *)
Fixpoint search (r : regex) (s : string) : bool :=
  rmatch r s ||
  match s with
  | EmptyString => false
  | String _ s' => search r s'
  end.

Definition space : regex := Cls Py.isspace.
Definition digit : regex := Cls Py.isdecimal.
Definition alpha : regex := Cls Py.isasciialpha.

(** [re.split(r'\s{2,}', s)]: the separators are the maximal runs of two
    or more blanks; [run] is the number of blanks just passed and [cur]
    the current piece, reversed. *)
Fixpoint split2_go (s : string) (cur : list ascii) (run : list ascii)
  : list string :=
  let flush := string_of_list_ascii (rev cur) in
  match s with
  | EmptyString =>
      match run with
      | [] => [flush]
      | [b] => [string_of_list_ascii (rev (b :: cur))]
      | _ => [flush; EmptyString]
      end
  | String c r =>
      if Py.isspace c then split2_go r cur (c :: run)
      else match run with
           | [] => split2_go r (c :: cur) []
           | [b] => split2_go r (c :: b :: cur) []
           | _ => flush :: split2_go r [c] []
           end
  end.

Definition split_blank2 (s : string) : list string := split2_go s [] [].

(** The language of a regular expression. *)
Inductive matches : regex -> string -> Prop :=
| MEps : matches Eps EmptyString
| MCls p c : p c = true -> matches (Cls p) (String c EmptyString)
| MSeq r1 r2 s1 s2 :
    matches r1 s1 -> matches r2 s2 -> matches (Seq r1 r2) (s1 ++ s2)
| MAltL r1 r2 s : matches r1 s -> matches (Alt r1 r2) s
| MAltR r1 r2 s : matches r2 s -> matches (Alt r1 r2) s
| MStar0 r : matches (Star r) EmptyString
| MStarS r s1 s2 :
    matches r s1 -> matches (Star r) s2 -> matches (Star r) (s1 ++ s2).

End Re.

(** ** Text validity oracle: [is_valid_doc_text] *)

(** [ord(char) > 127 or (ord(char) < 32 and char not in '\n\t\r')] *)
Definition strange_char (c : ascii) : bool :=
  (127 <? Py.ord c)%N ||
  ((Py.ord c <? 32)%N &&
   negb (Py.char_in c (String Py.newline (String (ascii_of_nat 9)
                         (String (ascii_of_nat 13) EmptyString))))).

Definition non_ascii_count (text : string) : nat :=
  List.length (filter strange_char (Py.chars text)).

Definition suspicious_patterns : list string :=
  [ "@Unknown"; "Times N"; String Py.nul EmptyString;
    String "}" (String Py.nul (String "{" EmptyString)) ].

Definition ms_patterns : list string := [ "Microsoft Word"; "Microsoft Office" ].

Definition ms_pattern_count (text : string) : nat :=
  list_sum (map (fun p => Py.count p text) ms_patterns).

Definition prison_keywords : list string :=
  [ "Prison"; "CNA"; "Capacity"; "Population"; "Report Date"; "Operational" ].

(** [^[A-Za-z][A-Za-z\s]+\s+\d+\s+\d+] *)
Definition data_like_pattern : Re.regex :=
  Re.Seq Re.alpha
   (Re.Seq (Re.Plus (Re.Cls (fun c => Py.isasciialpha c || Py.isspace c)))
    (Re.Seq (Re.Plus Re.space)
     (Re.Seq (Re.Plus Re.digit)
      (Re.Seq (Re.Plus Re.space) (Re.Plus Re.digit))))).

Definition data_like_lines (text : string) : list string :=
  filter (Re.rmatch data_like_pattern) (Py.split_on Py.newline text).

(** The quotient [non_ascii_count / len(text)] is compared with [0.20] in
    double precision; for texts shorter than 2^52 characters that
    comparison agrees with the exact one, written here over [nat]. *)
Definition too_strange (text : string) : bool :=
  (20 * String.length text <? 100 * non_ascii_count text)%nat.

Definition is_valid_doc_text (text : string) : bool :=
  if negb (Py.nonempty text) || (String.length text <? 100)%nat then false
  else if too_strange text then false
  else if (3 <? ms_pattern_count text)%nat || Py.any_in suspicious_patterns text
  then false
  else if negb (Py.any_in prison_keywords text)
  then if (List.length (data_like_lines text) <? 5)%nat then false else true
  else true.

(** ** [os.path]

    The source goes through [os.path], whose behaviour depends on the
    host; the operations it uses form an interface, and [posixpath] is the
    instance of a POSIX host. *)

Class OsPath : Type := {
  basename : string -> string;
  dirname : string -> string;
  join : string -> string -> string;
  (** the second component of [os.path.splitext] *)
  extension : string -> string;
  exists_ : (string -> bool) -> string -> bool
}.

Module Posix.

Definition slash : ascii := "/"%char.
Definition dot : ascii := "."%char.

(** [p[p.rfind('/')+1:]] *)
Definition basename (p : string) : string :=
  last (Py.split_on slash p) EmptyString.

Fixpoint rstrip_slash (s : string) : string :=
  match s with
  | EmptyString => EmptyString
  | String c r =>
      match rstrip_slash r with
      | EmptyString => if Ascii.eqb c slash then EmptyString else String c EmptyString
      | r' => String c r'
      end
  end.

(** [p[:p.rfind('/')+1]] *)
Definition head (p : string) : string :=
  String.substring 0 (String.length p - String.length (basename p)) p.

Definition dirname (p : string) : string :=
  let h := head p in
  match rstrip_slash h with
  | EmptyString => h
  | h' => h'
  end.

Definition join (a b : string) : string :=
  if Py.startswith "/" b then b
  else if negb (Py.nonempty a) || Py.endswith "/" a then a ++ b
  else a ++ "/" ++ b.

Fixpoint lstrip_dot (s : string) : string :=
  match s with
  | EmptyString => EmptyString
  | String c r => if Ascii.eqb c dot then lstrip_dot r else s
  end.

(** The extension starts at the last dot of the base name, provided a
    character other than a dot comes before it. *)
Definition extension (p : string) : string :=
  let b := lstrip_dot (basename p) in
  match rev (Py.split_on dot b) with
  | [] | [_] => EmptyString
  | e :: _ => String dot e
  end.

End Posix.

#[export] Instance posixpath : OsPath := {|
  basename := Posix.basename;
  dirname := Posix.dirname;
  join := Posix.join;
  extension := Posix.extension;
  exists_ := fun fs p => fs p
|}.

(** ** Date resolver: [extract_report_date_from_file] *)

Record date : Type := mkdate { year : nat; month : nat; day : nat }.

Definition months : list (string * nat) :=
  [ ("january", 1); ("february", 2); ("march", 3); ("april", 4); ("may", 5);
    ("june", 6); ("july", 7); ("august", 8); ("september", 9);
    ("october", 10); ("november", 11); ("december", 12);
    ("jan", 1); ("feb", 2); ("mar", 3); ("apr", 4); ("jun", 6); ("jul", 7);
    ("aug", 8); ("sep", 9); ("sept", 9); ("oct", 10); ("nov", 11);
    ("dec", 12) ].

(** [28 if month_num == 2 else 30 if month_num in [4, 6, 9, 11] else 31] *)
Definition last_day (month_num : nat) : nat :=
  if month_num =? 2 then 28
  else if existsb (Nat.eqb month_num) [4; 6; 9; 11] then 30
  else 31.

Definition digit_value (c : ascii) : nat := N.to_nat (Py.ord c) - 48.

(** [int(s)] for a string of decimal digits. *)
Definition int_of_digits (s : string) : nat :=
  fold_left (fun acc c => 10 * acc + digit_value c) (Py.chars s) 0.

(** The text matched by [re.search(r'20\d{2}', s)], if any. *)
Fixpoint search_year (s : string) : option string :=
  match s with
  | EmptyString => None
  | String c r =>
      match s with
      | String "2" (String "0" (String a (String b _))) =>
          if Py.isdecimal a && Py.isdecimal b
          then Some (String "2" (String "0" (String a (String b EmptyString))))
          else search_year r
      | _ => search_year r
      end
  end.

Definition separators : list string := [ "-"; "_" ].

(** The three tests of the inner loop, for one month name and one
    separator. *)
Definition month_test (year month_name filename separator : string) : bool :=
  let sep := Re.Opt (Re.Lit separator) in
  Re.search (Re.Seq (Re.Lit month_name) (Re.Seq sep (Re.Lit year))) filename
  || Re.search (Re.Seq (Re.Lit year) (Re.Seq sep (Re.Lit month_name))) filename
  || (Re.search (Re.Lit (separator ++ month_name ++ separator)) filename
      || Py.startswith (month_name ++ separator) filename
      || Py.endswith (separator ++ month_name) filename).

Definition month_hit (year filename : string) (m : string * nat) : bool :=
  existsb (month_test year (fst m) filename) separators.

Definition end_of_month (year : string) (month_num : nat) : date :=
  mkdate (int_of_digits year) month_num (last_day month_num).

(** The main loop over [months.items()]. *)
Definition scan_patterns (filename : string) : option date :=
  match search_year filename with
  | Some y =>
      match find (month_hit y filename) months with
      | Some (_, n) => Some (end_of_month y n)
      | None => None
      end
  | None => None
  end.

(** The loop shared by the two filename families. *)
Definition scan_family (filename : string) : option date :=
  match find (fun m => Py.contains (fst m) filename) months with
  | Some (_, n) =>
      match search_year filename with
      | Some y => Some (end_of_month y n)
      | None => None
      end
  | None => None
  end.

Definition or_else {A : Type} (x y : option A) : option A :=
  match x with Some _ => x | None => y end.

(** The filename stage, on the lower-cased base name. *)
Definition date_from_filename (filename : string) : option date :=
  or_else (scan_patterns filename)
   (or_else
      (if Py.contains "monthly" filename && Py.contains "bulletin" filename
       then scan_family filename else None)
      (if Py.contains "prison-pop" filename || Py.contains "prison_pop" filename
       then scan_family filename else None)).

Definition is_leap (y : nat) : bool :=
  ((y mod 4 =? 0) && negb (y mod 100 =? 0)) || (y mod 400 =? 0).

Definition days_in_month (y m : nat) : nat :=
  if m =? 2 then (if is_leap y then 29 else 28)
  else if existsb (Nat.eqb m) [4; 6; 9; 11] then 30 else 31.

(** [datetime.datetime.strptime(s, '%d/%m/%Y').date()] on a string of the
    shape [dd/dd/dddd]; [None] stands for [ValueError]. *)
Definition strptime_dmy (s : string) : option date :=
  match s with
  | String d1 (String d2 (String "/" (String m1 (String m2 (String "/" y)))))
    =>
      let d := int_of_digits (String d1 (String d2 EmptyString)) in
      let m := int_of_digits (String m1 (String m2 EmptyString)) in
      let yr := int_of_digits y in
      if (1 <=? yr) && (1 <=? m) && (m <=? 12) && (1 <=? d)
         && (d <=? days_in_month yr m)
      then Some (mkdate yr m d) else None
  | _ => None
  end.

(** The group of [\d{2}/\d{2}/\d{4}] at the head of [s], if it is there. *)
Definition date_group (s : string) : option string :=
  let g := String.substring 0 10 s in
  if Re.fullmatch
       (Re.Seq Re.digit (Re.Seq Re.digit (Re.Seq (Re.Lit "/")
         (Re.Seq Re.digit (Re.Seq Re.digit (Re.Seq (Re.Lit "/")
           (Re.Seq Re.digit (Re.Seq Re.digit (Re.Seq Re.digit Re.digit)))))))))
       g
  then Some g else None.

(** [re.search(r'Report Date:\s*(\d{2}/\d{2}/\d{4})', text)]: group 1 of
    the leftmost match. *)
Fixpoint search_report_date (text : string) : option string :=
  or_else
    (if Py.startswith "Report Date:" text
     then date_group (Py.lstrip (String.substring 12 (String.length text) text))
     else None)
    (match text with
     | EmptyString => None
     | String _ r => search_report_date r
     end).

(** The content stage: the first match decides; a date that does not
    parse falls through to the filename stage. *)
Definition date_from_content (text : string) : option date :=
  match search_report_date text with
  | Some g => strptime_dmy g
  | None => None
  end.

Definition content_extensions : list string := [ ".rtf"; ".pdf"; ".docx"; ".doc" ].

(** [extract_report_date_from_file]; [text] is what the decoder of the
    file's format recovers from it ([None]: a document without pages). *)
Definition extract_report_date_from_file `{OsPath}
  (file_path : string) (text : option string) : option date :=
  let file_extension := Py.lower (extension file_path) in
  let filename := Py.lower (basename file_path) in
  or_else
    (if existsb (String.eqb file_extension) content_extensions
     then match text with Some t => date_from_content t | None => None end
     else None)
    (date_from_filename filename).

(** ** Tables

    A [pandas.DataFrame] is a list of column labels and a list of rows;
    a cell is null ([None], [NaN], [NA], [NaT]), a string, a number or a
    date.  What [pandas.to_numeric] accepts as a number is the library's
    business: it is an interface, and the statements below hold for every
    instance of it. *)

Class Pandas : Type := {
  number : Type;
  number_eq_dec : forall x y : number, {x = y} + {x <> y};
  (** [pandas.to_numeric(s, errors='coerce')] on one string; [None] is
      [NaN] *)
  to_numeric : string -> option number;
  (** whether [pandas.to_datetime] takes a date: its bounds depend on the
      resolution the library works in *)
  timestamp_in_bounds : date -> bool;
  (** whether Python's [float(s)] succeeds with a value below 0 or above
      10000 *)
  float_outside : string -> bool;
  (** the day [pandas.to_datetime(..., errors='coerce')] reads in a string
      and in a number; [None] is [NaT] (a time of day is not modelled) *)
  datetime_of_string : string -> option date;
  datetime_of_number : number -> option date
}.

Section Tables.
Context `{Pandas}.

Inductive cell : Type :=
| Null
| Str (s : string)
| Num (x : number)
| Day (d : date).

Record frame : Type := mkframe {
  columns : list string;
  rows : list (list cell)
}.

(** [pd.DataFrame()] *)
Definition empty_frame : frame := mkframe [] [].

(** [df.empty] *)
Definition is_empty (df : frame) : bool :=
  match columns df, rows df with
  | [], _ | _, [] => true
  | _, _ => false
  end.

Fixpoint index_of (x : string) (l : list string) : option nat :=
  match l with
  | [] => None
  | y :: r => if String.eqb x y then Some 0
              else option_map S (index_of x r)
  end.

(** [x in l] on labels *)
Definition mem (x : string) (l : list string) : bool :=
  existsb (String.eqb x) l.

Fixpoint has_dup (l : list string) : bool :=
  match l with
  | [] => false
  | x :: r => mem x r || has_dup r
  end.

(** The cell of [row] under the label [col]. *)
Definition cell_at (df_columns : list string) (col : string) (row : list cell)
  : cell :=
  match index_of col df_columns with
  | Some i => nth i row Null
  | None => Null
  end.

(** [str(v)] of a cell of an [object] column, as [astype(str)] takes it. *)
Definition astype_str (c : cell) : option string :=
  match c with
  | Null => Some "None"
  | Str s => Some s
  | _ => None
  end.

(** [.astype(str).str.replace('%', '').str.replace(',', '')] followed by
    [pd.to_numeric(..., errors='coerce')], on one cell. *)
Definition coerce_metric (c : cell) : cell :=
  match c with
  | Num _ => c
  | _ =>
      match astype_str c with
      | Some s =>
          match to_numeric (Py.remove_char "," (Py.remove_char "%" s)) with
          | Some x => Num x
          | None => Null
          end
      | None => Null
      end
  end.

(** Apply [f] to the cells of every column whose label satisfies [sel]. *)
Definition map_columns (sel : string -> bool) (f : cell -> cell) (df : frame)
  : frame :=
  mkframe (columns df)
    (map (fun row =>
            map (fun lc => if sel (fst lc) then f (snd lc) else snd lc)
                (combine (columns df) row))
         (rows df)).

Fixpoint replace_nth {A : Type} (i : nat) (x : A) (l : list A) : list A :=
  match l, i with
  | [], _ => []
  | _ :: r, 0 => x :: r
  | y :: r, S k => y :: replace_nth k x r
  end.

(** [df[col] = v] for a scalar [v]. *)
Definition set_column (col : string) (v : cell) (df : frame) : frame :=
  match index_of col (columns df) with
  | Some i => mkframe (columns df) (map (replace_nth i v) (rows df))
  | None => mkframe (columns df ++ [col])%list
                    (map (fun r => r ++ [v])%list (rows df))
  end.

(** [df.rename(columns={'Population': 'Population *'})], applied when
    ['Population'] is a label and ['Population *'] is not. *)
Definition standardize_population (df : frame) : frame :=
  if mem "Population" (columns df) && negb (mem "Population *" (columns df))
  then mkframe (map (fun c => if String.eqb c "Population"
                              then "Population *" else c) (columns df))
               (rows df)
  else df.

Definition ascii_lower (c : ascii) : ascii :=
  if Py.between 65 90 c then ascii_of_N (Py.ord c + 32) else c.

(** [re.search('total', s, re.IGNORECASE)] *)
Definition contains_total (s : string) : bool :=
  Re.search
    (fold_right
       (fun c r => Re.Seq (Re.Cls (fun a => Ascii.eqb (ascii_lower a) c)) r)
       Re.Eps (Py.chars "total"))
    s.

(** [notna()] and [~str.contains('total', case=False, na=False)] on the
    name cell: the row stays. *)
Definition name_kept (c : cell) : bool :=
  match c with
  | Null => false
  | Str s => negb (contains_total s)
  | _ => true
  end.

(** The two row filters on ['Prison Name'], when that label exists. *)
Definition drop_null_and_total (df : frame) : frame :=
  if mem "Prison Name" (columns df)
  then mkframe (columns df)
         (filter (fun row => name_kept (cell_at (columns df) "Prison Name" row))
                 (rows df))
  else df.

End Tables.

(** ** The line parser of the RTF, DOCX and DOC extractors

    The three extractors run the same loop over [text.split('\n')]; it is
    written once.  Every collected row keeps the index of the line it was
    read from. *)

Definition standard_columns : list string :=
  [ "Prison Name"; "Baseline CNA"; "In Use CNA"; "Operational Capacity";
    "Population *"; "% Pop to In Use CNA"; "% Accommodation Available" ].

Definition default_columns : list string :=
  [ "Prison Name"; "Baseline CNA"; "In Use CNA"; "Operational Capacity";
    "Population"; "% Pop to In Use CNA"; "% Accommodation Available" ].

Definition footer_markers : list string :=
  [ "Sub total"; "NOMS Operated"; "Definitions of Accommodation"; "Total" ].

(** ["Prison Name" in line and ("Baseline" in line or "CNA" in line)] *)
Definition is_header (line : string) : bool :=
  Py.contains "Prison Name" line
  && (Py.contains "Baseline" line || Py.contains "CNA" line).

Fixpoint position (x : string) (l : list string) : option nat :=
  match l with
  | [] => None
  | y :: r => if String.eqb x y then Some 0 else option_map S (position x r)
  end.

(** The repair of a header split between ['Operational'] and
    ['Capacity']. *)
Definition merge_operational (column_names : list string) : list string :=
  match position "Operational" column_names, position "Capacity" column_names with
  | Some op_idx, Some cap_idx =>
      if cap_idx =? op_idx + 1
      then (firstn op_idx column_names ++ "Operational Capacity"
              :: skipn (S cap_idx) column_names)%list
      else column_names
  | _, _ => column_names
  end.

(** The header line, with the next line joined when it continues it. *)
Definition header_text (lines : list string) (i : nat) (line : string) : string :=
  match nth_error lines (i + 1) with
  | Some raw =>
      let next_line := Py.strip raw in
      if Py.nonempty next_line && Py.contains "Capacity" next_line
         && negb (Re.rmatch Re.alpha next_line)
      then line ++ " " ++ next_line
      else line
  | None => line
  end.

(** [re.split(r'\s{2,}', header_line)], stripped, without empty parts,
    repaired. *)
Definition header_tokens (header_line : string) : list string :=
  merge_operational
    (filter Py.nonempty (map Py.strip (Re.split_blank2 header_line))).

(** The column names a header line leaves in [column_names]. *)
Definition header_columns (header_line : string) : list string :=
  let column_names := header_tokens header_line in
  if List.length column_names =? List.length standard_columns
  then column_names else standard_columns.

(** [re.match(r'^\d', part) or part.startswith('%') or part.endswith('%')] *)
Definition numeric_like (part : string) : bool :=
  Re.rmatch Re.digit part || Py.startswith "%" part || Py.endswith "%" part.

Fixpoint first_index {A : Type} (f : A -> bool) (l : list A) : option nat :=
  match l with
  | [] => None
  | x :: r => if f x then Some 0 else option_map S (first_index f r)
  end.

(** The row a data line yields: the name, then the tokens from the first
    numeric one on. *)
Definition split_row (numeric : string -> bool) (parts : list string)
  : option (list string) :=
  match first_index numeric parts with
  | Some idx => Some (Py.join " " (firstn idx parts) :: skipn idx parts)
  | None => None
  end.

Record parser_state : Type := mkstate {
  column_names : option (list string);
  data : list (nat * list string);
  in_data_section : bool;
  data_section_ended : bool
}.

Definition initial_state : parser_state := mkstate None [] false false.

(** The test that lets a line of the data section be read as a row. *)
Definition is_data_row (line : string) : bool :=
  Re.rmatch Re.alpha line && negb (Py.startswith "Report" line)
  && negb (Py.contains "Prison Name" line).

(** One iteration of [for i, line in enumerate(lines)]. *)
Definition parser_step (lines : list string) (st : parser_state)
  (i : nat) (raw : string) : parser_state :=
  let line := Py.strip raw in
  if negb (Py.nonempty line) then st
  else if is_header line then
    mkstate (Some (header_columns (header_text lines i line)))
            (data st) true (data_section_ended st)
  else if in_data_section st then
    if Py.any_in footer_markers line then
      mkstate (column_names st) (data st) (in_data_section st) true
    else if Py.contains "Report Date:" line || Py.startswith "Page" line then st
    else if negb (data_section_ended st) && is_data_row line then
      match split_row numeric_like (Py.split line) with
      | Some row =>
          mkstate (column_names st) (data st ++ [(i, row)])%list
                  (in_data_section st) (data_section_ended st)
      | None => st
      end
    else st
  else st.

Fixpoint parser_loop (lines : list string) (i : nat) (rest : list string)
  (st : parser_state) : parser_state :=
  match rest with
  | [] => st
  | raw :: rest' => parser_loop lines (S i) rest' (parser_step lines st i raw)
  end.

Definition parse_lines (lines : list string) : parser_state :=
  parser_loop lines 0 lines initial_state.

Section Extractors.
Context `{OsPath} `{Pandas}.

(** What an extractor hands to its caller: a table, or an exception. *)
Inductive outcome : Type :=
| Raised
| Returned (df : frame).

(** [pd.DataFrame(data)]: every row is as wide as the widest, short rows
    end in [None]. *)
Definition width {A : Type} (data : list (list A)) : nat :=
  fold_right (fun r w => Nat.max (List.length r) w) 0 data.

Definition raw_row (w : nat) (r : list string) : list cell :=
  (map Str r ++ repeat Null (w - List.length r))%list.

(** The reconciliation of the table with the [n] column names: the first
    [n] columns are kept, or null columns are added. *)
Definition fit_row (w n : nat) (row : list cell) : list cell :=
  if n <? w then firstn n row
  else (row ++ repeat Null (n - w))%list.

Definition assemble (names : list string) (data : list (list string)) : frame :=
  let w := width data in
  mkframe names (map (fun r => fit_row w (List.length names) (raw_row w r)) data).

Definition with_report_date (d : option date) (df : frame) : frame :=
  match d with
  | Some d => set_column "Report_Date" (Day d) df
  | None => df
  end.

(** From the assembled table to the returned one: metric columns are
    coerced, the date is set, the population label is standardised and
    the rows are filtered.  Two equal labels make pandas raise ([None]). *)
Definition finish_frame (df : frame) (report_date : option date)
  : option frame :=
  if has_dup (columns df) then None
  else
    Some
      (drop_null_and_total
         (standardize_population
            (with_report_date report_date
               (map_columns (fun col => negb (String.eqb col "Prison Name"))
                            coerce_metric df)))).

(** The [try ... except] of an extractor. *)
Definition or_empty (r : option frame) : frame :=
  match r with
  | Some df => df
  | None => empty_frame
  end.

Definition names_or_default (st : parser_state) : list string :=
  match column_names st with
  | Some (c :: r) => c :: r
  | _ => default_columns
  end.

(** The part the three line-based extractors share, from the text on. *)
Definition table_of_text (file_path text : string) (report_date : option date)
  : frame :=
  let st := parse_lines (Py.split_on Py.newline text) in
  match data st with
  | [] => empty_frame
  | _ =>
      or_empty (finish_frame (assemble (names_or_default st) (map snd (data st)))
                             report_date)
  end.

(** [extract_data_from_rtf]; [text] is [rtf_to_text] of the file. *)
Definition extract_data_from_rtf (file_path text : string) : frame :=
  table_of_text file_path text
    (extract_report_date_from_file file_path (Some text)).

(** [extract_data_from_docx]; [text] is [docx_to_text] of the file. *)
Definition extract_data_from_docx (file_path text : string) : frame :=
  if negb (Py.nonempty text) then empty_frame
  else table_of_text file_path text
         (extract_report_date_from_file file_path (Some text)).

(** *** The PDF extractor *)

Record pdf_page : Type := mkpage {
  (** [page.extract_text()] *)
  page_text : option string;
  (** [page.extract_tables()] *)
  page_tables : list (list (list (option string)))
}.

Definition pdf_column_names : list string := default_columns.

(** [^Page\s+\d+$] or [^\d+$] *)
Definition is_page_number (line : string) : bool :=
  Re.fullmatch (Re.Seq (Re.Lit "Page")
                  (Re.Seq (Re.Plus Re.space) (Re.Plus Re.digit))) line
  || Re.fullmatch (Re.Plus Re.digit) line.

Definition is_pdf_header (line : string) : bool :=
  (Py.contains "Prison Name" line && Py.contains "Baseline" line
   && Py.contains "CNA" line)
  || (Py.contains "Prison Name" line && Py.contains "Population" line).

Definition pdf_footer_markers : list string :=
  [ "Sub total"; "NOMS Operated"; "Definitions of Accommodation" ].

(** [re.match(r'\d', part) or part.endswith('%')] *)
Definition pdf_numeric (part : string) : bool :=
  Re.rmatch Re.digit part || Py.endswith "%" part.

(** The reconciliation of one row with the seven column names; [None]:
    the row is not added. *)
Definition pdf_reconcile (row_data : list string) : option (list (option string)) :=
  let n := List.length pdf_column_names in
  if Nat.leb (n - 1) (List.length row_data) && negb (Nat.eqb (List.length row_data) 0)
  then
    let row_data :=
      if n <? List.length row_data
      then let extra := List.length row_data - n in
           Py.join " " (firstn (extra + 1) row_data) :: skipn (extra + 1) row_data
      else row_data in
    let cells := map Some row_data in
    Some (if List.length cells <? n
          then (cells ++ repeat None (n - List.length cells))%list
          else if n <? List.length cells then firstn n cells
          else cells)
  else None.

Record pdf_state : Type := mkpdf {
  data_rows : list (nat * list (option string));
  pdf_in_data_section : bool;
  current_prison : option string
}.

Definition pdf_add (st : pdf_state) (i : nat) (row_data : list string)
  (current : option string) : pdf_state :=
  match pdf_reconcile row_data with
  | Some row =>
      mkpdf (data_rows st ++ [(i, row)])%list (pdf_in_data_section st) current
  | None => mkpdf (data_rows st) (pdf_in_data_section st) current
  end.

(** One iteration of [for line in lines] on a page. *)
Definition pdf_step (st : pdf_state) (i : nat) (raw : string) : pdf_state :=
  let line := Py.strip raw in
  if negb (Py.nonempty line) then st
  else if is_page_number line then st
  else if is_pdf_header line then
    mkpdf (data_rows st) true (current_prison st)
  else if Py.contains "Report Date:" line then st
  else if Py.any_in pdf_footer_markers line then
    mkpdf (data_rows st) false (current_prison st)
  else if pdf_in_data_section st then
    let parts := Py.split line in
    if Nat.leb 2 (List.length parts) && negb (Py.isdigit (hd EmptyString parts))
    then
      if negb (existsb pdf_numeric parts) then
        mkpdf (data_rows st) (pdf_in_data_section st) (Some line)
      else
        match current_prison st with
        | Some prison =>
            if Py.nonempty prison && forallb pdf_numeric parts
            then pdf_add st i (prison :: parts) None
            else match split_row pdf_numeric parts with
                 | Some row_data => pdf_add st i row_data (current_prison st)
                 | None => mkpdf (data_rows st) (pdf_in_data_section st) (Some line)
                 end
        | None =>
            match split_row pdf_numeric parts with
            | Some row_data => pdf_add st i row_data None
            | None => mkpdf (data_rows st) (pdf_in_data_section st) (Some line)
            end
        end
    else st
  else st.

Fixpoint pdf_loop (i : nat) (rest : list string) (st : pdf_state) : pdf_state :=
  match rest with
  | [] => st
  | raw :: rest' => pdf_loop (S i) rest' (pdf_step st i raw)
  end.

(** The rows of one page, each with the index of its line. *)
Definition page_rows (text : string) : list (nat * list (option string)) :=
  data_rows (pdf_loop 0 (Py.split_on Py.newline text) (mkpdf [] false None)).

Fixpoint pages_loop (n page_num : nat) (pages : list pdf_page)
  : list ((nat * nat) * list (option string)) :=
  match pages with
  | [] => []
  | page :: rest =>
      ((if Nat.leb (n - 1) page_num && (1 <? n) then []
        else match page_text page with
             | Some text =>
                 if Py.nonempty text
                 then map (fun r => ((page_num, fst r), snd r)) (page_rows text)
                 else []
             | None => []
             end)
       ++ pages_loop n (S page_num) rest)%list
  end.

(** The rows of the main pass, each with its page and line. *)
Definition pdf_main_rows (pages : list pdf_page)
  : list ((nat * nat) * list (option string)) :=
  pages_loop (List.length pages) 0 pages.

(** [str(cell).replace('\n', ' ').strip()] *)
Definition clean_cell (s : string) : string :=
  Py.strip (string_of_list_ascii
              (map (fun c => if Ascii.eqb c Py.newline then " "%char else c)
                   (Py.chars s))).

Definition truthy (c : option string) : bool :=
  match c with
  | Some s => Py.nonempty s
  | None => false
  end.

Definition relaxed_header (header : list (option string)) : bool :=
  Py.any_in [ "Prison"; "CNA"; "Capacity" ]
    (Py.join " " (flat_map (fun h => match h with Some s => [s] | None => [] end)
                           header)).

Definition relaxed_row (row : list (option string)) : list (list (option string)) :=
  match row with
  | [] => []
  | first :: _ =>
      if negb (truthy first)
         || Py.contains "total" (Py.lower (match first with Some s => s | None => EmptyString end))
      then []
      else
        let cleaned_row := map (option_map clean_cell) row in
        match cleaned_row with
        | Some name :: _ =>
            if Py.nonempty name && negb (Re.rmatch Re.digit name)
            then [cleaned_row] else []
        | _ => []
        end
  end.

(** [extract_data_from_pdf_relaxed] *)
Definition extract_data_from_pdf_relaxed (pages : list pdf_page)
  : list (list (option string)) :=
  flat_map
    (fun page =>
       flat_map
         (fun table =>
            match table with
            | header :: _ :: _ =>
                if relaxed_header header
                then flat_map relaxed_row (tl table)
                else []
            | _ => []
            end)
         (page_tables page))
    pages.

Definition of_option (c : option string) : cell :=
  match c with
  | Some s => Str s
  | None => Null
  end.

(** [pd.DataFrame(all_data, columns=column_names)]: the widest row must
    have as many fields as there are names. *)
Definition frame_of_rows (names : list string)
  (all_data : list (list (option string))) : option frame :=
  if width all_data =? List.length names
  then Some (mkframe names
               (map (fun r => (map of_option r
                               ++ repeat Null (List.length names - List.length r))%list)
                    all_data))
  else None.

(** The date of a PDF report: the text of the first page is scanned when
    the file has the [.pdf] extension; a first page without text makes
    [re.search] raise ([None]). *)
Definition pdf_report_date (file_path : string) (pages : list pdf_page)
  : option (option date) :=
  match pages with
  | [] => Some (extract_report_date_from_file file_path None)
  | page :: _ =>
      match page_text page with
      | Some text => Some (extract_report_date_from_file file_path (Some text))
      | None =>
          if String.eqb (Py.lower (extension file_path)) ".pdf" then None
          else Some (extract_report_date_from_file file_path None)
      end
  end.

(** [extract_data_from_pdf]; [pages] is what [pdfplumber] reads. *)
Definition extract_data_from_pdf (file_path : string) (pages : list pdf_page)
  : outcome :=
  let all_data :=
    match map snd (pdf_main_rows pages) with
    | [] => extract_data_from_pdf_relaxed pages
    | rows => rows
    end in
  match all_data with
  | [] => Returned empty_frame
  | _ =>
      match frame_of_rows pdf_column_names all_data,
            pdf_report_date file_path pages with
      | Some df, Some report_date =>
          match finish_frame df report_date with
          | Some df' => Returned df'
          | None => Raised
          end
      | _, _ => Raised
      end
  end.

(** *** The ODS extractor

    [grid] is the sheet as [pd.read_excel(..., header=None, dtype=str)]
    returns it: every cell a string or missing. *)

Definition ods_months : list (string * nat) :=
  [ ("january", 1); ("jan", 1); ("february", 2); ("feb", 2); ("march", 3);
    ("mar", 3); ("april", 4); ("apr", 4); ("may", 5); ("june", 6); ("jun", 6);
    ("july", 7); ("jul", 7); ("august", 8); ("aug", 8); ("september", 9);
    ("sep", 9); ("sept", 9); ("october", 10); ("oct", 10); ("november", 11);
    ("nov", 11); ("december", 12); ("dec", 12) ].

(** The class [[-_\s]] *)
Definition is_sep (c : ascii) : bool :=
  Ascii.eqb c "-" || Ascii.eqb c "_" || Py.isspace c.

Fixpoint skip_seps (s : string) : string :=
  match s with
  | EmptyString => EmptyString
  | String c r => if is_sep c then skip_seps r else s
  end.

(** The group [(\d{4})] at the head of [s]. *)
Definition four_digits (s : string) : option string :=
  let g := String.substring 0 4 s in
  if (String.length g =? 4) && forallb Py.isdecimal (Py.chars g)
  then Some g else None.

Definition drop (n : nat) (s : string) : string :=
  String.substring n (String.length s) s.

(** A match of [(january|jan|...)[-_\s]*(\d{4})] that starts at the head
    of [s]: the first alternative after which the rest matches. *)
Definition month_year_here (s : string) : option (nat * string) :=
  fold_right
    (fun m next =>
       if Py.startswith (fst m) s
       then match four_digits (skip_seps (drop (String.length (fst m)) s)) with
            | Some y => Some (snd m, y)
            | None => next
            end
       else next)
    None ods_months.

(** A match of [(\d{4})[-_\s]*(january|jan|...)] at the head of [s]. *)
Definition year_month_here (s : string) : option (nat * string) :=
  match four_digits s with
  | Some y =>
      match find (fun m => Py.startswith (fst m) (skip_seps (drop 4 s))) ods_months with
      | Some m => Some (snd m, y)
      | None => None
      end
  | None => None
  end.

Fixpoint search_from (here : string -> option (nat * string)) (s : string)
  : option (nat * string) :=
  or_else (here s)
    (match s with
     | EmptyString => None
     | String _ r => search_from here r
     end).

(** The month and the year the fallback of the ODS extractor reads in a
    file name. *)
Definition ods_month_year (filename : string) : option (nat * string) :=
  or_else (search_from month_year_here filename)
   (or_else (search_from year_month_here filename)
      (match search_year filename with
       | Some y =>
           match find (fun m => Py.contains (fst m) filename) ods_months with
           | Some m => Some (snd m, y)
           | None => None
           end
       | None => None
       end)).

(** [pd.to_datetime(f"{year}-{month_num:02d}-01")]: the first day of the
    month; [None] when pandas refuses the date. *)
Definition first_of_month (my : nat * string) : option date :=
  let d := mkdate (int_of_digits (snd my)) (fst my) 1 in
  if timestamp_in_bounds d then Some d else None.

Definition is_label (col : string) (l : option string) : bool :=
  match l with
  | Some s => String.eqb s col
  | None => false
  end.

Definition has_label (labels : list (option string)) (col : string) : bool :=
  existsb (is_label col) labels.

Definition label_twice (labels : list (option string)) (col : string) : bool :=
  1 <? List.length (filter (is_label col) labels).

(** Apply [f] at the positions that [sel] marks. *)
Fixpoint map_where {A : Type} (sel : list bool) (f : A -> A) (row : list A)
  : list A :=
  match sel, row with
  | b :: sel', x :: row' => (if b then f x else x) :: map_where sel' f row'
  | _, _ => row
  end.

(** The elements at the positions that [sel] marks. *)
Fixpoint pick {A : Type} (sel : list bool) (row : list A) : list A :=
  match sel, row with
  | b :: sel', x :: row' => if b then x :: pick sel' row' else pick sel' row'
  | _, _ => []
  end.

Definition ods_numeric_columns : list string :=
  [ "Baseline CNA"; "In Use CNA"; "Operational Capacity"; "Population *" ].

Definition ods_columns : list string :=
  [ "Prison Name"; "Baseline CNA"; "In Use CNA"; "Operational Capacity";
    "Population *"; "Report_Date" ].

(** [astype(str)] on a name cell: a missing one becomes the string
    ['nan']. *)
Definition name_astype_str (c : cell) : cell :=
  match c with
  | Null => Str "nan"
  | _ => c
  end.

(** [.astype(str).str.replace(',', '').str.replace(' ', '')] followed by
    [pd.to_numeric(..., errors='coerce')], on one cell. *)
Definition ods_coerce (c : cell) : cell :=
  match c with
  | Str s =>
      match to_numeric (Py.remove_char " " (Py.remove_char "," s)) with
      | Some x => Num x
      | None => Null
      end
  | Num x => Num x
  | _ => Null
  end.

Definition is_null (c : cell) : bool :=
  match c with
  | Null => true
  | _ => false
  end.

Definition ods_is_total (labels : list (option string)) (row : list cell) : bool :=
  existsb (fun c => match c with Str s => contains_total s | _ => false end)
          (pick (map (is_label "Prison Name") labels) row).

(** [df.iloc[:total_row_idx]]: the rows before the first total row. *)
Fixpoint before_total (labels : list (option string)) (body : list (list cell))
  : list (list cell) :=
  match body with
  | [] => []
  | row :: rest =>
      if ods_is_total labels row then [] else row :: before_total labels rest
  end.

(** The first day of the month, from the name of the file, when the
    resolver finds no date. *)
Definition ods_report_date (file_path : string) : option (option date) :=
  match extract_report_date_from_file file_path None with
  | Some d => Some (Some d)
  | None =>
      match ods_month_year (Py.lower (basename file_path)) with
      | Some my =>
          match first_of_month my with
          | Some d => Some (Some d)
          | None => None
          end
      | None => Some None
      end
  end.

(** [df[available_columns]] *)
Definition ods_select (labels : list (option string)) (wanted : list string)
  (row : list cell) : list cell :=
  flat_map (fun w => pick (map (is_label w) labels) row) wanted.

Definition ods_selected_labels (labels : list (option string))
  (wanted : list string) : list string :=
  flat_map (fun w => map (fun _ => w) (filter (is_label w) labels)) wanted.

(** The index of the first row whose first cell, stripped, is
    ['Prison Name']. *)
Definition ods_header_row (grid : list (list (option string))) : option nat :=
  first_index
    (fun row => match nth 0 row None with
                | Some s => String.eqb (Py.strip s) "Prison Name"
                | None => false
                end) grid.

(** [extract_data_from_ods], after the sheet is read. *)
Definition ods_table (file_path : string) (grid : list (list (option string)))
  : option frame :=
  match ods_header_row grid with
  | None => Some empty_frame
  | Some header_row =>
      let labels := nth header_row grid [] in
      let body := map (map of_option) (skipn (S header_row) grid) in
      if existsb (label_twice labels) ("Prison Name" :: ods_numeric_columns)
      then None
      else
        let body :=
          if has_label labels "Prison Name"
          then before_total labels
                 (map (map_where (map (is_label "Prison Name") labels)
                                 name_astype_str) body)
          else body in
        let body :=
          fold_left
            (fun b col => map (map_where (map (is_label col) labels) ods_coerce) b)
            ods_numeric_columns body in
        match ods_report_date file_path with
        | None => None
        | Some report_date =>
            let labels_body :=
              match report_date with
              | Some d =>
                  if has_label labels "Report_Date"
                  then (labels,
                        map (map_where (map (is_label "Report_Date") labels)
                                       (fun _ => Day d)) body)
                  else ((labels ++ [Some "Report_Date"])%list,
                        map (fun r => (r ++ [Day d])%list) body)
              | None => (labels, body)
              end in
            let labels := fst labels_body in
            let body := snd labels_body in
            if negb (has_label labels "Report_Date") then Some empty_frame
            else
              let available_columns := filter (has_label labels) ods_columns in
              let available_numeric :=
                filter (has_label labels) ods_numeric_columns in
              let kept :=
                filter
                  (fun row =>
                     forallb (fun c => negb (is_null c))
                             (pick (map (is_label "Prison Name") labels) row))
                  body in
              let kept :=
                match available_numeric with
                | [] => kept
                | _ =>
                    filter
                      (fun row =>
                         negb (forallb is_null
                                 (ods_select labels available_numeric row)))
                      kept
                end in
              let df :=
                mkframe (ods_selected_labels labels available_columns)
                        (map (ods_select labels available_columns) kept) in
              if is_empty df then Some empty_frame else Some df
        end
  end.

(** [extract_data_from_ods]; [grid] is [None] when the sheet cannot be
    read, and rectangular otherwise. *)
Definition extract_data_from_ods (file_path : string)
  (grid : option (list (list (option string)))) : frame :=
  match grid with
  | Some g => or_empty (ods_table file_path g)
  | None => empty_frame
  end.

(** *** The ODS table, row by row *)





End Extractors.

(** ** The DOC extractor

    Text recovery from a legacy document depends on the host: which
    system it is, which files exist, what Word, olefile, antiword and
    catdoc return.  [host] records those answers; the recovery functions
    run in a writer monad that logs every access to the file system. *)

Inductive event : Type :=
| Probe (path : string)
| WordOpen (path : string)
| WordSaveAs (path : string)
| OleRead (path : string)
| Run (tool path : string)
| DocxRead (path : string)
| BytesRead (path : string).

Definition io (A : Type) : Type := (list event * A)%type.

Definition ret {A : Type} (x : A) : io A := ([], x).

Definition bind {A B : Type} (m : io A) (f : A -> io B) : io B :=
  let (e1, x) := m in
  let (e2, y) := f x in
  ((e1 ++ e2)%list, y).

Definition tell (e : event) : io unit := ([e], tt).

Declare Scope io_scope.
Delimit Scope io_scope with io.
Notation "x <- m ;; k" := (bind m (fun x => k))
  (at level 61, m at next level, right associativity) : io_scope.
Notation "m ;;; k" := (bind m (fun _ => k))
  (at level 61, right associativity) : io_scope.

Record host : Type := mkhost {
  (** [platform.system() == 'Windows'] *)
  windows : bool;
  (** [os.path.exists] *)
  path_exists : string -> bool;
  (** [os.path.abspath] *)
  abspath : string -> string;
  (** [win32com] can be imported and Word dispatched *)
  word_available : bool;
  (** the paragraphs Word reads from a document; [None]: it raises *)
  word_read : string -> option string;
  (** Word opens the document, saves it as DOCX and closes it without
      raising; a conversion that raises leaves no file *)
  word_convert : string -> bool;
  (** the cleaned text of the [WordDocument] stream; [None]: no olefile,
      no such stream, or an exception *)
  ole_text : string -> option string;
  (** the output of a command-line tool that is installed and succeeds
      with some output *)
  tool_stdout : string -> string -> option string;
  (** [docx_to_text] *)
  docx_text : string -> string;
  (** the cleaned printable runs of the raw bytes; [None]: unreadable, or
      no run *)
  raw_text : string -> option string
}.

(** [saved_in hst log p]: among the accesses of [log], Word has saved the
    file that [p] names. *)
Definition saved_in (hst : host) (log : list event) (p : string) : bool :=
  existsb (fun e => match e with
                    | WordSaveAs q => String.eqb q (abspath hst p)
                    | _ => false
                    end) log.

(** The host once the accesses of [log] are made: a file Word has saved is
    there, the other answers are the same. *)
Definition after (hst : host) (log : list event) : host := {|
  windows := windows hst;
  path_exists := fun p => path_exists hst p || saved_in hst log p;
  abspath := abspath hst;
  word_available := word_available hst;
  word_read := word_read hst;
  word_convert := word_convert hst;
  ole_text := ole_text hst;
  tool_stdout := tool_stdout hst;
  docx_text := docx_text hst;
  raw_text := raw_text hst
|}.

Section Doc.
Context `{OsPath} `{Pandas}.

Local Open Scope io_scope.

(** [is_temp_file] *)
Definition is_temp_file (file_path : string) : bool :=
  Py.startswith "~$" (basename file_path).

(** The sibling of a temporary file: the same name without [~$], in the
    same directory. *)
Definition original_path (file_path : string) : string :=
  join (dirname file_path) (drop 2 (basename file_path)).

(** The document Word is asked to open: the sibling of a temporary file
    when it exists, the file itself otherwise. *)
Definition word_target (hst : host) (file_path : string) : io string :=
  if is_temp_file file_path
  then tell (Probe (original_path file_path)) ;;;
       ret (if path_exists hst (original_path file_path)
            then abspath hst (original_path file_path)
            else abspath hst file_path)
  else ret (abspath hst file_path).

Definition valid_text (text : string) : bool :=
  Py.nonempty text && is_valid_doc_text text.

(** [convert_doc_to_docx]: the path of the converted file, or [""]. *)
Definition convert_doc_to_docx (hst : host) (doc_path : string) : io string :=
  if negb (Py.endswith ".doc" (Py.lower doc_path)) then ret EmptyString
  else
    let docx_path :=
      String.substring 0 (String.length doc_path
                          - String.length (extension doc_path)) doc_path
      ++ "_converted.docx" in
    tell (Probe docx_path) ;;;
    if path_exists hst docx_path then ret docx_path
    else if negb (windows hst) then ret EmptyString
    else if negb (word_available hst) then ret EmptyString
    else
      target <- word_target hst doc_path ;;
      tell (WordOpen target) ;;;
      if word_convert hst target
      then tell (WordSaveAs (abspath hst docx_path)) ;;; ret docx_path
      else ret EmptyString.

(** One stage of the chain: [Some text] ends it. *)
Definition stage : Type := io (option string).

Definition word_stage (hst : host) (file_path : string) : stage :=
  if windows hst && word_available hst
  then
    target <- word_target hst file_path ;;
    tell (WordOpen target) ;;;
    ret (match word_read hst target with
         | Some text => if valid_text text then Some text else None
         | None => None
         end)
  else ret None.

Definition ole_stage (hst : host) (file_path : string) : stage :=
  tell (OleRead file_path) ;;;
  ret (match ole_text hst file_path with
       | Some text =>
           if Py.nonempty text && (100 <? String.length text)
              && is_valid_doc_text text
           then Some text else None
       | None => None
       end).

Definition tool_stage (hst : host) (tool file_path : string) : stage :=
  tell (Run tool file_path) ;;;
  ret (match tool_stdout hst tool file_path with
       | Some text => if is_valid_doc_text text then Some text else None
       | None => None
       end).

(** The conversion stage: [os.path.exists] is asked again once
    [convert_doc_to_docx] has returned, of the host as the conversion
    left it. *)
Definition convert_stage (hst : host) (file_path : string) : stage :=
  if windows hst
  then
    let converted := convert_doc_to_docx hst file_path in
    let now := after hst (fst converted) in
    docx_path <- converted ;;
    if Py.nonempty docx_path
    then tell (Probe docx_path) ;;;
         if path_exists now docx_path
         then tell (DocxRead docx_path) ;;;
              ret (if valid_text (docx_text now docx_path)
                   then Some (docx_text now docx_path) else None)
         else ret None
    else ret None
  else ret None.

Definition raw_stage (hst : host) (file_path : string) : stage :=
  tell (BytesRead file_path) ;;;
  ret (match raw_text hst file_path with
       | Some text =>
           if Py.any_in [ "Prison"; "CNA"; "Capacity"; "Population" ] text
           then Some text else None
       | None => None
       end).

(** The stages in order; the first text ends the chain. *)
Fixpoint first_text (stages : list stage) : io string :=
  match stages with
  | [] => ret EmptyString
  | s :: rest =>
      r <- s ;;
      match r with
      | Some text => ret text
      | None => first_text rest
      end
  end.

(** [doc_to_text]; the conversion stage is the only one that writes a
    file, and no stage before it asks whether a file exists. *)
Definition doc_to_text (hst : host) (file_path : string) : io string :=
  first_text
    [ word_stage hst file_path; ole_stage hst file_path;
      tool_stage hst "antiword" file_path; tool_stage hst "catdoc" file_path;
      convert_stage hst file_path; raw_stage hst file_path ].

(** [c.isalpha()] *)
Definition isalpha_char (c : ascii) : bool :=
  Py.isasciialpha c || (Py.ord c =? 170)%N || (Py.ord c =? 181)%N
  || (Py.ord c =? 186)%N || Py.between 192 214 c || Py.between 216 246 c
  || Py.between 248 255 c.

(** [validate_prison_data] *)
Definition validate_prison_data (data : list (list string)) : bool :=
  if List.length data <? 2 then false
  else if existsb (fun row => (List.length row <? 2) || (10 <? List.length row)) data
  then false
  else if negb (forallb (fun row => existsb isalpha_char
                                      (Py.chars (hd EmptyString row))) data)
  then false
  else negb (existsb
               (fun row =>
                  existsb (fun value =>
                             float_outside
                               (Py.remove_char "%" (Py.remove_char "," value)))
                          (tl row))
               data).

(** [extract_data_from_doc].  The call of [extract_data_from_docx] on the
    converted file passes one argument where two are required; it raises,
    and the empty table is returned.  The calls that follow the first
    [doc_to_text] meet the host as that call left it. *)
Definition extract_data_from_doc (hst : host) (file_path : string) : io frame :=
  if is_temp_file file_path then ret empty_frame
  else
    let recovered := doc_to_text hst file_path in
    let now := after hst (fst recovered) in
    text <- recovered ;;
    if negb (valid_text text) && windows now
    then docx_path <- convert_doc_to_docx now file_path ;;
         (if Py.nonempty docx_path then tell (Probe docx_path) else ret tt) ;;;
         ret empty_frame
    else if negb (Py.nonempty text) then ret empty_frame
    else if negb (is_valid_doc_text text) then ret empty_frame
    else
      let st := parse_lines (Py.split_on Py.newline text) in
      match data st with
      | [] => ret empty_frame
      | _ =>
          if negb (validate_prison_data (map snd (data st)))
          then ret empty_frame
          else
            date_text <-
              (if String.eqb (Py.lower (extension file_path)) ".doc"
               then t <- doc_to_text now file_path ;; ret (Some t)
               else ret None) ;;
            ret (or_empty
                   (finish_frame
                      (assemble (names_or_default st) (map snd (data st)))
                      (extract_report_date_from_file file_path date_text)))
      end.

End Doc.

(** ** The corpus combiner: [combine_prison_data]

    A file of the corpus is given by its path, by what each decoder reads
    in it, and by the day it was last modified.  The list of files is the
    one the directory walk yields. *)

Record file : Type := mkfile {
  path : string;
  (** [rtf_to_text] of the content *)
  rtf_text : string;
  (** [docx_to_text] *)
  docx_content : string;
  (** the pages [pdfplumber] reads *)
  pdf_pages : list pdf_page;
  (** the sheet [pd.read_excel] reads *)
  ods_grid : option (list (list (option string)));
  (** [datetime.fromtimestamp(st_mtime).date()] *)
  mtime : date
}.

Section Combiner.
Context `{OsPath} `{Pandas}.
Variable hst : host.

Definition has_suffix (f : file) (ext : string) : bool :=
  String.eqb (Py.lower (extension (path f))) ext.

(** The dispatch on the suffix; [None]: a format that is not
    supported. *)
Definition extract (f : file) : option outcome :=
  if has_suffix f ".ods"
  then Some (Returned (extract_data_from_ods (path f) (ods_grid f)))
  else if has_suffix f ".rtf"
  then Some (Returned (extract_data_from_rtf (path f) (rtf_text f)))
  else if has_suffix f ".pdf"
  then Some (extract_data_from_pdf (path f) (pdf_pages f))
  else if has_suffix f ".docx"
  then Some (Returned (extract_data_from_docx (path f) (docx_content f)))
  else if has_suffix f ".doc"
  then Some (Returned (snd (extract_data_from_doc hst (path f))))
  else None.

(** [extract_report_date_from_file(str(file_path))], as the combiner
    calls it once the extractor has returned; the outer [None]: it
    raises. *)
Definition resolve_date (f : file) : option (option date) :=
  if has_suffix f ".pdf" then pdf_report_date (path f) (pdf_pages f)
  else
    Some (extract_report_date_from_file (path f)
            (if has_suffix f ".rtf" then Some (rtf_text f)
             else if has_suffix f ".docx" then Some (docx_content f)
             else if has_suffix f ".doc"
             then Some (snd (doc_to_text
                               (after hst (fst (extract_data_from_doc hst (path f))))
                               (path f)))
             else None)).

(** The body of the loop for one file: the table that is appended to
    [dfs], or [None] when the file is skipped. *)
Definition accept (f : file) : option frame :=
  match extract f with
  | Some (Returned df) =>
      if is_empty df || negb (mem "Prison Name" (columns df)) then None
      else if mem "Report_Date" (columns df) then Some df
      else match resolve_date f with
           | Some (Some d) => Some (set_column "Report_Date" (Day d) df)
           | Some None => Some (set_column "Report_Date" (Day (mtime f)) df)
           | None => None
           end
  | _ => None
  end.

(** [processed_files]: a path is processed once. *)
Fixpoint unprocessed (seen : list string) (files : list file) : list file :=
  match files with
  | [] => []
  | f :: rest =>
      if mem (path f) seen then unprocessed seen rest
      else f :: unprocessed (path f :: seen) rest
  end.

Fixpoint collect (files : list file) : list frame :=
  match files with
  | [] => []
  | f :: rest =>
      match accept f with
      | Some df => df :: collect rest
      | None => collect rest
      end
  end.

Definition columns_to_remove : list string :=
  [ "% Pop to In Use CNA"; "% Accommodation Available" ].

(** The labels of a list, each once, in the order they are first met (the
    order in which Python walks a set is not specified). *)
Fixpoint uniq (l : list string) : list string :=
  match l with
  | [] => []
  | x :: r => x :: filter (fun y => negb (String.eqb x y)) (uniq r)
  end.

(** [standard_columns] of the combiner. *)
Definition union_columns (dfs : list frame) : list string :=
  filter (fun col => negb (mem col columns_to_remove))
         (uniq (flat_map columns dfs)).

(** A row under the union of the columns: the cell of the row when its
    table has the column, a null when it has not. *)
Definition standardize_row (standard df_columns : list string)
  (row : list cell) : list cell :=
  map (fun col => if mem col df_columns then cell_at df_columns col row
                  else Null)
      standard.

(** The three steps on one table: the columns to remove are dropped, the
    missing ones are added as [pd.NA], and [df[standard_columns]] puts
    them in order. *)
Definition standardize (standard : list string) (df : frame) : frame :=
  mkframe standard (map (standardize_row standard (columns df)) (rows df)).

(** [pd.concat(standardized_dfs, ignore_index=True)] *)
Definition concat (standard : list string) (dfs : list frame) : frame :=
  mkframe standard (flat_map rows dfs).

(** [pd.to_numeric(col, errors='coerce')] on one cell *)
Definition numeric_cell (c : cell) : cell :=
  match c with
  | Num x => Num x
  | Str s => match to_numeric s with Some x => Num x | None => Null end
  | _ => Null
  end.

(** [pd.to_datetime(col, errors='coerce')] on one cell: a date out of
    the bounds of the library becomes [NaT]. *)
Definition datetime_cell (c : cell) : cell :=
  match c with
  | Day d => if timestamp_in_bounds d then Day d else Null
  | Str s => match datetime_of_string s with Some d => Day d | None => Null end
  | Num x => match datetime_of_number x with Some d => Day d | None => Null end
  | Null => Null
  end.

(** The key of [sort_values(['Report_Date', 'Prison Name'])]: the date,
    a row without a date after the others, then the name, code point by
    code point, a row without a name after the others.  Keys are compared
    as words over the natural numbers. *)
Definition date_key (c : cell) : list nat :=
  match c with
  | Day d => [ 0; year d; month d; day d ]
  | _ => [ 1 ]
  end.

Definition name_key (c : cell) : list nat :=
  match c with
  | Str s => 0 :: map (fun a => N.to_nat (Py.ord a)) (Py.chars s)
  | _ => [ 1 ]
  end.

Definition sort_key (cols : list string) (row : list cell) : list nat :=
  ((if mem "Report_Date" cols then date_key (cell_at cols "Report_Date" row)
    else [])
   ++ name_key (cell_at cols "Prison Name" row))%list.

Fixpoint word_leb (u v : list nat) : bool :=
  match u, v with
  | [], _ => true
  | _ :: _, [] => false
  | a :: u', b :: v' =>
      if a <? b then true else if b <? a then false else word_leb u' v'
  end.

Fixpoint insert_row (cols : list string) (row : list cell)
  (sorted : list (list cell)) : list (list cell) :=
  match sorted with
  | [] => [row]
  | r :: rest =>
      if word_leb (sort_key cols row) (sort_key cols r)
      then row :: r :: rest
      else r :: insert_row cols row rest
  end.

(** [sort_values]: a stable sort. *)
Definition sort_rows (cols : list string) (l : list (list cell))
  : list (list cell) :=
  fold_right (insert_row cols) [] l.

Definition cell_eqb (a b : cell) : bool :=
  match a, b with
  | Null, Null => true
  | Str s, Str t => String.eqb s t
  | Num x, Num y => if number_eq_dec x y then true else false
  | Day d, Day e =>
      (year d =? year e) && (month d =? month e) && (day d =? day e)
  | _, _ => false
  end.

Fixpoint row_eqb (r1 r2 : list cell) : bool :=
  match r1, r2 with
  | [], [] => true
  | a :: r1', b :: r2' => cell_eqb a b && row_eqb r1' r2'
  | _, _ => false
  end.

(** [drop_duplicates()]: of equal rows the first stays. *)
Fixpoint drop_duplicates (l : list (list cell)) : list (list cell) :=
  match l with
  | [] => []
  | row :: rest =>
      row :: filter (fun r => negb (row_eqb row r)) (drop_duplicates rest)
  end.

Definition combiner_numeric_cols : list string :=
  [ "Baseline CNA"; "In Use CNA"; "Operational Capacity"; "Population *" ].

(** From the accumulated tables to the master table. *)
Definition master (dfs : list frame) : frame :=
  let standard := union_columns dfs in
  let combined := concat standard (map (standardize standard) dfs) in
  let combined := standardize_population combined in
  let combined :=
    map_columns (fun col => mem col combiner_numeric_cols) numeric_cell combined in
  let combined :=
    map_columns (fun col => String.eqb col "Report_Date") datetime_cell combined in
  let combined :=
    mkframe (columns combined) (sort_rows (columns combined) (rows combined)) in
  mkframe (columns combined) (drop_duplicates (rows combined)).

(** The label ['Report_Date'] stands twice in the table; the extractors
    return no other label twice. *)
Definition date_label_twice (df : frame) : bool :=
  1 <? List.length (filter (String.eqb "Report_Date") (columns df)).

(** [combine_prison_data], on the files the directory walk yields.  It
    raises when no table is accumulated, and when one of them has the
    date label twice: [combined_df['Report_Date']] is then a table, which
    [pd.to_datetime] refuses (when [pd.concat] has not refused before);
    the handler raises again. *)
Definition combine_prison_data (files : list file) : outcome :=
  match collect (unprocessed [] files) with
  | [] => Raised
  | dfs => if existsb date_label_twice dfs then Raised
           else Returned (master dfs)
  end.

(** What becomes of one row of an accumulated table in the master
    table. *)
Definition master_row (dfs : list frame) (df : frame) (row : list cell)
  : list cell :=
  let standard := union_columns dfs in
  let cols := columns (standardize_population (mkframe standard [])) in
  map (fun lc => if String.eqb (fst lc) "Report_Date"
                 then datetime_cell (snd lc) else snd lc)
      (combine cols
         (map (fun lc => if mem (fst lc) combiner_numeric_cols
                         then numeric_cell (snd lc) else snd lc)
              (combine cols (standardize_row standard (columns df) row)))).

End Combiner.

(** ** An instance of the pandas interface

    It reads the unsigned decimal integers as numbers and nothing else,
    and takes the dates of the nanosecond resolution.  pandas reads the
    same strings the same way; the examples use no other numeric form. *)

Definition plain_to_numeric (s : string) : option nat :=
  if Py.nonempty s && forallb Py.isdecimal (Py.chars s)
  then Some (int_of_digits s) else None.

Definition nanosecond_bounds (d : date) : bool :=
  ((1678 <=? year d) && (year d <=? 2261))
  || ((year d =? 1677) && (10 <=? month d))
  || ((year d =? 2262) && (month d <=? 4)).

Definition plain_numbers : Pandas := {|
  number := nat;
  number_eq_dec := Nat.eq_dec;
  to_numeric := plain_to_numeric;
  timestamp_in_bounds := nanosecond_bounds;
  float_outside := fun s =>
    match plain_to_numeric s with
    | Some n => 100 * 100 <? n
    | None => false
    end;
  datetime_of_string := fun _ => None;
  datetime_of_number := fun _ => Some (mkdate 1970 1 1)
|}.

(** A number cell of that instance. *)
Definition num (n : nat) : @cell plain_numbers := @Num plain_numbers n.

(** A line break inside a string literal. *)
Definition nl : string := String Py.newline EmptyString.

(** ** Sample documents *)

(** A header of six tokens, and one data line. *)
Definition six_token_header : string :=
  "Prison Name  Baseline CNA  In Use CNA  Operational Capacity  Population *  % Pop".

Definition six_token_lines : list string :=
  [ six_token_header; "Alpha 1 2 3 4 5% 6%" ].

(** A header of seven tokens that are not the standard names. *)
Definition seven_token_header : string :=
  "Prison Name  Baseline CNA  In Use CNA  Operational Capacity  Population  "
  ++ "Pop %  Spare %".

(** A text with the two headers, a data line after each. *)
Definition two_header_text : string :=
  six_token_header ++ nl ++ "Alpha 1 2 3 4 5% 6%" ++ nl
  ++ seven_token_header ++ nl ++ "Beta 1 2 3 4 5% 6%".


(** A text whose data section closes at line 3. *)
Definition closed_text : string :=
  "Prison Name  Baseline CNA" ++ nl ++ "Alpha 1 2 3 4 5% 6%" ++ nl
  ++ "Beta 1 2 3 4 5% 6%" ++ nl ++ "Sub total 2 4 6 8 5% 6%" ++ nl
  ++ "Gamma 1 2 3 4 5% 6%".

(** A page whose data section closes at line 2 and opens again at
    line 3. *)
Definition reopened_page : pdf_page :=
  mkpage (Some ("Prison Name Baseline CNA In Use CNA" ++ nl
                ++ "Alpha 1 2 3 4 5% 6%" ++ nl
                ++ "Sub total 1 2 3 4 5% 6%" ++ nl
                ++ "Prison Name Baseline CNA In Use CNA" ++ nl
                ++ "Beta 1 2 3 4 5% 6%"))
         [].



(** A sheet with a row whose four metrics are not numbers. *)
Definition dashes_sheet : list (list (option string)) :=
  [ [ Some "Table 1"; None; None; None; None ];
    [ Some "Prison Name"; Some "Baseline CNA"; Some "In Use CNA";
      Some "Operational Capacity"; Some "Population *" ];
    [ Some "Alpha"; Some "-"; Some "-"; Some "-"; Some "-" ];
    [ Some "Beta"; Some "1,200"; Some "1 100"; None; Some "-" ];
    [ Some "Sub total"; Some "1"; Some "1"; Some "1"; Some "1" ];
    [ Some "Gamma"; Some "1"; Some "1"; Some "1"; Some "1" ] ].

(** A Windows host with Word, on which the sibling of a temporary file
    exists. *)
Definition sample_host : host := {|
  windows := true;
  path_exists := fun p => String.eqb p "reports/may.doc";
  abspath := fun p => "C:/" ++ p;
  word_available := true;
  word_read := fun _ => None;
  word_convert := fun _ => false;
  ole_text := fun _ => None;
  tool_stdout := fun _ _ => None;
  docx_text := fun _ => EmptyString;
  raw_text := fun _ => None
|}.

(** A corpus of three files with data and one without. *)
Definition blank_file (p : string) : file :=
  mkfile p EmptyString EmptyString [] None (mkdate 2023 1 15).

Definition rtf_file : file :=
  mkfile "reports/jan-2022.rtf" closed_text EmptyString [] None
         (mkdate 2023 1 15).

Definition ods_file : file :=
  mkfile "reports/prison-pop-august-2022.ods" EmptyString EmptyString []
         (Some dashes_sheet) (mkdate 2023 1 15).

Definition pdf_file : file :=
  mkfile "reports/bulletin.pdf" EmptyString EmptyString [ reopened_page ] None
         (mkdate 2023 1 15).

Definition failing_file : file := blank_file "reports/march-2022.docx".

(** A sheet whose header row has the date label twice. *)
Definition twice_dated_sheet : list (list (option string)) :=
  [ [ Some "Prison Name"; Some "Baseline CNA"; Some "Report_Date";
      Some "Report_Date" ];
    [ Some "Alpha"; Some "100"; Some "July"; Some "2022" ] ].

Definition twice_dated_file : file :=
  mkfile "reports/prison-pop-august-2022.ods" EmptyString EmptyString []
         (Some twice_dated_sheet) (mkdate 2023 1 15).

Definition sample_corpus : list file :=
  [ rtf_file; failing_file; ods_file; pdf_file; rtf_file ].

(** The master table of that corpus. *)
Definition sample_master : @frame plain_numbers :=
  mkframe
    [ "Prison Name"; "Baseline CNA"; "In Use CNA"; "Operational Capacity";
      "Population *"; "Report_Date" ]
    [ [ Str "Alpha"; num 1; num 2; num 3; num 4; Day (mkdate 2022 1 31) ];
      [ Str "Beta"; num 1; num 2; num 3; num 4; Day (mkdate 2022 1 31) ];
      [ Str "Beta"; num 1200; num 1100; Null; Null; Day (mkdate 2022 8 31) ];
      [ Str "Alpha"; num 1; num 2; num 3; num 4; Day (mkdate 2023 1 15) ];
      [ Str "Beta"; num 1; num 2; num 3; num 4; Day (mkdate 2023 1 15) ] ].

(** ** The returned table, row by row

    The extractors work on whole columns; the statements speak of rows.
    [final_row] is what becomes of one collected row. *)

Section RowView.
Context `{Pandas}.

Definition coerce_row (names : list string) (row : list cell) : list cell :=
  map (fun lc => if negb (String.eqb (fst lc) "Prison Name")
                 then coerce_metric (snd lc) else snd lc)
      (combine names row).

Definition dated_row (names : list string) (d : option date) (row : list cell)
  : list cell :=
  match d with
  | None => row
  | Some d =>
      match index_of "Report_Date" names with
      | Some i => replace_nth i (Day d) row
      | None => (row ++ [Day d])%list
      end
  end.

Definition final_row (names : list string) (w : nat) (d : option date)
  (r : list string) : list cell :=
  dated_row names d
    (coerce_row names (fit_row w (List.length names) (raw_row w r))).

(** The labels of the returned table. *)
Definition final_columns (names : list string) (d : option date) : list string :=
  columns (standardize_population (with_report_date d (mkframe names []))).

(** The row filter of the returned table. *)
Definition row_kept (cols : list string) (row : list cell) : bool :=
  if mem "Prison Name" cols
  then name_kept (cell_at cols "Prison Name" row)
  else true.

End RowView.

(** ** The single-file entry points: [extract_prison_data],
    [process_prison_file], [save_to_csv] *)

(** A call binds the arguments to the positional parameters of the
    callee; when their numbers differ Python raises [TypeError]
    ([None]). *)
Definition positional {A : Type} (required given : nat) (result : A)
  : option A :=
  if given =? required then Some result else None.

(** [pathlib] on a POSIX host, as far as [Path(p).stem] needs it. *)
Module Pathlib.

(** The parts that name something: empty parts and [.] are dropped. *)
Definition parts (p : string) : list string :=
  filter (fun x => Py.nonempty x && negb (String.eqb x "."))
         (Py.split_on "/" p).

(** [Path(p).name] *)
Definition name (p : string) : string := last (parts p) EmptyString.

(** [s.rfind('.')] *)
Fixpoint rfind_dot (s : string) : option nat :=
  match s with
  | EmptyString => None
  | String c r =>
      match rfind_dot r with
      | Some i => Some (S i)
      | None => if Ascii.eqb c "." then Some 0 else None
      end
  end.

(** [Path(p).stem]: the name up to its last dot, when that dot is
    neither the first nor the last character of the name. *)
Definition stem (p : string) : string :=
  let n := name p in
  match rfind_dot n with
  | Some i =>
      if (0 <? i) && (i <? String.length n - 1)
      then String.substring 0 i n else n
  | None => n
  end.

End Pathlib.

Section Saving.
Context `{OsPath} `{Pandas}.
Variable hst : host.

(** [save_to_csv]: the file it writes, as the directory, the name and the
    table; [None] when it writes nothing. *)
Definition save_to_csv (df : frame) (original_file_path output_dir_path : string)
  : option (string * string * frame) :=
  if is_empty df then None
  else Some (output_dir_path,
             Pathlib.stem original_file_path ++ ".csv", df).

(** The extractors have two positional parameters, [file_path] and
    [output_path]. *)
Definition extractor_parameters : nat := 2.

(** [extract_prison_data]: every extractor is called with the path
    alone. *)
Definition extract_prison_data (f : file) : frame :=
  or_empty
    (if has_suffix f ".ods"
     then positional extractor_parameters 1
            (extract_data_from_ods (path f) (ods_grid f))
     else if has_suffix f ".rtf"
     then positional extractor_parameters 1
            (extract_data_from_rtf (path f) (rtf_text f))
     else if has_suffix f ".pdf"
     then match positional extractor_parameters 1
                  (extract_data_from_pdf (path f) (pdf_pages f)) with
          | Some (Returned df) => Some df
          | _ => None
          end
     else if has_suffix f ".docx"
     then positional extractor_parameters 1
            (extract_data_from_docx (path f) (docx_content f))
     else if has_suffix f ".doc"
     then positional extractor_parameters 1
            (snd (extract_data_from_doc hst (path f)))
     else Some empty_frame).

(** [process_prison_file], up to the test of the extracted table;
    [rest] is what the function does with a table that is not empty
    ([None]: it raises, and the handler returns the empty table). *)
Definition process_prison_file (rest : frame -> option frame) (f : file)
  : frame :=
  or_empty
    (let df := extract_prison_data f in
     if is_empty df then Some empty_frame else rest df).

End Saving.

(** ** Death types: [standardize_death_types] *)

Definition death_type_mapping : list (string * string) :=
  [ ("natural causes", "Natural Causes"); ("self-inflicted", "Self-Inflicted");
    ("self inflicted", "Self-Inflicted"); ("homicide", "Homicide") ].

(** [Series.replace(mapping)] on one value *)
Definition replace_value (mapping : list (string * string)) (x : string)
  : string :=
  match find (fun kv => String.eqb (fst kv) x) mapping with
  | Some kv => snd kv
  | None => x
  end.

(** The three steps on one value of the column. *)
Definition standardize_death_type (x : string) : string :=
  let x := replace_value death_type_mapping (Py.lower x) in
  if Py.startswith "other:" x then "Other" else x.

(** [standardize_death_types] on the column, a missing value being
    [None]: the lambda of the last step calls [startswith] on every
    value, and a missing one has no such method ([None]: the function
    raises). *)
Fixpoint standardize_death_types (column : list (option string))
  : option (list string) :=
  match column with
  | [] => Some []
  | None :: _ => None
  | Some x :: rest =>
      match standardize_death_types rest with
      | Some out => Some (standardize_death_type x :: out)
      | None => None
      end
  end.

(** ** Death rates: [calculate_age_specific_rates] *)

Module Rates.

Definition age_categories : list string :=
  [ "Age_15_20"; "Age_21_29"; "Age_30_39"; "Age_40_49"; "Age_50+" ].

Definition causes : list string :=
  [ "Natural Causes"; "Self-Inflicted"; "Other"; "Homicide" ].

(** A row of [deaths_df]. *)
Record death : Type := mkdeath {
  year : Z;
  age_category : string;
  type_of_death : string;
  total_deaths : Z
}.

(** A row of [population_df]: its year, and the population of each age
    category ([None]: a missing value). *)
Record population : Type := mkpopulation {
  pop_year : Z;
  pop_of : string -> option Z
}.

Section Rate.

(** The quotient [(total / population) * 1000] is taken in double
    precision; the statements hold whatever it is. *)
Variable rate : Type.
Variable zero : rate.
Variable per_thousand : Z -> Z -> rate.

Record result : Type := mkresult {
  r_year : Z;
  r_age_category : string;
  r_cause_of_death : string;
  r_deaths : Z;
  r_population : option Z;
  r_rate_per_1000 : rate
}.

(** The deaths of one year, one age category and one cause. *)
Definition cause_deaths (deaths : list death) (y : Z) (age_cat cause : string)
  : list death :=
  filter (fun d => String.eqb (type_of_death d) cause)
    (filter (fun d => String.eqb (age_category d) age_cat)
       (filter (fun d => Z.eqb (year d) y) deaths)).

Definition sum_deaths (l : list death) : Z :=
  fold_right (fun d acc => (total_deaths d + acc)%Z) 0%Z l.

(** One entry of [results]. *)
Definition cell_of (deaths : list death) (p : population)
  (age_cat cause : string) : result :=
  let total := sum_deaths (cause_deaths deaths (pop_year p) age_cat cause) in
  mkresult (pop_year p) age_cat cause total (pop_of p age_cat)
    (match pop_of p age_cat with
     | Some n => if (0 <? n)%Z then per_thousand total n else zero
     | None => zero
     end).

Definition calculate_age_specific_rates (deaths : list death)
  (populations : list population) : list result :=
  flat_map
    (fun p =>
       flat_map (fun age_cat => map (cell_of deaths p age_cat) causes)
                age_categories)
    populations.

End Rate.

End Rates.

(** ** More sample documents *)

(** A host that is not Windows, on which antiword reads the document. *)
Definition linux_host : host := {|
  windows := false;
  path_exists := fun _ => false;
  abspath := fun p => "/srv/" ++ p;
  word_available := false;
  word_read := fun _ => None;
  word_convert := fun _ => false;
  ole_text := fun _ => None;
  tool_stdout := fun tool _ =>
    if String.eqb tool "antiword"
    then Some ("Prison "
               ++ "monthly figures for the capacity and the population held in "
               ++ "each establishment of the estate, as returned by the governors.")
    else None;
  docx_text := fun _ => EmptyString;
  raw_text := fun _ => None
|}.

(** A page without text, with one table. *)
Definition tabled_page : pdf_page :=
  mkpage None
    [ [ [ Some "Prison"; Some "In Use CNA" ];
        [ Some ("Long" ++ nl ++ "Lartin "); Some "600" ];
        [ Some "Sub total"; Some "600" ];
        [ Some "2 Wing"; None ] ] ].

(** The table of [reopened_page] in a file whose name gives August
    2022. *)
Definition dated_pdf_table : @frame plain_numbers :=
  mkframe
    [ "Prison Name"; "Baseline CNA"; "In Use CNA"; "Operational Capacity";
      "Population *"; "% Pop to In Use CNA"; "% Accommodation Available";
      "Report_Date" ]
    [ [ Str "Alpha"; num 1; num 2; num 3; num 4; num 5; num 6;
        Day (mkdate 2022 8 31) ];
      [ Str "Beta"; num 1; num 2; num 3; num 4; num 5; num 6;
        Day (mkdate 2022 8 31) ] ].


(** ** The vocabulary of the statements *)

(** [Substring p s]: [p] occurs in [s]. *)
Definition Substring (p s : string) : Prop := exists a b, s = a ++ p ++ b.

(** [Prefix_in r s]: a prefix of [s] is in the language of [r]. *)
Definition Prefix_in (r : Re.regex) (s : string) : Prop :=
  exists a b, s = a ++ b /\ Re.matches r a.

(** [Counts P l k]: exactly [k] elements of [l] satisfy [P]. *)
Inductive Counts {A : Type} (P : A -> Prop) : list A -> nat -> Prop :=
| Counts_nil : Counts P [] 0
| Counts_yes (x : A) (l : list A) (k : nat) :
    P x -> Counts P l k -> Counts P (x :: l) (S k)
| Counts_no (x : A) (l : list A) (k : nat) :
    ~ P x -> Counts P l k -> Counts P (x :: l) k.






(** The acceptance conditions, in terms of the counts the code takes. *)
Definition valid_text_counts (text : string) : Prop :=
  100 <= String.length text /\
  100 * non_ascii_count text <= 20 * String.length text /\
  ms_pattern_count text <= 3 /\
  (forall p, In p suspicious_patterns -> ~ Substring p text) /\
  ((exists k, In k prison_keywords /\ Substring k text) \/
   5 <= List.length (data_like_lines text)).


(** A text of 107 characters, 40 of which are the character DEL. *)
Definition del_text : string :=
  "Prison population and capacity of each establishment, by month of -"
  ++ string_of_list_ascii (repeat (ascii_of_nat 127) 40).

(** A text of 130 characters whose only domain words are in lower case. *)
Definition lower_case_report : string :=
  "monthly figures for the prison capacity and the population held in each "
  ++ "establishment of the estate, as returned by the governors.".



(** [In_section lines i]: a header line stands before position [i]. *)
Definition In_section (lines : list string) (i : nat) : Prop :=
  exists h raw, h < i /\ nth_error lines h = Some raw /\
                is_header (Py.strip raw) = true.


(** A table names the population column in the standard way when it has
    no ['Population'] label without a ['Population *'] one. *)
Definition population_standard (cols : list string) : Prop :=
  In "Population" cols -> In "Population *" cols.

(** [Twice c l]: the label [c] stands at two places of [l]. *)
Definition Twice (c : string) (l : list string) : Prop :=
  exists l1 l2 l3, l = (l1 ++ c :: l2 ++ c :: l3)%list.

(** [earlier d e]: the day [d] comes before the day [e]. *)
Definition earlier (d e : date) : Prop :=
  year d < year e
  \/ (year d = year e
      /\ (month d < month e \/ (month d = month e /\ day d < day e))).

(** The order of Python on strings: the first character that differs
    decides, by its code point; a prefix comes first. *)
Inductive str_le : string -> string -> Prop :=
| str_le_empty (t : string) : str_le EmptyString t
| str_le_less (a b : ascii) (s t : string) :
    nat_of_ascii a < nat_of_ascii b -> str_le (String a s) (String b t)
| str_le_next (a : ascii) (s t : string) :
    str_le s t -> str_le (String a s) (String a t).

Section Vocabulary.
Context `{OsPath} `{Pandas}.
Variable hst : host.

(** The order of the sort keys. *)
Definition row_le (cols : list string) (r1 r2 : list cell) : Prop :=
  word_leb (sort_key cols r1) (sort_key cols r2) = true.

(** The order of two name cells: strings in the order of their code
    points, a cell that is no string after the strings. *)
Definition name_le (n1 n2 : cell) : Prop :=
  match n1, n2 with
  | Str s, Str t => str_le s t
  | _, Str _ => False
  | _, _ => True
  end.

(** The order of the master table, read in the cells of two rows: the
    earlier report date first, a row without a date after the dated ones,
    and for equal dates (or no date on either side) the names in order. *)
Definition report_order (cols : list string) (r1 r2 : list cell) : Prop :=
  let n1 := cell_at cols "Prison Name" r1 in
  let n2 := cell_at cols "Prison Name" r2 in
  match cell_at cols "Report_Date" r1, cell_at cols "Report_Date" r2 with
  | Day d, Day e => earlier d e \/ (d = e /\ name_le n1 n2)
  | Day _, _ => True
  | _, Day _ => False
  | _, _ => name_le n1 n2
  end.

(** What the master table holds for a cell under the label [c]: in the
    date column what [pd.to_datetime] reads in it, in the four numeric
    columns what [pd.to_numeric] reads in it, elsewhere the cell. *)
Definition read_cell (c : string) (x : cell) : cell :=
  if String.eqb c "Report_Date" then datetime_cell x
  else if mem c [ "Baseline CNA"; "In Use CNA"; "Operational Capacity";
                  "Population *" ]
       then numeric_cell x
       else x.

(** [carried df_cols row m_cols row']: [row'], under the labels [m_cols],
    is the row [row] of a table with the labels [df_cols]: a null where
    that table has no such label, the cell as it is read elsewhere. *)
Definition carried (df_cols : list string) (row : list cell)
  (m_cols : list string) (row' : list cell) : Prop :=
  List.length row' = List.length m_cols
  /\ forall c, In c m_cols ->
       (~ In c df_cols -> cell_at m_cols c row' = Null)
       /\ (In c df_cols ->
           cell_at m_cols c row' = read_cell c (cell_at df_cols c row)).

(** A file is usable when its extractor returns a table that is not
    empty and has the name column. *)
Definition usable (f : file) : Prop :=
  exists df, extract hst f = Some (Returned df) /\ is_empty df = false /\
             mem "Prison Name" (columns df) = true.

(** The labels of the master table. *)
Definition master_columns (dfs : list frame) : list string :=
  columns (standardize_population (mkframe (union_columns dfs) [])).

End Vocabulary.

(** A day [datetime.date] accepts: the year from 1 to 9999, the month
    from 1 to 12, the day within the month. *)
Definition calendar_date (d : date) : Prop :=
  1 <= year d < 100 * 100 /\ 1 <= month d <= 12 /\
  1 <= day d <= days_in_month (year d) (month d).

(** [Row_of_line lines i row]: line [i] of [lines] is a data line of an
    open section, and [row] is what the parser reads in it. *)
Definition Row_of_line (lines : list string) (i : nat) (row : list string)
  : Prop :=
  exists raw,
    nth_error lines i = Some raw /\
    In_section lines i /\
    is_header (Py.strip raw) = false /\
    Py.any_in footer_markers (Py.strip raw) = false /\
    Py.contains "Report Date:" (Py.strip raw) = false /\
    Py.startswith "Page" (Py.strip raw) = false /\
    is_data_row (Py.strip raw) = true /\
    split_row numeric_like (Py.split (Py.strip raw)) = Some row.

(** [Last_header lines n i raw]: among the first [n] lines, line [i] is
    the last header line. *)
Definition Last_header (lines : list string) (n i : nat) (raw : string)
  : Prop :=
  i < n /\ nth_error lines i = Some raw /\ is_header (Py.strip raw) = true
  /\ forall j raw', i < j < n -> nth_error lines j = Some raw' ->
                    is_header (Py.strip raw') = false.


(** The names a table is built under, with the population label in its
    standard form. *)
Definition population_renamed (names : list string) : list string :=
  if existsb (String.eqb "Population") names
     && negb (existsb (String.eqb "Population *") names)
  then map (fun c => if String.eqb c "Population" then "Population *" else c)
           names
  else names.

(** The date label, where it is added: a date was found and the names do
    not hold the label. *)
Definition date_label (names : list string) (d : option date) : list string :=
  match d with
  | Some _ => if existsb (String.eqb "Report_Date") names then []
              else [ "Report_Date" ]
  | None => []
  end.

(** The column names of the state, when it has some, are seven. *)
Definition seven_names (st : parser_state) : Prop :=
  match column_names st with
  | Some l => List.length l = 7
  | None => True
  end.

(** The accesses a host that is not Windows can see, in the order of the
    chain. *)
Definition portable_chain (file_path : string) : list event :=
  [ OleRead file_path; Run "antiword" file_path; Run "catdoc" file_path;
    BytesRead file_path ].


(** [stage_accepts hst e text]: the stage of the chain that makes the
    access [e] accepts [text]: olefile reads it, it has more than 100
    characters and passes the oracle; or the tool prints it and it passes
    the oracle; or it is the text of the raw bytes and holds one of the
    four keywords. *)
Definition stage_accepts (hst : host) (e : event) (text : string) : Prop :=
  match e with
  | OleRead p =>
      ole_text hst p = Some text /\ 100 < String.length text
      /\ is_valid_doc_text text = true
  | Run tool p =>
      tool_stdout hst tool p = Some text /\ is_valid_doc_text text = true
  | BytesRead p =>
      raw_text hst p = Some text
      /\ Py.any_in [ "Prison"; "CNA"; "Capacity"; "Population" ] text = true
  | _ => False
  end.

Section MoreVocabulary.
Context `{OsPath} `{Pandas}.
Variable hst : host.

(** What a stage of the chain may hand over: a text the oracle accepts,
    or the text of the raw bytes with one of the four keywords of the
    last stage. *)
Definition checked (file_path text : string) : Prop :=
  is_valid_doc_text text = true
  \/ (raw_text hst file_path = Some text
      /\ Py.any_in [ "Prison"; "CNA"; "Capacity"; "Population" ] text = true).

(** The path [convert_doc_to_docx] writes the converted document to. *)
Definition converted_path (doc_path : string) : string :=
  String.substring 0 (String.length doc_path
                      - String.length (extension doc_path)) doc_path
  ++ "_converted.docx".


(** The first page has no text, and the file has the [.pdf] suffix. *)
Definition first_page_unread (file_path : string) (pages : list pdf_page)
  : Prop :=
  exists page rest, pages = page :: rest /\ page_text page = None
                    /\ Py.lower (extension file_path) = ".pdf".

(** A cell of a date column after [pd.to_datetime]: a day or [NaT]. *)
Definition day_or_null (c : cell) : Prop := c = Null \/ exists d, c = Day d.

(** A cell of a numeric column after [pd.to_numeric]: a number or [NaN]. *)
Definition number_or_null (c : cell) : Prop := c = Null \/ exists x, c = Num x.

End MoreVocabulary.

(** ** Auxiliary definitions of the proofs *)




(** What the loop has seen of the headers after [n] lines: none, or the
    last one, whose names it holds. *)
Definition header_seen (lines : list string) (n : nat) (st : parser_state)
  : Prop :=
  (column_names st = None /\ in_data_section st = false /\ data st = []
   /\ forall j raw, j < n -> nth_error lines j = Some raw ->
                    is_header (Py.strip raw) = false)
  \/ exists i raw,
       Last_header lines n i raw
       /\ column_names st
          = Some (header_columns (header_text lines i (Py.strip raw))).

(* ================================================================== *)
(** * Part II.  Lemmas *)
(* ================================================================== *)

Example split_demo :
  Py.split "  HMP  Alpha 12 3%  " = ["HMP"; "Alpha"; "12"; "3%"].
Proof. reflexivity. Qed.

Example strip_demo : Py.strip "  a b  " = "a b".
Proof. reflexivity. Qed.

Example split_blank2_demo :
  Re.split_blank2 "Prison Name  Baseline CNA   In Use" =
  ["Prison Name"; "Baseline CNA"; "In Use"].
Proof. reflexivity. Qed.

Example data_like_demo :
  Re.rmatch data_like_pattern "Alpha Beta  12 34 rest" = true /\
  Re.rmatch data_like_pattern "Alpha12 34" = false.
Proof. split; reflexivity. Qed.

(** ** Substrings *)

Lemma startswith_spec (p s : string) :
  Py.startswith p s = true <-> exists r, s = p ++ r.
Proof.
  revert s; induction p as [|a p IH]; intros s; simpl.
  - split; [intros _; now exists s | reflexivity].
  - destruct s as [|b s].
    + split; [discriminate | intros [r Hr]; discriminate].
    + rewrite andb_true_iff, IH, Ascii.eqb_eq. split.
      * intros [-> [r ->]]. now exists r.
      * intros [r Hr]. simpl in Hr. injection Hr as -> ->. split; [reflexivity | now exists r].
Qed.

Lemma contains_spec (p s : string) :
  Py.contains p s = true <-> Substring p s.
Proof.
  split.
  - induction s as [|c s IH]; simpl; rewrite orb_true_iff.
    + intros [H | H]; [|discriminate].
      apply startswith_spec in H as [r Hr]. now exists "", r.
    + intros [H | H].
      * apply startswith_spec in H as [r Hr]. now exists "", r.
      * destruct (IH H) as (a & b & ->). now exists (String c a), b.
  - intros (a & b & ->). induction a as [|c a IH]; simpl.
    + assert (H : Py.startswith p (p ++ b) = true)
        by (apply startswith_spec; now exists b).
      destruct (p ++ b); simpl in *; now rewrite H.
    + rewrite IH. apply orb_true_r.
Qed.

Lemma any_in_spec (ks : list string) (s : string) :
  Py.any_in ks s = true <-> exists k, In k ks /\ Substring k s.
Proof.
  unfold Py.any_in. rewrite existsb_exists.
  split; intros (k & Hk & H); exists k; split; auto; now apply contains_spec.
Qed.

Lemma any_in_false (ks : list string) (s : string) :
  Py.any_in ks s = false <-> forall k, In k ks -> ~ Substring k s.
Proof.
  rewrite <- not_true_iff_false, any_in_spec. split.
  - intros H k Hk Hs. apply H. now exists k.
  - intros H (k & Hk & Hs). now apply (H k).
Qed.

Lemma split_on_nonempty (c : ascii) (s : string) : Py.split_on c s <> [].
Proof.
  destruct s as [|a s]; cbn [Py.split_on]; [discriminate |].
  destruct (Ascii.eqb a c); [discriminate |].
  destruct (Py.split_on c s); discriminate.
Qed.

(** ** The oracle *)

Lemma is_valid_doc_text_counts (text : string) :
  is_valid_doc_text text = true <-> valid_text_counts text.
Proof.
  unfold is_valid_doc_text, valid_text_counts, too_strange.
  destruct (Nat.ltb_spec (String.length text) 100) as [Hlen | Hlen].
  { rewrite orb_true_r. split; [discriminate | lia]. }
  assert (Hne : Py.nonempty text = true)
    by (destruct text; [simpl in Hlen; lia | reflexivity]).
  rewrite Hne. cbn [negb orb].
  destruct (Nat.ltb_spec (20 * String.length text) (100 * non_ascii_count text))
    as [Hs | Hs].
  { split; [discriminate | lia]. }
  destruct (Nat.ltb_spec 3 (ms_pattern_count text)) as [Hm | Hm]; cbn [orb].
  { split; [discriminate | lia]. }
  destruct (Py.any_in suspicious_patterns text) eqn:Hsus.
  { split; [discriminate |].
    intros (_ & _ & _ & H & _). apply any_in_spec in Hsus as (p & Hp & Hsub).
    now elim (H p Hp). }
  pose proof (proj1 (any_in_false _ _) Hsus) as Hnone.
  destruct (Py.any_in prison_keywords text) eqn:Hkey; cbn [negb].
  - apply any_in_spec in Hkey. split; [intros _ | reflexivity].
    repeat split; auto.
  - destruct (Nat.ltb_spec (List.length (data_like_lines text)) 5) as [Hd | Hd].
    + split; [discriminate |].
      intros (_ & _ & _ & _ & [Hk | Hk]); [| lia].
      apply any_in_spec in Hk. congruence.
    + split; [intros _ | reflexivity]. repeat split; auto.
Qed.

(** C10.  The keyword test is case-sensitive: a text in which no keyword
    occurs with the capitalisation of [prison_keywords], and which has
    fewer than 5 data-shaped lines, is rejected (whatever its length and
    whether or not it passes the corruption checks). *)
Theorem keyword_test_case_sensitive (text : string) :
  (forall k, In k prison_keywords -> ~ Substring k text) ->
  List.length (data_like_lines text) < 5 ->
  is_valid_doc_text text = false.
Proof.
  intros Hkey Hlines.
  apply not_true_iff_false. intros Hvalid.
  apply is_valid_doc_text_counts in Hvalid.
  destruct Hvalid as (_ & _ & _ & _ & [(k & Hk & Hsub) | Hfive]).
  - exact (Hkey k Hk Hsub).
  - lia.
Qed.

Lemma keyword_test_case_sensitive_witness :
  100 <= String.length lower_case_report /\
  Py.contains "prison capacity" lower_case_report = true /\
  too_strange lower_case_report = false /\
  (3 <? ms_pattern_count lower_case_report)%nat = false /\
  Py.any_in suspicious_patterns lower_case_report = false /\
  is_valid_doc_text lower_case_report = false.
Proof.
  split; [vm_compute; lia |].
  do 4 (split; [reflexivity |]).
  apply (keyword_test_case_sensitive lower_case_report).
  - apply any_in_false. reflexivity.
  - vm_compute. lia.
Defined.

(** The same text is accepted once one keyword is capitalised. *)
Example capitalised_report_is_valid :
  is_valid_doc_text ("Prison " ++ lower_case_report) = true.
Proof. reflexivity. Qed.

(** ** Regular expressions: the matcher decides the language *)

Lemma append_nil_r (s : string) : s ++ "" = s.
Proof. induction s; simpl; congruence. Qed.

Lemma append_assoc (a b c : string) : (a ++ b) ++ c = a ++ b ++ c.
Proof. induction a; simpl; congruence. Qed.

Lemma append_eq_nil (a b : string) : a ++ b = "" -> a = "" /\ b = "".
Proof. destruct a; simpl; [auto | discriminate]. Qed.

Lemma nullable_spec (r : Re.regex) :
  Re.nullable r = true <-> Re.matches r "".
Proof.
  split.
  - induction r; simpl; intros H; try discriminate.
    + constructor.
    + apply andb_true_iff in H as [H1 H2].
      change "" with ("" ++ ""). constructor; auto.
    + apply orb_true_iff in H as [H | H]; [apply Re.MAltL | apply Re.MAltR]; auto.
    + constructor.
  - intros H. remember "" as s eqn:Es.
    induction H; simpl; try reflexivity; try discriminate.
    + apply append_eq_nil in Es as [-> ->]. rewrite IHmatches1, IHmatches2; auto.
    + rewrite IHmatches; auto.
    + rewrite IHmatches; auto using orb_true_r.
Qed.

Lemma deriv_sound (c : ascii) (r : Re.regex) (s : string) :
  Re.matches (Re.deriv c r) s -> Re.matches r (String c s).
Proof.
  revert s; induction r; simpl; intros s H.
  - inversion H.
  - inversion H.
  - destruct (p c) eqn:Hp; inversion H; subst. now constructor.
  - destruct (Re.nullable r1) eqn:Hn.
    + inversion H; subst.
      * inversion H3; subst.
        change (String c (s1 ++ s2)) with (String c s1 ++ s2).
        constructor; auto.
      * change (String c s) with ("" ++ String c s).
        constructor; auto. now apply nullable_spec.
    + inversion H; subst.
      change (String c (s1 ++ s2)) with (String c s1 ++ s2).
      constructor; auto.
  - inversion H; subst; [apply Re.MAltL | apply Re.MAltR]; auto.
  - inversion H; subst.
    change (String c (s1 ++ s2)) with (String c s1 ++ s2).
    constructor; auto.
Qed.

Lemma deriv_complete (c : ascii) (r : Re.regex) (t : string) :
  Re.matches r t -> forall s, t = String c s -> Re.matches (Re.deriv c r) s.
Proof.
  induction 1; intros u Eu; simpl; try discriminate.
  - injection Eu as E1 E2. subst. rewrite H. constructor.
  - destruct s1 as [|a s1]; simpl in Eu.
    + subst s2. assert (Hn : Re.nullable r1 = true) by now apply nullable_spec.
      rewrite Hn. apply Re.MAltR. auto.
    + injection Eu as E1 E2. subst.
      assert (Hd : Re.matches (Re.Seq (Re.deriv c r1) r2) (s1 ++ s2))
        by (constructor; auto).
      destruct (Re.nullable r1); [apply Re.MAltL |]; exact Hd.
  - apply Re.MAltL; auto.
  - apply Re.MAltR; auto.
  - destruct s1 as [|a s1]; simpl in Eu.
    + apply (IHmatches2 u Eu).
    + injection Eu as E1 E2. subst. constructor; auto.
Qed.

Lemma fullmatch_spec (r : Re.regex) (s : string) :
  Re.fullmatch r s = true <-> Re.matches r s.
Proof.
  revert r; induction s as [|c s IH]; intros r; simpl.
  - apply nullable_spec.
  - rewrite IH. split; [apply deriv_sound |].
    intros H. now apply (deriv_complete c r _ H).
Qed.

Lemma rmatch_spec (r : Re.regex) (s : string) :
  Re.rmatch r s = true <-> Prefix_in r s.
Proof.
  revert r; induction s as [|c s IH]; intros r; simpl; rewrite orb_true_iff.
  - split.
    + intros [H | H]; [| discriminate]. exists "", "". split; auto.
      now apply nullable_spec.
    + intros (a & b & E & H). symmetry in E.
      apply append_eq_nil in E as [-> ->]. left. now apply nullable_spec.
  - rewrite IH. split.
    + intros [H | (a & b & -> & H)].
      * exists "", (String c s). split; auto. now apply nullable_spec.
      * exists (String c a), b. split; auto. now apply deriv_sound.
    + intros (a & b & E & H). destruct a as [|a0 a]; simpl in E.
      * left. now apply nullable_spec.
      * injection E as -> ->. right. exists a, b. split; auto.
        now apply (deriv_complete a0 r _ H).
Qed.

Lemma search_spec (r : Re.regex) (s : string) :
  Re.search r s = true <-> exists a b, s = a ++ b /\ Prefix_in r b.
Proof.
  induction s as [|c s IH]; cbn [Re.search]; rewrite orb_true_iff, rmatch_spec.
  - split.
    + intros [H | H]; [| discriminate]. now exists "", "".
    + intros (a & b & E & H). symmetry in E.
      apply append_eq_nil in E as [-> ->]. now left.
  - rewrite IH. split.
    + intros [H | (a & b & -> & H)].
      * now exists "", (String c s).
      * now exists (String c a), b.
    + intros (a & b & E & H). destruct a as [|a0 a]; simpl in E.
      * subst b. now left.
      * injection E as -> ->. right. now exists a, b.
Qed.

Lemma matches_Lit (p s : string) : Re.matches (Re.Lit p) s <-> s = p.
Proof.
  revert s; induction p as [|c p IH]; intros s; simpl.
  - split; [intros H; now inversion H | intros ->; constructor].
  - split.
    + intros H. inversion H; subst. inversion H2; subst.
      apply Ascii.eqb_eq in H1 as ->. apply IH in H4 as ->. reflexivity.
    + intros ->. change (String c p) with (String c "" ++ p).
      constructor; [constructor; apply Ascii.eqb_refl | now apply IH].
Qed.

Lemma matches_head_Lit (p : string) (r : Re.regex) (s : string) :
  Re.matches (Re.Seq (Re.Lit p) r) s -> exists t, s = p ++ t /\ Re.matches r t.
Proof.
  intros H. inversion H; subst. apply matches_Lit in H2 as ->. eauto.
Qed.

Lemma search_Lit (p s : string) :
  Re.search (Re.Lit p) s = true <-> Substring p s.
Proof.
  rewrite search_spec. split.
  - intros (a & b & -> & a' & b' & -> & H). apply matches_Lit in H as ->.
    now exists a, b'.
  - intros (a & b & ->). exists a, (p ++ b). split; auto.
    exists p, b. split; auto. now apply matches_Lit.
Qed.

(** ** The oracle, in the words of the specification *)

Lemma Counts_filter {A : Type} (P : A -> Prop) (p : A -> bool) (l : list A) :
  (forall x, In x l -> (p x = true <-> P x)) ->
  forall k, Counts P l k <-> k = List.length (filter p l).
Proof.
  induction l as [|x l IH]; intros Hp k.
  - split; [intros Hc; now inversion Hc | intros ->; constructor].
  - assert (Hl : forall y, In y l -> (p y = true <-> P y))
      by (intros y Hy; apply Hp; now right).
    specialize (IH Hl). cbn [filter].
    pose proof (Hp x (or_introl eq_refl)) as Hx.
    destruct (p x) eqn:Ex; split.
    + intros Hc. inversion Hc as [| ? ? k' HP Hk | ? ? ? HnP Hk]; subst.
      * cbn. f_equal. now apply IH.
      * exfalso. apply HnP. now apply Hx.
    + intros ->. cbn. constructor; [now apply Hx | now apply IH].
    + intros Hc. inversion Hc as [| ? ? k' HP Hk | ? ? ? HnP Hk]; subst.
      * apply Hx in HP. discriminate.
      * now apply IH.
    + intros ->. apply Counts_no; [| now apply IH].
      intros HP. apply Hx in HP. discriminate.
Qed.












(** [s.count(p)] is the number of the positions at which [p] occurs when
    the first character of [p] is not met again in [p]. *)



















(** The claim as the specification words it fails: 40 of the 107
    characters of the text, more than 20%, are the character DEL, which
    is not printable, and the text is accepted. *)
Lemma del_is_not_counted :
  String.length del_text = 107
  /\ 20 * String.length del_text < 100 * 40
  /\ Counts (fun c => nat_of_ascii c = 127) (list_ascii_of_string del_text) 40
  /\ is_valid_doc_text del_text = true.
Proof.
  split; [vm_compute; reflexivity |].
  split; [vm_compute; lia |].
  split; [| vm_compute; reflexivity].
  apply (Counts_filter _ (fun c => nat_of_ascii c =? 127)).
  - intros c _. apply Nat.eqb_eq.
  - vm_compute. reflexivity.
Qed.

(** ** The date resolver *)

Lemma endswith_spec (p s : string) :
  Py.endswith p s = true <-> exists a, s = a ++ p.
Proof.
  induction s as [|c s IH]; simpl; rewrite orb_true_iff, String.eqb_eq.
  - split.
    + intros [-> | H]; [now exists "" | discriminate].
    + intros [a E]. symmetry in E. apply append_eq_nil in E as [_ ->]. now left.
  - rewrite IH. split.
    + intros [-> | [a ->]]; [now exists "" | now exists (String c a)].
    + intros [a E]. destruct a as [|a0 a]; simpl in E.
      * now left.
      * injection E as _ ->. right. now exists a.
Qed.

Lemma substring_prefix (p q s : string) : Substring (p ++ q) s -> Substring p s.
Proof.
  intros (a & b & ->). exists a, (q ++ b). now rewrite append_assoc.
Qed.

Lemma substring_suffix (p q s : string) : Substring (p ++ q) s -> Substring q s.
Proof.
  intros (a & b & ->). exists (a ++ p), b. now rewrite !append_assoc.
Qed.

(** A pattern [a sep? b] is found exactly when [a b] or [a sep b] occurs. *)
Lemma search_adjacent (a sep b s : string) :
  Re.search (Re.Seq (Re.Lit a) (Re.Seq (Re.Opt (Re.Lit sep)) (Re.Lit b))) s
  = true <-> Substring (a ++ b) s \/ Substring (a ++ sep ++ b) s.
Proof.
  rewrite search_spec. split.
  - intros (u & v & -> & w & x & -> & H).
    apply matches_head_Lit in H as (t & -> & H).
    inversion H as [| | r1 r2 s1 s2 Ho Hb | | | |]; subst.
    apply matches_Lit in Hb as ->.
    inversion Ho as [| | | r1 r2 s Hs | r1 r2 s He | |]; subst.
    + apply matches_Lit in Hs as ->. right. exists u, x.
      now rewrite !append_assoc.
    + inversion He; subst. left. exists u, x. now rewrite !append_assoc.
  - intros [(u & v & ->) | (u & v & ->)].
    + exists u, ((a ++ b) ++ v). split; auto. exists (a ++ b), v. split; auto.
      constructor; [now apply matches_Lit |].
      change b with ("" ++ b). constructor; [| now apply matches_Lit].
      apply Re.MAltR. constructor.
    + exists u, ((a ++ sep ++ b) ++ v). split; auto.
      exists (a ++ sep ++ b), v. split; auto.
      constructor; [now apply matches_Lit |].
      constructor; [| now apply matches_Lit].
      apply Re.MAltL. now apply matches_Lit.
Qed.

Lemma month_test_occurs (y name f sep : string) :
  month_test y name f sep = true -> Substring name f.
Proof.
  unfold month_test. rewrite !orb_true_iff, !search_adjacent, search_Lit.
  intros [[[H | H] | [H | H]] | [[H | H] | H]].
  - now apply substring_prefix in H.
  - now apply substring_prefix in H.
  - now apply substring_suffix in H.
  - now apply substring_suffix, substring_suffix in H.
  - now apply substring_suffix, substring_prefix in H.
  - apply startswith_spec in H as [r ->]. exists "", (sep ++ r).
    now rewrite append_assoc.
  - apply endswith_spec in H as [a ->]. exists (a ++ sep), "".
    now rewrite append_nil_r, append_assoc.
Qed.



Lemma scan_family_sound (f : string) (d : date) :
  scan_family f = Some d ->
  exists name y, In (name, month d) months /\ Substring name f /\
                 search_year f = Some y /\ d = end_of_month y (month d).
Proof.
  unfold scan_family.
  destruct (find _ months) as [[name n]|] eqn:E; [| discriminate].
  apply find_some in E as [Hin Hc]. apply contains_spec in Hc.
  destruct (search_year f) as [y|]; [| discriminate].
  intros [= <-]. now exists name, y.
Qed.

Lemma date_from_filename_sound (f : string) (d : date) :
  date_from_filename f = Some d ->
  exists name y, In (name, month d) months /\ Substring name f /\
                 search_year f = Some y /\ d = end_of_month y (month d).
Proof.
  unfold date_from_filename, or_else.
  destruct (scan_patterns f) as [d0|] eqn:E1.
  - intros [= <-]. unfold scan_patterns in E1.
    destruct (search_year f) as [y|]; [| discriminate].
    destruct (find _ months) as [[name n]|] eqn:E; [| discriminate].
    injection E1 as <-. apply find_some in E as [Hin Hhit].
    exists name, y. repeat split; auto.
    apply existsb_exists in Hhit as (sep & _ & Ht).
    now apply month_test_occurs in Ht.
  - destruct (Py.contains "monthly" f && Py.contains "bulletin" f).
    + destruct (scan_family f) as [d1|] eqn:E2.
      * intros [= <-]. now apply scan_family_sound.
      * destruct (Py.contains "prison-pop" f || Py.contains "prison_pop" f);
          discriminate.
    + destruct (Py.contains "prison-pop" f || Py.contains "prison_pop" f);
        [apply scan_family_sound | discriminate].
Qed.







Example august_2022 :
  extract_report_date_from_file "prison-pop-august-2022.ods" None
  = Some (mkdate 2022 8 31).
Proof. reflexivity. Qed.

Example content_first :
  extract_report_date_from_file "reports/february_2023.rtf"
    (Some "Population bulletin  Report Date:  15/03/2023 Page 1")
  = Some (mkdate 2023 3 15).
Proof. reflexivity. Qed.

Example posix_paths :
  basename "a/b/~$x.doc" = "~$x.doc" /\ dirname "a/b/~$x.doc" = "a/b" /\
  extension "a/b.c/x.tar.GZ" = ".GZ" /\ extension "a/.hidden" = "" /\
  join "a/b" "x.doc" = "a/b/x.doc".
Proof. repeat split; reflexivity. Qed.

(** ** The line parser *)


Lemma is_header_nonempty (line : string) :
  is_header line = true -> Py.nonempty line = true.
Proof. destruct line; [discriminate | reflexivity]. Qed.


(** The cases of one iteration. *)
Ltac step_cases :=
  unfold parser_step; cbv zeta;
  repeat match goal with
         | |- context [if ?b then _ else _] => destruct b eqn:?
         | |- context [match ?x with Some _ => _ | None => _ end] =>
             destruct x eqn:?
         end; cbn [data column_names in_data_section data_section_ended].








(** The names the loop leaves are those of the last header line. *)
Lemma is_header_empty (raw : string) :
  Py.nonempty (Py.strip raw) = false -> is_header (Py.strip raw) = false.
Proof. destruct (Py.strip raw); [reflexivity | discriminate]. Qed.

Lemma parser_step_header (lines : list string) (st : parser_state) (i : nat)
  (raw : string) :
  is_header (Py.strip raw) = true ->
  column_names (parser_step lines st i raw)
  = Some (header_columns (header_text lines i (Py.strip raw))).
Proof.
  intros Hh. unfold parser_step; cbv zeta.
  now rewrite (is_header_nonempty _ Hh), Hh.
Qed.

Lemma parser_step_no_header (lines : list string) (st : parser_state) (i : nat)
  (raw : string) :
  is_header (Py.strip raw) = false ->
  column_names (parser_step lines st i raw) = column_names st
  /\ in_data_section (parser_step lines st i raw) = in_data_section st
  /\ (in_data_section st = false -> data (parser_step lines st i raw) = data st).
Proof.
  intros Hh. unfold parser_step; cbv zeta. rewrite Hh.
  destruct (negb (Py.nonempty (Py.strip raw))); [auto |].
  destruct (in_data_section st) eqn:Es; [| auto].
  repeat match goal with
         | |- context [if ?b then _ else _] => destruct b
         | |- context [match ?x with Some _ => _ | None => _ end] => destruct x
         end; cbn [data column_names in_data_section]; auto;
    repeat split; auto; discriminate.
Qed.

Lemma header_seen_step (lines : list string) (st : parser_state) (n : nat)
  (raw : string) :
  nth_error lines n = Some raw ->
  header_seen lines n st ->
  header_seen lines (S n) (parser_step lines st n raw).
Proof.
  intros Hn Hst.
  destruct (is_header (Py.strip raw)) eqn:Hh.
  - right. exists n, raw. split.
    + repeat split; auto. intros j raw' Hj. lia.
    + now apply parser_step_header.
  - destruct (parser_step_no_header lines st n raw Hh) as (Hc & Hs & Hd).
    destruct Hst as [(Hnone & Hsec & Hdata & Hall) | (i & r & Hlast & Hnames)].
    + left. rewrite Hc, Hs, (Hd Hsec). repeat split; auto.
      intros j raw' Hj Hnj.
      destruct (Nat.eq_dec j n) as [-> | Hne].
      * rewrite Hn in Hnj. injection Hnj as <-. exact Hh.
      * apply (Hall j raw'); [lia | exact Hnj].
    + right. exists i, r. split; [| now rewrite Hc].
      destruct Hlast as (Hlt & Hi & Hhi & Hlater).
      repeat split; auto.
      intros j raw' Hj Hnj.
      destruct (Nat.eq_dec j n) as [-> | Hne].
      * rewrite Hn in Hnj. injection Hnj as <-. exact Hh.
      * apply (Hlater j raw'); [lia | exact Hnj].
Qed.

Lemma header_seen_loop (lines rest : list string) :
  forall pre st,
  lines = (pre ++ rest)%list ->
  header_seen lines (List.length pre) st ->
  header_seen lines (List.length lines)
              (parser_loop lines (List.length pre) rest st).
Proof.
  induction rest as [|raw rest IH]; intros pre st El Hst; cbn [parser_loop].
  - rewrite app_nil_r in El. subst pre. exact Hst.
  - assert (Hn : nth_error lines (List.length pre) = Some raw).
    { rewrite El, nth_error_app2, Nat.sub_diag by lia. reflexivity. }
    pose proof (header_seen_step lines st _ raw Hn Hst) as Hst'.
    replace (S (List.length pre)) with (List.length (pre ++ [raw])%list) in *
      by (rewrite length_app; simpl; lia).
    apply IH; auto. now rewrite <- app_assoc.
Qed.

Lemma parse_lines_header (lines : list string) :
  header_seen lines (List.length lines) (parse_lines lines).
Proof.
  apply (header_seen_loop lines lines [] initial_state); [reflexivity |].
  left. repeat split; auto. intros j raw Hj. simpl in Hj. lia.
Qed.







(** ** Tables, row by row *)

Section TableFacts.
Context `{OsPath} `{Pandas}.

Lemma filter_all {A : Type} (l : list A) : filter (fun _ => true) l = l.
Proof. induction l; simpl; congruence. Qed.

Lemma finish_frame_rows (names : list string) (data : list (list string))
  (d : option date) :
  has_dup names = false ->
  finish_frame (assemble names data) d
  = Some (mkframe (final_columns names d)
            (filter (row_kept (final_columns names d))
                    (map (final_row names (width data) d) data))).
Proof.
  intros Hdup. unfold finish_frame. cbn [assemble columns]. rewrite Hdup.
  f_equal. unfold final_columns, final_row, row_kept, dated_row.
  unfold with_report_date, set_column, map_columns, assemble.
  cbn [columns rows].
  destruct d as [d|]; [destruct (index_of "Report_Date" names) as [i|] |];
    cbn [columns rows map];
    unfold standardize_population, drop_null_and_total; cbn [columns rows];
    repeat match goal with
           | |- context [if ?b then _ else _] => destruct b eqn:?
           end;
    cbn [columns rows] in *; rewrite ?map_map, ?filter_all;
    try reflexivity; congruence.
Qed.



End TableFacts.

(** ** Header mismatch *)

Section HeaderFacts.
Context `{OsPath} `{Pandas}.


End HeaderFacts.

(** ** The PDF loop *)











(** ** Footer markers *)

Section FooterFacts.
Context `{OsPath} `{Pandas}.



End FooterFacts.




(** The claim as the specification words it fails: line 0 is a header
    line of six tokens, and the labels of the table are those of the
    header line that follows at line 2, not the standard ones. *)
Lemma later_header_replaces_schema :
  nth_error (Py.split_on Py.newline two_header_text) 0 = Some six_token_header
  /\ is_header (Py.strip six_token_header) = true
  /\ List.length
       (header_tokens
          (header_text (Py.split_on Py.newline two_header_text) 0
             (Py.strip six_token_header))) = 6
  /\ @extract_data_from_rtf posixpath plain_numbers "x.rtf" two_header_text
     = mkframe
         [ "Prison Name"; "Baseline CNA"; "In Use CNA"; "Operational Capacity";
           "Population *"; "Pop %"; "Spare %" ]
         [ [ Str "Alpha"; num 1; num 2; num 3; num 4; num 5; num 6 ];
           [ Str "Beta"; num 1; num 2; num 3; num 4; num 5; num 6 ] ]
  /\ [ "Prison Name"; "Baseline CNA"; "In Use CNA"; "Operational Capacity";
       "Population *"; "Pop %"; "Spare %" ] <> standard_columns.
Proof.
  split; [vm_compute; reflexivity |].
  split; [vm_compute; reflexivity |].
  split; [vm_compute; reflexivity |].
  split.
  - exact (@eq_refl (@frame plain_numbers)
             (mkframe
                [ "Prison Name"; "Baseline CNA"; "In Use CNA";
                  "Operational Capacity"; "Population *"; "Pop %"; "Spare %" ]
                [ [ Str "Alpha"; num 1; num 2; num 3; num 4; num 5; num 6 ];
                  [ Str "Beta"; num 1; num 2; num 3; num 4; num 5; num 6 ] ])
           <: @extract_data_from_rtf posixpath plain_numbers "x.rtf"
                two_header_text
              = mkframe
                  [ "Prison Name"; "Baseline CNA"; "In Use CNA";
                    "Operational Capacity"; "Population *"; "Pop %"; "Spare %" ]
                  [ [ Str "Alpha"; num 1; num 2; num 3; num 4; num 5; num 6 ];
                    [ Str "Beta"; num 1; num 2; num 3; num 4; num 5; num 6 ] ]).
  - discriminate.
Qed.

(** ** Column-count reconciliation *)

Section ReconcileFacts.
Context `{Pandas}.




Lemma pdf_reconcile_fold (row_data : list string) :
  7 < List.length row_data ->
  pdf_reconcile row_data
  = Some (map Some (Py.join " " (firstn (List.length row_data - 6) row_data)
                    :: skipn (List.length row_data - 6) row_data)).
Proof.
  intros Hlen. unfold pdf_reconcile. cbv zeta.
  change (List.length pdf_column_names) with 7.
  replace (List.length row_data - 7 + 1) with (List.length row_data - 6) by lia.
  destruct (Nat.leb_spec (7 - 1) (List.length row_data)); [| simpl in *; lia].
  destruct (Nat.eqb_spec (List.length row_data) 0); [lia |].
  destruct (Nat.ltb_spec 7 (List.length row_data)); [| lia].
  cbn [andb negb]. rewrite length_map. cbn [List.length]. rewrite length_skipn.
  destruct (Nat.ltb_spec (S (List.length row_data - (List.length row_data - 6))) 7);
    [lia |].
  destruct (Nat.ltb_spec 7 (S (List.length row_data - (List.length row_data - 6))));
    [lia | reflexivity].
Qed.

Lemma pdf_reconcile_exact (row_data : list string) :
  List.length row_data = 7 -> pdf_reconcile row_data = Some (map Some row_data).
Proof.
  intros Hlen. unfold pdf_reconcile. cbv zeta.
  change (List.length pdf_column_names) with 7.
  rewrite Hlen. cbn [Nat.leb Nat.sub Nat.eqb Nat.ltb andb negb].
  rewrite length_map, Hlen. reflexivity.
Qed.

Lemma pdf_reconcile_pad (row_data : list string) :
  List.length row_data = 6 ->
  pdf_reconcile row_data = Some (map Some row_data ++ [None])%list.
Proof.
  intros Hlen. unfold pdf_reconcile. cbv zeta.
  change (List.length pdf_column_names) with 7.
  rewrite Hlen. cbn [Nat.leb Nat.sub Nat.eqb Nat.ltb andb negb].
  rewrite length_map, Hlen. reflexivity.
Qed.

Lemma pdf_reconcile_drop (row_data : list string) :
  List.length row_data < 6 -> pdf_reconcile row_data = None.
Proof.
  intros Hlen. unfold pdf_reconcile. cbv zeta.
  change (List.length pdf_column_names) with 7.
  destruct (Nat.leb_spec (7 - 1) (List.length row_data)); [simpl in *; lia |].
  reflexivity.
Qed.


End ReconcileFacts.



(** ** The ODS table, row by row *)

Section OdsFacts.
Context `{OsPath} `{Pandas}.















End OdsFacts.

(** ** Which rows are dropped *)

Section DropFacts.
Context `{OsPath} `{Pandas}.



End DropFacts.



(** ** Temporary DOC files *)

Lemma snd_bind {A B : Type} (m : io A) (f : A -> io B) :
  snd (bind m f) = snd (f (snd m)).
Proof. unfold bind. destruct m as [e x]. simpl. now destruct (f x). Qed.

Lemma fst_bind {A B : Type} (m : io A) (f : A -> io B) :
  fst (bind m f) = (fst m ++ fst (f (snd m)))%list.
Proof. unfold bind. destruct m as [e x]. simpl. now destruct (f x). Qed.

Ltac io_simpl :=
  repeat (progress (rewrite ?fst_bind, ?snd_bind; cbn [fst snd ret tell app])).

Section DocFacts.
Context `{OsPath} `{Pandas}.
Variable hst : host.


End DocFacts.



(** ** Sorting and duplicates *)

Lemma word_leb_total (u v : list nat) :
  word_leb u v = false -> word_leb v u = true.
Proof.
  revert v; induction u as [|a u IH]; intros [|b v]; simpl; auto; try discriminate.
  destruct (Nat.ltb_spec a b), (Nat.ltb_spec b a); auto; try discriminate; lia.
Qed.

Lemma word_leb_trans (u v w : list nat) :
  word_leb u v = true -> word_leb v w = true -> word_leb u w = true.
Proof.
  revert v w; induction u as [|a u IH]; intros [|b v] [|c w]; simpl; auto;
    try discriminate.
  destruct (Nat.ltb_spec a b), (Nat.ltb_spec b a), (Nat.ltb_spec b c),
    (Nat.ltb_spec c b), (Nat.ltb_spec a c), (Nat.ltb_spec c a);
    auto; try discriminate; try lia.
  apply IH.
Qed.

Section SortFacts.
Context `{Pandas}.
Variable cols : list string.

Lemma insert_row_in (row x : list cell) (l : list (list cell)) :
  In x (insert_row cols row l) <-> x = row \/ In x l.
Proof.
  induction l as [|r l IH]; simpl.
  - intuition.
  - destruct (word_leb _ _); simpl; rewrite ?IH; intuition.
Qed.

Lemma sort_rows_in (x : list cell) (l : list (list cell)) :
  In x (sort_rows cols l) <-> In x l.
Proof.
  induction l as [|r l IH]; simpl; [tauto |].
  rewrite insert_row_in, IH. intuition.
Qed.

Lemma insert_row_sorted (row : list cell) (l : list (list cell)) :
  StronglySorted (row_le cols) l -> StronglySorted (row_le cols) (insert_row cols row l).
Proof.
  induction l as [|r l IH]; simpl; intros Hs.
  - repeat constructor.
  - apply StronglySorted_inv in Hs as [Hl Hr].
    destruct (word_leb (sort_key cols row) (sort_key cols r)) eqn:E.
    + constructor; [constructor; auto |].
      constructor; [exact E |].
      eapply Forall_impl; [| exact Hr]. intros y Hy.
      unfold row_le in *. eapply word_leb_trans; eauto.
    + constructor; [auto |].
      apply Forall_forall. intros y Hy. apply insert_row_in in Hy as [-> | Hy].
      * now apply word_leb_total.
      * rewrite Forall_forall in Hr. auto.
Qed.

Lemma sort_rows_sorted (l : list (list cell)) :
  StronglySorted (row_le cols) (sort_rows cols l).
Proof.
  induction l as [|r l IH]; simpl; [constructor |].
  now apply insert_row_sorted.
Qed.

Lemma filter_sorted (f : list cell -> bool) (l : list (list cell)) :
  StronglySorted (row_le cols) l -> StronglySorted (row_le cols) (filter f l).
Proof.
  induction l as [|r l IH]; simpl; intros Hs; [constructor |].
  apply StronglySorted_inv in Hs as [Hl Hr].
  destruct (f r); auto. constructor; auto.
  apply Forall_forall. intros y Hy. apply filter_In in Hy as [Hy _].
  rewrite Forall_forall in Hr. auto.
Qed.

Lemma cell_eqb_eq (a b : cell) : cell_eqb a b = true <-> a = b.
Proof.
  destruct a as [|s|x|d], b as [|t|y|e]; simpl; split; try discriminate; auto.
  - intros E. apply String.eqb_eq in E. congruence.
  - intros [= ->]. apply String.eqb_refl.
  - destruct (number_eq_dec x y); [congruence | discriminate].
  - intros [= ->]. now destruct (number_eq_dec y y).
  - destruct d, e; simpl. rewrite !andb_true_iff, !Nat.eqb_eq.
    intros [[-> ->] ->]. reflexivity.
  - intros [= ->]. now rewrite !Nat.eqb_refl.
Qed.

Lemma row_eqb_eq (r1 r2 : list cell) : row_eqb r1 r2 = true <-> r1 = r2.
Proof.
  revert r2; induction r1 as [|a r1 IH]; intros [|b r2]; simpl;
    split; try discriminate; auto.
  - rewrite andb_true_iff, cell_eqb_eq, IH. intros [-> ->]. reflexivity.
  - intros [= -> ->]. rewrite andb_true_iff, cell_eqb_eq, IH. auto.
Qed.

Lemma drop_duplicates_in (x : list cell) (l : list (list cell)) :
  In x (drop_duplicates l) <-> In x l.
Proof.
  induction l as [|r l IH]; simpl; [tauto |].
  rewrite filter_In, IH. split.
  - intuition.
  - intros [-> | Hin]; auto.
    destruct (row_eqb r x) eqn:E.
    + left. now apply row_eqb_eq.
    + right. auto.
Qed.

Lemma drop_duplicates_nodup (l : list (list cell)) : NoDup (drop_duplicates l).
Proof.
  induction l as [|r l IH]; simpl; constructor.
  - rewrite filter_In. intros [_ E].
    assert (Hr : row_eqb r r = true) by now apply row_eqb_eq.
    now rewrite Hr in E.
  - now apply NoDup_filter.
Qed.

Lemma drop_duplicates_sorted (l : list (list cell)) :
  StronglySorted (row_le cols) l -> StronglySorted (row_le cols) (drop_duplicates l).
Proof.
  induction l as [|r l IH]; simpl; intros Hs; [constructor |].
  apply StronglySorted_inv in Hs as [Hl Hr].
  constructor; [now apply filter_sorted, IH |].
  apply Forall_forall. intros y Hy. apply filter_In in Hy as [Hy _].
  apply (proj1 (drop_duplicates_in _ _)) in Hy.
  rewrite Forall_forall in Hr. auto.
Qed.

End SortFacts.

(** ** The combiner *)

Lemma mem_In (x : string) (l : list string) : mem x l = true <-> In x l.
Proof.
  unfold mem. rewrite existsb_exists. split.
  - intros (y & Hy & E). apply String.eqb_eq in E. now subst.
  - intros Hin. exists x. split; auto. apply String.eqb_refl.
Qed.

Lemma mem_false (x : string) (l : list string) : mem x l = false <-> ~ In x l.
Proof. rewrite <- mem_In. now destruct (mem x l). Qed.

Lemma uniq_in (x : string) (l : list string) : In x (uniq l) <-> In x l.
Proof.
  induction l as [|y l IH]; simpl; [tauto |].
  rewrite filter_In, IH. split.
  - intuition.
  - intros [-> | Hin]; auto.
    destruct (String.eqb_spec y x); [now left | right; auto].
Qed.

Section CombinerFacts.
Context `{OsPath} `{Pandas}.
Variable hst : host.

Lemma collect_in (df : frame) (files : list file) :
  In df (collect hst files) <-> exists f, In f files /\ accept hst f = Some df.
Proof.
  induction files as [|f files IH]; simpl.
  - split; [tauto | intros (f & [] & _)].
  - destruct (accept hst f) as [df'|] eqn:E; simpl; rewrite IH; split.
    + intros [<- | (g & Hg & Eg)]; [exists f | exists g]; auto.
    + intros (g & [<- | Hg] & Eg); [left; congruence | right; eauto].
    + intros (g & Hg & Eg). eauto.
    + intros (g & [<- | Hg] & Eg); [congruence | eauto].
Qed.






Lemma standardize_population_rows (df : frame) :
  rows (standardize_population df) = rows df.
Proof. unfold standardize_population. now destruct (_ && _). Qed.

Lemma standardize_population_columns (c : list string) (r r' : list (list cell)) :
  columns (standardize_population (mkframe c r))
  = columns (standardize_population (mkframe c r')).
Proof. unfold standardize_population. cbn [columns]. now destruct (_ && _). Qed.

Lemma master_columns_eq (dfs : list frame) :
  columns (master dfs) = master_columns dfs.
Proof.
  unfold master, master_columns, map_columns, concat. cbn [columns].
  apply standardize_population_columns.
Qed.

Lemma map_flat_rows (G : list cell -> list cell)
  (sr : frame -> list cell -> list cell) (std : list string) (dfs : list frame) :
  map G (flat_map rows (map (fun df => mkframe std (map (sr df) (rows df))) dfs))
  = flat_map (fun df => map (fun r => G (sr df r)) (rows df)) dfs.
Proof.
  induction dfs as [|df dfs IH]; simpl; auto.
  now rewrite map_app, map_map, IH.
Qed.

Lemma master_rows (dfs : list frame) :
  rows (master dfs)
  = drop_duplicates
      (sort_rows (master_columns dfs)
         (flat_map (fun df => map (master_row dfs df) (rows df)) dfs)).
Proof.
  set (std := union_columns dfs).
  set (c1 := standardize_population
               (concat std (map (standardize std) dfs))).
  set (G1 := fun row : list cell =>
               map (fun lc : string * cell =>
                      if mem (fst lc) combiner_numeric_cols
                      then numeric_cell (snd lc) else snd lc)
                   (combine (columns c1) row)).
  set (G2 := fun row : list cell =>
               map (fun lc : string * cell =>
                      if String.eqb (fst lc) "Report_Date"
                      then datetime_cell (snd lc) else snd lc)
                   (combine (columns c1) row)).
  assert (Hc : columns c1 = master_columns dfs)
    by apply standardize_population_columns.
  transitivity (drop_duplicates
                  (sort_rows (columns c1) (map G2 (map G1 (rows c1)))));
    [reflexivity |].
  unfold c1 at 2. rewrite standardize_population_rows.
  unfold concat. cbn [rows]. unfold standardize.
  rewrite map_map.
  rewrite (map_flat_rows _ (fun df => standardize_row std (columns df))).
  rewrite Hc. unfold G1, G2. rewrite Hc. reflexivity.
Qed.

Lemma master_rows_in (dfs : list frame) (row : list cell) :
  In row (rows (master dfs)) <->
  exists df r, In df dfs /\ In r (rows df) /\ row = master_row dfs df r.
Proof.
  rewrite master_rows, drop_duplicates_in, sort_rows_in, in_flat_map. split.
  - intros (df & Hdf & Hin). apply in_map_iff in Hin as (r & <- & Hr). eauto.
  - intros (df & r & Hdf & Hr & ->). exists df. split; auto.
    apply in_map_iff. eauto.
Qed.

Lemma filter_eqb_split (c : string) (l : list string) :
  0 < List.length (filter (String.eqb c) l) ->
  exists l2 l3, l = (l2 ++ c :: l3)%list.
Proof.
  intros Hlen. destruct (filter (String.eqb c) l) as [|x r] eqn:E;
    [simpl in Hlen; lia |].
  assert (Hx : In x (filter (String.eqb c) l)) by (rewrite E; now left).
  apply filter_In in Hx as [Hx Ec]. apply String.eqb_eq in Ec. subst x.
  now apply in_split.
Qed.

Lemma label_twice_iff (c : string) (l : list string) :
  (1 <? List.length (filter (String.eqb c) l)) = true <-> Twice c l.
Proof.
  rewrite Nat.ltb_lt. unfold Twice. split.
  - induction l as [|x l IH]; simpl; [lia |].
    destruct (String.eqb_spec c x) as [<- | Hne]; simpl.
    + intros Hlen. destruct (filter_eqb_split c l) as (l2 & l3 & ->); [lia |].
      now exists [], l2, l3.
    + intros Hlen. destruct (IH Hlen) as (l1 & l2 & l3 & ->).
      now exists (x :: l1), l2, l3.
  - intros (l1 & l2 & l3 & ->).
    rewrite filter_app. simpl. rewrite String.eqb_refl.
    rewrite filter_app. simpl. rewrite String.eqb_refl.
    rewrite length_app. simpl. rewrite length_app. simpl. lia.
Qed.

Lemma date_label_twice_iff (df : frame) :
  date_label_twice df = true <-> Twice "Report_Date" (columns df).
Proof. apply label_twice_iff. Qed.

Lemma combine_returned (files : list file) (m : frame) :
  combine_prison_data hst files = Returned m ->
  m = master (collect hst (unprocessed [] files))
  /\ collect hst (unprocessed [] files) <> []
  /\ forall df, In df (collect hst (unprocessed [] files)) ->
       ~ Twice "Report_Date" (columns df).
Proof.
  unfold combine_prison_data.
  destruct (collect hst (unprocessed [] files)) as [|df0 dfs] eqn:E;
    [discriminate |].
  destruct (existsb date_label_twice (df0 :: dfs)) eqn:Et; [discriminate |].
  intros [= <-]. split; [reflexivity |]. split; [discriminate |].
  intros df Hdf Htw. apply date_label_twice_iff in Htw.
  assert (Hex : existsb date_label_twice (df0 :: dfs) = true)
    by (apply existsb_exists; eauto).
  congruence.
Qed.



End CombinerFacts.

(** ** The master table *)

Lemma in_app_single (x c : string) (l : list string) :
  x <> c -> In x (l ++ [c])%list <-> In x l.
Proof.
  intros Hne. rewrite in_app_iff. simpl. intuition congruence.
Qed.

Section MasterFacts.
Context `{OsPath} `{Pandas}.
Variable hst : host.

Lemma standardize_population_ok (df : frame) :
  population_standard (columns (standardize_population df)).
Proof.
  unfold standardize_population, population_standard.
  destruct (mem "Population" (columns df)) eqn:Ep;
    destruct (mem "Population *" (columns df)) eqn:Es; cbn [andb negb columns].
  - intros _. now apply mem_In.
  - intros Hin. apply in_map_iff in Hin as (x & Hx & _).
    destruct (String.eqb_spec x "Population"); [discriminate | contradiction].
  - intros Hin. apply mem_In in Hin. congruence.
  - intros Hin. apply mem_In in Hin. congruence.
Qed.

Lemma drop_null_and_total_columns (df : frame) :
  columns (drop_null_and_total df) = columns df.
Proof. unfold drop_null_and_total. now destruct (mem _ _). Qed.

Lemma empty_frame_ok : population_standard (columns empty_frame).
Proof. intros []. Qed.

Lemma finish_frame_ok (df : frame) (d : option date) :
  population_standard (columns (or_empty (finish_frame df d))).
Proof.
  unfold finish_frame. destruct (has_dup (columns df)); cbn [or_empty].
  - apply empty_frame_ok.
  - rewrite drop_null_and_total_columns. apply standardize_population_ok.
Qed.

Lemma table_of_text_ok (file_path text : string) (d : option date) :
  population_standard (columns (table_of_text file_path text d)).
Proof.
  unfold table_of_text. cbv zeta.
  destruct (data _); [apply empty_frame_ok | apply finish_frame_ok].
Qed.

Lemma pdf_ok (file_path : string) (pages : list pdf_page) (df : frame) :
  extract_data_from_pdf file_path pages = Returned df ->
  population_standard (columns df).
Proof.
  unfold extract_data_from_pdf. cbv zeta.
  match goal with
  | |- context [frame_of_rows _ ?x] => generalize x
  end.
  intros [|r rs].
  - intros E. injection E as <-. apply empty_frame_ok.
  - destruct (frame_of_rows pdf_column_names (r :: rs)) as [df0|]; [| discriminate].
    destruct (pdf_report_date file_path pages) as [d|]; [| discriminate].
    pose proof (finish_frame_ok df0 d) as Hok.
    destruct (finish_frame df0 d); [| discriminate].
    intros E. injection E as <-. exact Hok.
Qed.

Lemma doc_ok (file_path : string) :
  population_standard (columns (snd (extract_data_from_doc hst file_path))).
Proof.
  unfold extract_data_from_doc.
  destruct (is_temp_file file_path); [apply empty_frame_ok |].
  cbv zeta. rewrite snd_bind.
  destruct (negb (valid_text (snd (doc_to_text hst file_path))) && windows _).
  { rewrite !snd_bind. apply empty_frame_ok. }
  destruct (negb (Py.nonempty _)); [apply empty_frame_ok |].
  destruct (negb (is_valid_doc_text _)); [apply empty_frame_ok |].
  cbv zeta. destruct (data _); [apply empty_frame_ok |].
  destruct (negb (validate_prison_data _)); [apply empty_frame_ok |].
  rewrite snd_bind. apply finish_frame_ok.
Qed.

Lemma ods_selected_in (labels : list (option string)) (wanted : list string)
  (c : string) :
  In c (ods_selected_labels labels wanted) -> In c wanted.
Proof.
  unfold ods_selected_labels. rewrite in_flat_map.
  intros (w & Hw & Hin). apply in_map_iff in Hin as (l & <- & _). exact Hw.
Qed.

Lemma ods_ok (file_path : string) (grid : option (list (list (option string)))) :
  population_standard (columns (extract_data_from_ods file_path grid)).
Proof.
  assert (Hno : forall df, (forall c, In c (columns df) -> In c ods_columns) ->
                           population_standard (columns df)).
  { intros df Hall Hin. apply Hall in Hin. simpl in Hin.
    repeat (destruct Hin as [Hin | Hin]; [discriminate |]). contradiction. }
  apply Hno. intros c.
  unfold extract_data_from_ods, ods_table.
  destruct grid as [g|]; [| intros []].
  destruct (ods_header_row g) as [h|]; [| intros []].
  cbv zeta.
  destruct (existsb _ _); [intros [] |].
  destruct (ods_report_date file_path) as [d|]; [| intros []].
  match goal with
  | |- context [negb (has_label ?l "Report_Date")] =>
      destruct (negb (has_label l "Report_Date"))
  end; [intros [] |].
  match goal with
  | |- context [is_empty ?df] => destruct (is_empty df)
  end; [intros [] |].
  cbn [or_empty columns]. intros Hin.
  apply ods_selected_in in Hin. apply filter_In in Hin. tauto.
Qed.

Lemma set_column_ok (v : cell) (df : frame) :
  population_standard (columns df) ->
  population_standard (columns (set_column "Report_Date" v df)).
Proof.
  unfold set_column, population_standard.
  destruct (index_of "Report_Date" (columns df)); cbn [columns]; auto.
  rewrite !in_app_single by discriminate. auto.
Qed.

Lemma extract_ok (f : file) (df : frame) :
  extract hst f = Some (Returned df) -> population_standard (columns df).
Proof.
  unfold extract.
  repeat match goal with
         | |- context [if ?b then _ else _] => destruct b
         end; intros E; try discriminate; injection E as E.
  - subst. apply ods_ok.
  - subst. apply table_of_text_ok.
  - now apply pdf_ok in E.
  - subst. unfold extract_data_from_docx.
    destruct (negb _); [apply empty_frame_ok | apply table_of_text_ok].
  - subst. apply doc_ok.
Qed.

Lemma accept_ok (f : file) (df : frame) :
  accept hst f = Some df -> population_standard (columns df).
Proof.
  unfold accept.
  destruct (extract hst f) as [[|df0]|] eqn:Ex; try discriminate.
  apply extract_ok in Ex.
  destruct (is_empty df0 || negb (mem "Prison Name" (columns df0)));
    [discriminate |].
  destruct (mem "Report_Date" (columns df0)); [now intros [= <-] |].
  destruct (resolve_date hst f) as [[d|]|]; try discriminate;
    intros [= <-]; now apply set_column_ok.
Qed.

Lemma union_columns_in (dfs : list frame) (c : string) :
  In c (union_columns dfs) <->
  (exists df, In df dfs /\ In c (columns df)) /\ ~ In c columns_to_remove.
Proof.
  unfold union_columns. rewrite filter_In, uniq_in, in_flat_map.
  rewrite negb_true_iff, mem_false. tauto.
Qed.

Lemma master_columns_union (dfs : list frame) :
  (forall df, In df dfs -> population_standard (columns df)) ->
  master_columns dfs = union_columns dfs.
Proof.
  intros Hok. unfold master_columns, standardize_population. cbn [columns].
  destruct (mem "Population" (union_columns dfs)) eqn:Ep; [| reflexivity].
  apply mem_In, union_columns_in in Ep as [(df & Hdf & Hin) _].
  assert (Hs : In "Population *" (union_columns dfs)).
  { apply union_columns_in. split.
    - exists df. split; auto. now apply Hok.
    - simpl. intros [E | [E | []]]; discriminate. }
  apply mem_In in Hs. now rewrite Hs.
Qed.

Lemma combine_map_self {A : Type} (G : string -> A -> A) (F : string -> A)
  (l : list string) :
  map (fun lc => G (fst lc) (snd lc)) (combine l (map F l))
  = map (fun c => G c (F c)) l.
Proof. induction l as [|x l IH]; simpl; congruence. Qed.

Lemma cell_at_map (h : string -> cell) (cols : list string) (c : string) :
  In c cols -> cell_at cols c (map h cols) = h c.
Proof.
  unfold cell_at. induction cols as [|y cols IH]; simpl; [tauto |].
  intros Hin. destruct (String.eqb_spec c y) as [-> | Hne]; [reflexivity |].
  destruct Hin as [-> | Hin]; [congruence |].
  specialize (IH Hin). now destruct (index_of c cols).
Qed.

Lemma master_row_view (dfs : list frame) (df : frame) (row : list cell) :
  master_columns dfs = union_columns dfs ->
  master_row dfs df row
  = map (fun c =>
           (fun x => if String.eqb c "Report_Date" then datetime_cell x else x)
             ((fun x => if mem c combiner_numeric_cols then numeric_cell x else x)
                (if mem c (columns df) then cell_at (columns df) c row
                 else Null)))
        (union_columns dfs).
Proof.
  intros Hc. unfold master_row. cbv zeta. fold (master_columns dfs).
  rewrite Hc. unfold standardize_row.
  rewrite (combine_map_self
             (fun c x => if mem c combiner_numeric_cols then numeric_cell x else x)).
  rewrite (combine_map_self
             (fun c x => if String.eqb c "Report_Date" then datetime_cell x else x)).
  reflexivity.
Qed.

Lemma master_row_carried (dfs : list frame) (df : frame) (row : list cell) :
  master_columns dfs = union_columns dfs ->
  carried (columns df) row (master_columns dfs) (master_row dfs df row).
Proof.
  intros Hc. rewrite (master_row_view dfs df row Hc), Hc. split.
  - now rewrite length_map.
  - intros c Hin. rewrite (cell_at_map _ _ _ Hin). unfold read_cell.
    change (mem c combiner_numeric_cols)
      with (mem c [ "Baseline CNA"; "In Use CNA"; "Operational Capacity";
                    "Population *" ]).
    split.
    + intros Hnot. apply mem_false in Hnot. rewrite Hnot. cbv beta.
      destruct (String.eqb c "Report_Date");
        destruct (mem c [ "Baseline CNA"; "In Use CNA"; "Operational Capacity";
                          "Population *" ]); reflexivity.
    + intros Hdf. apply mem_In in Hdf. rewrite Hdf.
      destruct (String.eqb_spec c "Report_Date") as [-> | Hne];
        [reflexivity |].
      reflexivity.
Qed.

Lemma accepted_ok (files : list file) (df : frame) :
  In df (collect hst (unprocessed [] files)) ->
  population_standard (columns df).
Proof.
  intros Hdf. apply collect_in in Hdf as (f & _ & Ha).
  now apply accept_ok in Ha.
Qed.

(** The order of the keys is the order of the cells. *)
Lemma word_leb_codes (s t : string) :
  word_leb (map (fun a => N.to_nat (Py.ord a)) (Py.chars s))
           (map (fun a => N.to_nat (Py.ord a)) (Py.chars t)) = true ->
  str_le s t.
Proof.
  revert t; induction s as [|a s IH]; intros t; [constructor |].
  destruct t as [|b t]; simpl; [discriminate |].
  unfold Py.ord. fold (nat_of_ascii a). fold (nat_of_ascii b).
  destruct (Nat.ltb_spec (nat_of_ascii a) (nat_of_ascii b));
    [intros _; now constructor |].
  destruct (Nat.ltb_spec (nat_of_ascii b) (nat_of_ascii a)); [discriminate |].
  assert (E : a = b).
  { rewrite <- (ascii_nat_embedding a), <- (ascii_nat_embedding b).
    f_equal. lia. }
  subst b. intros Hle. apply str_le_next. apply IH. exact Hle.
Qed.

Lemma name_key_le (n1 n2 : cell) :
  word_leb (name_key n1) (name_key n2) = true -> name_le n1 n2.
Proof.
  destruct n1 as [|s|x|d], n2 as [|t|y|e]; simpl; auto; try discriminate.
  apply word_leb_codes.
Qed.

Lemma index_of_unlisted (c : string) (l : list string) :
  mem c l = false -> index_of c l = None.
Proof.
  unfold mem. induction l as [|y l IH]; simpl; [reflexivity |].
  destruct (String.eqb c y); [discriminate |]. simpl.
  intros E. now rewrite (IH E).
Qed.

Lemma row_le_report_order (cols : list string) (r1 r2 : list cell) :
  row_le cols r1 r2 -> report_order cols r1 r2.
Proof.
  unfold row_le, report_order, sort_key. cbv zeta.
  destruct (mem "Report_Date" cols) eqn:Ed.
  - destruct (cell_at cols "Report_Date" r1) as [|s|x|d],
             (cell_at cols "Report_Date" r2) as [|t|y|e];
      cbn [date_key app word_leb]; rewrite ?Nat.ltb_irrefl;
      try (apply name_key_le); try discriminate; auto.
    destruct d as [y1 m1 d1], e as [y2 m2 d2]. cbn [year month day].
    unfold earlier. cbn [year month day].
    destruct (Nat.ltb_spec y1 y2); [intros _; left; lia |].
    destruct (Nat.ltb_spec y2 y1); [discriminate |].
    destruct (Nat.ltb_spec m1 m2); [intros _; left; lia |].
    destruct (Nat.ltb_spec m2 m1); [discriminate |].
    destruct (Nat.ltb_spec d1 d2); [intros _; left; lia |].
    destruct (Nat.ltb_spec d2 d1); [discriminate |].
    intros Hle. right. split.
    + f_equal; lia.
    + now apply name_key_le.
  - assert (E : forall r, cell_at cols "Report_Date" r = Null).
    { intros r. unfold cell_at. now rewrite (index_of_unlisted _ _ Ed). }
    rewrite !E. cbn [app]. apply name_key_le.
Qed.

Lemma StronglySorted_impl {A : Type} (R S : A -> A -> Prop) (l : list A) :
  (forall x y, R x y -> S x y) -> StronglySorted R l -> StronglySorted S l.
Proof.
  intros Himp. induction 1 as [|x l Hs IH Hall]; constructor; auto.
  eapply Forall_impl; [| exact Hall]. intros y. apply Himp.
Qed.


(** C6.  When the run returns a master table: its labels are those of the
    accumulated tables, less the two percentage columns; a row of a table
    that lacks one of these labels is in the master table with a null
    there; no two rows are equal; and the rows are in the order of
    (report date, facility name): the earlier date first, rows without a
    date last, and for equal dates the names in the order of their code
    points, rows without a name last. *)
Theorem master_table_shape (files : list file) (m : frame) :
  combine_prison_data hst files = Returned m ->
  let dfs := collect hst (unprocessed [] files) in
  dfs <> []
  /\ (forall c, In c (columns m) <->
        (exists df, In df dfs /\ In c (columns df))
        /\ ~ In c columns_to_remove)
  /\ (forall df row c,
        In df dfs -> In row (rows df) ->
        In c (columns m) -> ~ In c (columns df) ->
        exists row', In row' (rows m)
                     /\ carried (columns df) row (columns m) row'
                     /\ cell_at (columns m) c row' = Null)
  /\ NoDup (rows m)
  /\ StronglySorted (report_order (columns m)) (rows m).
Proof.
  intros Hret dfs.
  destruct (combine_returned hst files m Hret) as (-> & Hne & _). fold dfs in Hne |- *.
  assert (Hok : forall df, In df dfs -> population_standard (columns df))
    by (intros df; apply accepted_ok).
  pose proof (master_columns_union dfs Hok) as Hc.
  rewrite master_columns_eq.
  split; [exact Hne |].
  split; [rewrite Hc; apply union_columns_in |]. split; [| split].
  - intros df row c Hdf Hrow Hin Hnot.
    exists (master_row dfs df row).
    pose proof (master_row_carried dfs df row Hc) as Hcar.
    split; [apply master_rows_in; now exists df, row |].
    split; [exact Hcar |].
    now apply (proj2 Hcar c Hin).
  - rewrite master_rows. apply drop_duplicates_nodup.
  - apply (StronglySorted_impl (row_le (master_columns dfs)));
      [apply row_le_report_order |].
    rewrite master_rows. apply drop_duplicates_sorted, sort_rows_sorted.
Qed.

End MasterFacts.


(** A sheet whose header row has the date label twice is usable, and the
    run on it raises. *)
Lemma usable_file_run_raises :
  @usable posixpath plain_numbers sample_host twice_dated_file
  /\ @combine_prison_data posixpath plain_numbers sample_host
       [ twice_dated_file ] = Raised.
Proof.
  split.
  - exists (mkframe [ "Prison Name"; "Baseline CNA"; "Report_Date"; "Report_Date" ]
              [ [ Str "Alpha"; num 100; Day (mkdate 2022 8 31);
                  Day (mkdate 2022 8 31) ] ]).
    split; [| split; reflexivity].
    exact (@eq_refl _
             (Some (Returned
                (mkframe [ "Prison Name"; "Baseline CNA"; "Report_Date";
                           "Report_Date" ]
                   [ [ Str "Alpha"; num 100; Day (mkdate 2022 8 31);
                       Day (mkdate 2022 8 31) ] ])))
           <: @extract posixpath plain_numbers sample_host twice_dated_file
              = Some (Returned
                  (mkframe [ "Prison Name"; "Baseline CNA"; "Report_Date";
                             "Report_Date" ]
                     [ [ Str "Alpha"; num 100; Day (mkdate 2022 8 31);
                         Day (mkdate 2022 8 31) ] ]))).
  - exact (@eq_refl (@outcome plain_numbers) Raised
           <: @combine_prison_data posixpath plain_numbers sample_host
                [ twice_dated_file ] = Raised).
Qed.

Lemma master_table_shape_witness :
  @combine_prison_data posixpath plain_numbers sample_host sample_corpus
  = Returned sample_master /\
  NoDup (rows sample_master) /\
  StronglySorted (report_order (columns sample_master)) (rows sample_master).
Proof.
  pose (E := @eq_refl _ (Returned sample_master)
             <: @combine_prison_data posixpath plain_numbers sample_host
                  sample_corpus = Returned sample_master).
  split; [exact E |].
  destruct (@master_table_shape posixpath plain_numbers sample_host
              sample_corpus sample_master E) as (_ & _ & _ & Hnd & Hs).
  split; [exact Hnd | exact Hs].
Defined.

(** ** Further properties: the dates *)

Lemma isdecimal_value (c : ascii) :
  Py.isdecimal c = true -> digit_value c <= 9.
Proof.
  unfold Py.isdecimal, Py.between, digit_value. rewrite andb_true_iff.
  intros [_ H]. apply N.leb_le in H. lia.
Qed.

Lemma search_year_shape (s y : string) :
  search_year s = Some y ->
  exists a b, y = String "2" (String "0" (String a (String b EmptyString)))
              /\ Py.isdecimal a = true /\ Py.isdecimal b = true.
Proof.
  induction s as [|c r IH]; [discriminate |].
  cbn [search_year].
  destruct c as [[] [] [] [] [] [] [] []]; try exact IH.
  destruct r as [|c2 r2]; [exact IH |].
  destruct c2 as [[] [] [] [] [] [] [] []]; try exact IH.
  destruct r2 as [|a r3]; [exact IH |].
  destruct r3 as [|b r4]; [exact IH |].
  destruct (Py.isdecimal a && Py.isdecimal b) eqn:E; [| exact IH].
  apply andb_true_iff in E as [Ea Eb].
  intros [= <-]. now exists a, b.
Qed.

Lemma search_year_range (s y : string) :
  search_year s = Some y -> 2000 <= int_of_digits y <= 2099.
Proof.
  intros Hy. apply search_year_shape in Hy as (a & b & -> & Ha & Hb).
  apply isdecimal_value in Ha, Hb.
  unfold int_of_digits. cbn [Py.chars fold_left].
  change (digit_value "2") with 2. change (digit_value "0") with 0. lia.
Qed.

Lemma months_range (name : string) (n : nat) :
  In (name, n) months -> 1 <= n <= 12.
Proof.
  unfold months. cbn [In].
  intros Hin.
  repeat (destruct Hin as [Hin | Hin]; [injection Hin as _ <-; lia |]).
  contradiction.
Qed.

Lemma last_day_in_month (y n : nat) :
  1 <= last_day n <= days_in_month y n.
Proof.
  unfold last_day, days_in_month.
  destruct (n =? 2); [destruct (is_leap y); lia |].
  destruct (existsb (Nat.eqb n) [4; 6; 9; 11]); lia.
Qed.

Lemma date_group_shape (s g : string) :
  date_group s = Some g ->
  exists d1 d2 m1 m2 y1 y2 y3 y4,
    g = String d1 (String d2 (String "/" (String m1 (String m2 (String "/"
          (String y1 (String y2 (String y3 (String y4 EmptyString)))))))))
    /\ Forall (fun c => Py.isdecimal c = true) [d1; d2; m1; m2; y1; y2; y3; y4].
Proof.
  unfold date_group.
  destruct (Re.fullmatch _ _) eqn:E; [| discriminate].
  intros [= <-]. apply fullmatch_spec in E.
  repeat match goal with
         | H : Re.matches (Re.Seq _ _) _ |- _ =>
             inversion H; subst; clear H
         | H : Re.matches Re.digit _ |- _ => inversion H; subst; clear H
         | H : Re.matches (Re.Cls _) _ |- _ => inversion H; subst; clear H
         | H : Re.matches (Re.Lit _) _ |- _ => apply matches_Lit in H; subst
         | H : Re.matches (Re.Chr _) _ |- _ => inversion H; subst; clear H
         | H : Re.matches Re.Eps _ |- _ => inversion H; subst; clear H
         end.
  apply Ascii.eqb_eq in H2, H7. subst c7 c8.
  exists c6, c5, c4, c3, c2, c1, c0, c. split; [reflexivity |].
  repeat constructor; assumption.
Qed.

Lemma search_report_date_group (text g : string) :
  search_report_date text = Some g -> exists s, date_group s = Some g.
Proof.
  induction text as [|c r IH]; cbn [search_report_date]; unfold or_else.
  - destruct (Py.startswith "Report Date:" ""); [| discriminate].
    destruct (date_group _) eqn:E; [| discriminate].
    intros [= <-]. eauto.
  - destruct (Py.startswith "Report Date:" (String c r)).
    + destruct (date_group _) eqn:E; [intros [= <-]; eauto | exact IH].
    + exact IH.
Qed.

Lemma four_digits_bound (a b c d : ascii) :
  Py.isdecimal a = true -> Py.isdecimal b = true ->
  Py.isdecimal c = true -> Py.isdecimal d = true ->
  int_of_digits (String a (String b (String c (String d EmptyString))))
  < 100 * 100.
Proof.
  intros Ha Hb Hc Hd. apply isdecimal_value in Ha, Hb, Hc, Hd.
  unfold int_of_digits. cbn [Py.chars fold_left]. lia.
Qed.

Lemma date_from_content_calendar (text : string) (d : date) :
  date_from_content text = Some d -> calendar_date d.
Proof.
  unfold date_from_content.
  destruct (search_report_date text) as [g|] eqn:E; [| discriminate].
  apply search_report_date_group in E as [s E].
  apply date_group_shape in E
    as (d1 & d2 & m1 & m2 & y1 & y2 & y3 & y4 & -> & Hall).
  cbn [strptime_dmy].
  destruct (_ && _) eqn:Hok; [| discriminate].
  intros [= <-].
  repeat (apply andb_true_iff in Hok as [Hok ?]).
  repeat match goal with
         | H : (_ <=? _) = true |- _ => apply Nat.leb_le in H
         end.
  inversion Hall as [|? ? _ Hall1]; subst.
  inversion Hall1 as [|? ? _ Hall2]; subst.
  inversion Hall2 as [|? ? _ Hall3]; subst.
  inversion Hall3 as [|? ? _ Hall4]; subst.
  inversion Hall4 as [|? ? Hy1 Hall5]; subst.
  inversion Hall5 as [|? ? Hy2 Hall6]; subst.
  inversion Hall6 as [|? ? Hy3 Hall7]; subst.
  inversion Hall7 as [|? ? Hy4 _]; subst.
  pose proof (four_digits_bound _ _ _ _ Hy1 Hy2 Hy3 Hy4).
  unfold calendar_date. cbn [year month day]. lia.
Qed.

Lemma date_from_filename_calendar (f : string) (d : date) :
  date_from_filename f = Some d ->
  2000 <= year d <= 2099 /\ calendar_date d /\ day d = last_day (month d).
Proof.
  intros Hd.
  apply date_from_filename_sound in Hd as (name & y & Hin & _ & Hy & Hd).
  apply months_range in Hin. apply search_year_range in Hy.
  pose proof (last_day_in_month (int_of_digits y) (month d)).
  rewrite Hd. unfold calendar_date, end_of_month. cbn [year month day]. lia.
Qed.

Section DateFacts.
Context `{OsPath} `{Pandas}.

(** X1.  Every date the resolver returns is a day of the calendar. *)
Theorem resolved_date_is_calendar_date (file_path : string)
  (text : option string) (d : date) :
  extract_report_date_from_file file_path text = Some d ->
  calendar_date d
  /\ (date_from_filename (Py.lower (basename file_path)) = Some d ->
      2000 <= year d <= 2099 /\ day d = last_day (month d)).
Proof.
  intros Hd. split.
  - unfold extract_report_date_from_file, or_else in Hd.
    destruct (existsb _ _).
    + destruct text as [t|].
      * destruct (date_from_content t) as [d0|] eqn:E.
        -- injection Hd as <-. now apply date_from_content_calendar in E.
        -- now apply date_from_filename_calendar in Hd.
      * now apply date_from_filename_calendar in Hd.
    + now apply date_from_filename_calendar in Hd.
  - intros Hf. apply date_from_filename_calendar in Hf. tauto.
Qed.

Lemma ods_months_range (m : string * nat) :
  In m ods_months -> 1 <= snd m <= 12.
Proof.
  unfold ods_months. cbn [In]. intros Hin.
  repeat (destruct Hin as [Hin | Hin]; [subst m; cbn [snd]; lia |]).
  contradiction.
Qed.

Lemma month_year_here_range (s : string) (my : nat * string) :
  month_year_here s = Some my -> 1 <= fst my <= 12.
Proof.
  unfold month_year_here.
  assert (G : forall l, (forall m, In m l -> 1 <= snd m <= 12) ->
            fold_right
              (fun (m : string * nat) next =>
                 if Py.startswith (fst m) s
                 then match four_digits (skip_seps (drop (String.length (fst m)) s)) with
                      | Some y => Some (snd m, y)
                      | None => next
                      end
                 else next) None l = Some my -> 1 <= fst my <= 12).
  { induction l as [|m l IH]; cbn [fold_right]; [discriminate |].
    intros Hl. destruct (Py.startswith (fst m) s).
    - destruct (four_digits _).
      + intros [= <-]. cbn [fst]. apply Hl. now left.
      + apply IH. intros; apply Hl; now right.
    - apply IH. intros; apply Hl; now right. }
  apply G. intros m. apply ods_months_range.
Qed.

Lemma year_month_here_range (s : string) (my : nat * string) :
  year_month_here s = Some my -> 1 <= fst my <= 12.
Proof.
  unfold year_month_here.
  destruct (four_digits s); [| discriminate].
  destruct (find _ ods_months) as [m|] eqn:E; [| discriminate].
  intros [= <-]. cbn [fst]. apply find_some in E as [Hin _].
  now apply ods_months_range.
Qed.

Lemma search_from_range (here : string -> option (nat * string)) :
  (forall s my, here s = Some my -> 1 <= fst my <= 12) ->
  forall s my, search_from here s = Some my -> 1 <= fst my <= 12.
Proof.
  intros Hh. induction s as [|c r IH]; intros my; cbn [search_from];
    unfold or_else.
  - destruct (here "") eqn:E; [intros [= <-]; eauto | discriminate].
  - destruct (here (String c r)) eqn:E; [intros [= <-]; eauto | apply IH].
Qed.

Lemma ods_month_year_range (f : string) (my : nat * string) :
  ods_month_year f = Some my -> 1 <= fst my <= 12.
Proof.
  unfold ods_month_year, or_else.
  destruct (search_from month_year_here f) eqn:E1.
  { intros [= <-]. eapply search_from_range; [| exact E1].
    apply month_year_here_range. }
  destruct (search_from year_month_here f) eqn:E2.
  { intros [= <-]. eapply search_from_range; [| exact E2].
    apply year_month_here_range. }
  destruct (search_year f); [| discriminate].
  destruct (find _ ods_months) as [m|] eqn:E; [| discriminate].
  intros [= <-]. cbn [fst]. apply find_some in E as [Hin _].
  now apply ods_months_range.
Qed.

(** X2.  The report date of a spreadsheet is the last day of a month when
    the resolver reads it in the file name, and the first day of a month
    when only the fallback of the spreadsheet extractor does. *)
Theorem ods_report_date_day (file_path : string) (d : date) :
  ods_report_date file_path = Some (Some d) ->
  (extract_report_date_from_file file_path None = Some d
   /\ day d = last_day (month d))
  \/ (extract_report_date_from_file file_path None = None
      /\ day d = 1 /\ 1 <= month d <= 12).
Proof.
  unfold ods_report_date.
  destruct (extract_report_date_from_file file_path None) as [d0|] eqn:E.
  - intros [= <-]. left. split; [reflexivity |].
    unfold extract_report_date_from_file, or_else in E.
    destruct (existsb _ _); now apply date_from_filename_calendar in E.
  - destruct (ods_month_year _) as [my|] eqn:Emy; [| discriminate].
    unfold first_of_month.
    destruct (timestamp_in_bounds _); [| discriminate].
    intros [= <-]. right. cbn [day month].
    apply ods_month_year_range in Emy. tauto.
Qed.

End DateFacts.

Lemma resolved_date_is_calendar_date_witness :
  @extract_report_date_from_file posixpath "reports/february_2024.rtf"
    (Some "Report Date: 29/02/2024") = Some (mkdate 2024 2 29)
  /\ calendar_date (mkdate 2024 2 29).
Proof.
  split; [reflexivity |].
  apply (@resolved_date_is_calendar_date posixpath "reports/february_2024.rtf"
           (Some "Report Date: 29/02/2024")).
  reflexivity.
Defined.

Lemma ods_report_date_day_witness :
  @ods_report_date posixpath plain_numbers "in/report march 2021.ods"
  = Some (Some (mkdate 2021 3 1))
  /\ @extract_report_date_from_file posixpath "in/report march 2021.ods" None
     = None.
Proof.
  split; [reflexivity |].
  destruct (@ods_report_date_day posixpath plain_numbers
              "in/report march 2021.ods" (mkdate 2021 3 1)
              (@eq_refl _ (Some (Some (mkdate 2021 3 1)))
               <: @ods_report_date posixpath plain_numbers
                    "in/report march 2021.ods"
                  = Some (Some (mkdate 2021 3 1))))
    as [[E _] | [E _]]; [| exact E].
  exfalso. vm_compute in E. discriminate E.
Defined.

(** ** Further properties: the line parser *)

Lemma first_index_spec {A : Type} (f : A -> bool) (l : list A) (k : nat) (d : A) :
  first_index f l = Some k ->
  k < List.length l /\ f (nth k l d) = true /\
  forall x, In x (firstn k l) -> f x = false.
Proof.
  revert k; induction l as [|x l IH]; intros k; cbn [first_index];
    [discriminate |].
  destruct (f x) eqn:Ex.
  - intros [= <-]. cbn. repeat split; [lia | exact Ex | tauto].
  - destruct (first_index f l) as [j|]; [| discriminate].
    intros [= <-]. destruct (IH j eq_refl) as (Hlt & Hj & Hbefore).
    cbn. repeat split; [lia | exact Hj |].
    intros y [<- | Hy]; auto.
Qed.

Lemma In_section_S (lines : list string) (i : nat) :
  In_section lines i -> In_section lines (S i).
Proof.
  intros (h & raw & Hlt & Hn & Hh). exists h, raw. repeat split; auto.
Qed.

Lemma Row_of_line_step (lines : list string) (st : parser_state) (i : nat)
  (raw : string) :
  nth_error lines i = Some raw ->
  (in_data_section st = true -> In_section lines i) ->
  Forall (fun p => Row_of_line lines (fst p) (snd p)) (data st) ->
  (in_data_section (parser_step lines st i raw) = true -> In_section lines (S i))
  /\ Forall (fun p => Row_of_line lines (fst p) (snd p))
            (data (parser_step lines st i raw)).
Proof.
  intros Hn Hsec Hrows.
  assert (Hsec' : in_data_section st = true -> In_section lines (S i))
    by (intros Hs; now apply In_section_S, Hsec).
  step_cases; split;
    try exact Hrows;
    try (intros Hs; first [ apply Hsec'; congruence | discriminate Hs ]).
  - intros _. exists i, raw. auto.
  - apply Forall_app. split; [exact Hrows |].
    constructor; [| constructor]. cbn [fst snd].
    exists raw.
    repeat match goal with
           | H : (_ || _) = false |- _ => apply orb_false_iff in H as [? ?]
           | H : (_ && _) = true |- _ => apply andb_true_iff in H as [? ?]
           end.
    repeat split; auto.
Qed.

Lemma Row_of_line_loop (lines rest : list string) :
  forall pre st,
  lines = (pre ++ rest)%list ->
  (in_data_section st = true -> In_section lines (List.length pre)) ->
  Forall (fun p => Row_of_line lines (fst p) (snd p)) (data st) ->
  Forall (fun p => Row_of_line lines (fst p) (snd p))
         (data (parser_loop lines (List.length pre) rest st)).
Proof.
  induction rest as [|raw rest IH]; intros pre st El Hsec Hrows;
    cbn [parser_loop]; [exact Hrows |].
  assert (Hn : nth_error lines (List.length pre) = Some raw).
  { rewrite El, nth_error_app2, Nat.sub_diag by lia. reflexivity. }
  destruct (Row_of_line_step lines st _ raw Hn Hsec Hrows) as [Hsec' Hrows'].
  replace (S (List.length pre)) with (List.length (pre ++ [raw])%list) in *
    by (rewrite length_app; simpl; lia).
  apply IH; auto.
  now rewrite <- app_assoc.
Qed.

(** X3.  Every row of the line parser is read in one line of the text: a
    line of an open data section that is no header, holds no footer
    marker, is no date or page line, and starts with a letter.  The name
    of the row is the tokens of the line before the first numeric-like
    one, joined by single blanks; its values are the tokens from that one
    on, so a row has a value at least. *)
Theorem parsed_row_provenance (lines : list string) (i : nat)
  (row : list string) :
  In (i, row) (data (parse_lines lines)) ->
  Row_of_line lines i row
  /\ exists raw k,
       nth_error lines i = Some raw /\
       let parts := Py.split (Py.strip raw) in
       k < List.length parts /\
       row = Py.join " " (firstn k parts) :: skipn k parts /\
       numeric_like (nth k parts "") = true /\
       (forall t, In t (firstn k parts) -> numeric_like t = false) /\
       2 <= List.length row.
Proof.
  intros Hin.
  assert (Hall : Forall (fun p => Row_of_line lines (fst p) (snd p))
                        (data (parse_lines lines))).
  { apply (Row_of_line_loop lines lines [] initial_state);
      [reflexivity | discriminate | constructor]. }
  rewrite Forall_forall in Hall. specialize (Hall _ Hin). cbn [fst snd] in Hall.
  split; [exact Hall |].
  destruct Hall as (raw & Hn & _ & _ & _ & _ & _ & _ & Hsplit).
  exists raw. unfold split_row in Hsplit.
  destruct (first_index numeric_like (Py.split (Py.strip raw))) as [k|] eqn:Ek;
    [| discriminate].
  injection Hsplit as <-. exists k.
  destruct (first_index_spec _ _ _ "" Ek) as (Hlt & Hk & Hbefore).
  cbv zeta. repeat split; auto.
  cbn [List.length]. rewrite length_skipn. lia.
Qed.

Lemma parser_loop_no_header (lines rest : list string) :
  forall i st,
  Forall (fun raw => is_header (Py.strip raw) = false) rest ->
  in_data_section st = false ->
  parser_loop lines i rest st = st.
Proof.
  induction rest as [|raw rest IH]; intros i st Hall Hs; cbn [parser_loop];
    [reflexivity |].
  inversion Hall as [|? ? Hraw Hrest]; subst.
  assert (E : parser_step lines st i raw = st).
  { unfold parser_step; cbv zeta. rewrite Hraw, Hs.
    now destruct (negb _). }
  rewrite E. now apply IH.
Qed.

Section TextFacts.
Context `{OsPath} `{Pandas}.

(** X4.  A text none of whose lines is a header line gives the empty
    table, whatever else it holds. *)
Theorem no_header_no_table (file_path text : string) :
  Forall (fun raw => is_header (Py.strip raw) = false)
         (Py.split_on Py.newline text) ->
  extract_data_from_rtf file_path text = empty_frame
  /\ extract_data_from_docx file_path text = empty_frame.
Proof.
  intros Hall.
  assert (E : forall d, table_of_text file_path text d = empty_frame).
  { intros d. unfold table_of_text, parse_lines. cbv zeta.
    now rewrite parser_loop_no_header. }
  unfold extract_data_from_rtf, extract_data_from_docx.
  rewrite !E. now destruct (negb _).
Qed.

End TextFacts.

Lemma no_header_no_table_witness :
  @extract_data_from_rtf posixpath plain_numbers "x.rtf"
    ("Alpha 1 2 3 4 5% 6%" ++ nl ++ "Beta 1 2 3 4 5% 6%")
  = @empty_frame plain_numbers.
Proof.
  apply (@no_header_no_table posixpath plain_numbers "x.rtf").
  apply Forall_forall. intros raw Hin.
  apply negb_true_iff.
  exact (proj1 (forallb_forall _ _)
           (@eq_refl bool true
            <: forallb (fun raw => negb (is_header (Py.strip raw)))
                 (Py.split_on Py.newline
                    ("Alpha 1 2 3 4 5% 6%" ++ nl ++ "Beta 1 2 3 4 5% 6%"))
               = true)
           raw Hin).
Defined.

Lemma parsed_row_provenance_witness :
  Row_of_line (Py.split_on Py.newline closed_text) 2
    [ "Beta"; "1"; "2"; "3"; "4"; "5%"; "6%" ].
Proof.
  apply (parsed_row_provenance (Py.split_on Py.newline closed_text) 2).
  vm_compute. tauto.
Defined.

Lemma header_columns_seven (header_line : string) :
  List.length (header_columns header_line) = 7.
Proof.
  unfold header_columns. cbv zeta.
  destruct (Nat.eqb_spec (List.length (header_tokens header_line))
                         (List.length standard_columns)) as [E | _];
    [exact E | reflexivity].
Qed.

Lemma parser_step_names (lines : list string) (st : parser_state) (i : nat)
  (raw : string) :
  column_names (parser_step lines st i raw) = column_names st
  \/ exists h, column_names (parser_step lines st i raw)
               = Some (header_columns h).
Proof. step_cases; eauto. Qed.

Lemma parser_step_seven (lines : list string) (st : parser_state) (i : nat)
  (raw : string) :
  seven_names st -> seven_names (parser_step lines st i raw).
Proof.
  intros Hst. unfold seven_names in *.
  destruct (parser_step_names lines st i raw) as [-> | [h ->]]; auto.
  apply header_columns_seven.
Qed.

Lemma parser_loop_seven (lines rest : list string) :
  forall i st, seven_names st -> seven_names (parser_loop lines i rest st).
Proof.
  induction rest as [|raw rest IH]; intros i st Hst; cbn [parser_loop]; auto.
  apply IH. now apply parser_step_seven.
Qed.

Lemma names_or_default_seven (lines : list string) :
  List.length (names_or_default (parse_lines lines)) = 7.
Proof.
  pose proof (parser_loop_seven lines lines 0 initial_state I) as Hs.
  unfold names_or_default. fold (parse_lines lines) in Hs.
  unfold seven_names in Hs.
  destruct (column_names (parse_lines lines)) as [[|c r]|]; auto.
Qed.

Section SchemaFacts.
Context `{OsPath} `{Pandas}.

Lemma final_columns_length (names : list string) (d : option date) :
  List.length (final_columns names d)
  = List.length names
    + match d with
      | Some _ => if mem "Report_Date" names then 0 else 1
      | None => 0
      end.
Proof.
  unfold final_columns.
  assert (Hs : forall df, List.length (columns (standardize_population df))
                          = List.length (columns df)).
  { intros df. unfold standardize_population.
    destruct (_ && _); cbn [columns]; [apply length_map | reflexivity]. }
  rewrite Hs. destruct d as [d|]; cbn [with_report_date columns]; [| lia].
  unfold set_column. cbn [columns].
  destruct (index_of "Report_Date" names) as [i|] eqn:Ei; cbn [columns].
  - destruct (mem "Report_Date" names) eqn:Em; [lia |].
    exfalso. apply mem_false in Em.
    clear - Ei Em. revert i Ei.
    induction names as [|y l IH]; intros i; cbn [index_of]; [discriminate |].
    destruct (String.eqb_spec "Report_Date" y) as [E | Hne].
    + intros _. apply Em. now left.
    + destruct (index_of "Report_Date" l) eqn:El; [| discriminate].
      intros _. apply (IH (fun Hin => Em (or_intror Hin)) n eq_refl).
  - destruct (mem "Report_Date" names) eqn:Em.
    + exfalso. apply mem_In in Em. clear - Ei Em.
      induction names as [|y l IH]; [destruct Em |].
      cbn [index_of] in Ei.
      destruct (String.eqb_spec "Report_Date" y) as [E | Hne]; [discriminate |].
      destruct Em as [E | Hin]; [congruence |].
      destruct (index_of "Report_Date" l); [discriminate | auto].
    + rewrite length_app. cbn. lia.
Qed.

Lemma final_columns_dated (names : list string) (d : date) :
  In "Report_Date" (final_columns names (Some d)).
Proof.
  unfold final_columns. cbn [with_report_date].
  set (df := set_column "Report_Date" (Day d) (mkframe names [])).
  assert (Hin : In "Report_Date" (columns df)).
  { unfold df, set_column. cbn [columns].
    destruct (index_of "Report_Date" names) as [i|] eqn:Ei; cbn [columns].
    - clear - Ei. revert i Ei.
      induction names as [|y l IH]; intros i; cbn [index_of]; [discriminate |].
      destruct (String.eqb_spec "Report_Date" y) as [E | Hne]; [now left |].
      destruct (index_of "Report_Date" l) eqn:El; [| discriminate].
      intros _. right. now apply (IH n).
    - apply in_or_app. right. now left. }
  unfold standardize_population.
  destruct (_ && _); cbn [columns]; [| exact Hin].
  apply in_map_iff. exists "Report_Date". split; [reflexivity | exact Hin].
Qed.

Lemma index_of_listed (c : string) (l : list string) :
  mem c l = true -> exists i, index_of c l = Some i.
Proof.
  unfold mem. induction l as [|y l IH]; cbn [existsb index_of]; [discriminate |].
  destruct (String.eqb c y); [eauto |]. cbn [orb]. intros Hm.
  destruct (IH Hm) as [i ->]. cbn. eauto.
Qed.

Lemma mem_snoc (x c : string) (l : list string) :
  mem x (l ++ [ c ])%list = mem x l || String.eqb x c.
Proof.
  unfold mem. rewrite existsb_app. cbn [existsb]. now rewrite orb_false_r.
Qed.

Lemma final_columns_view (names : list string) (d : option date) :
  final_columns names d
  = (population_renamed names ++ date_label names d)%list.
Proof.
  unfold final_columns, population_renamed, date_label.
  fold (mem "Population" names). fold (mem "Population *" names).
  fold (mem "Report_Date" names).
  destruct d as [d|]; cbn [with_report_date].
  - unfold set_column. cbn [columns rows map].
    destruct (mem "Report_Date" names) eqn:Em.
    + destruct (index_of_listed _ _ Em) as [i ->].
      unfold standardize_population. cbn [columns rows].
      rewrite app_nil_r. now destruct (_ && _).
    + rewrite (index_of_unlisted _ _ Em).
      unfold standardize_population. cbn [columns rows].
      rewrite !mem_snoc. cbn [String.eqb Ascii.eqb Bool.eqb]. rewrite !orb_false_r.
      destruct (mem "Population" names && negb (mem "Population *" names));
        cbn [columns]; [| reflexivity].
      now rewrite map_app.
  - unfold standardize_population. cbn [columns rows].
    rewrite app_nil_r. now destruct (_ && _).
Qed.

(** X5.  A table of the line-based extractors is empty, or its labels are
    seven names followed by the date label, which is there exactly when a
    date was found and the names do not hold it.  The seven names are the
    tokens of the last header line of the text when they are seven, the
    standard names otherwise, with ['Population'] written
    ['Population *'] when that label is not among them. *)
Theorem text_table_schema (file_path text : string) (d : option date) :
  let lines := Py.split_on Py.newline text in
  let df := table_of_text file_path text d in
  df = empty_frame
  \/ ((exists i raw,
         Last_header lines (List.length lines) i raw
         /\ let tokens := header_tokens (header_text lines i (Py.strip raw)) in
            let names := if List.length tokens =? 7 then tokens
                         else standard_columns in
            List.length names = 7
            /\ columns df
               = (population_renamed names ++ date_label names d)%list)
      /\ 7 <= List.length (columns df) <= 8
      /\ (List.length (columns df) = 8 -> d <> None)
      /\ (d <> None -> In "Report_Date" (columns df))).
Proof.
  cbv zeta. unfold table_of_text. cbv zeta.
  set (lines := Py.split_on Py.newline text).
  set (st := parse_lines lines).
  destruct (data st) as [|r rs] eqn:Edata; [now left |].
  destruct (has_dup (names_or_default st)) eqn:Edup.
  { left. unfold finish_frame, assemble. cbn [columns]. now rewrite Edup. }
  right. rewrite finish_frame_rows by exact Edup. cbn [or_empty columns].
  split.
  - destruct (parse_lines_header lines)
      as [(_ & _ & Hnil & _) | (i & raw & Hlast & Hnames)].
    { fold st in Hnil. congruence. }
    exists i, raw. split; [exact Hlast |]. cbv zeta.
    fold st in Hnames.
    assert (En : names_or_default st
                 = header_columns (header_text lines i (Py.strip raw))).
    { unfold names_or_default. rewrite Hnames.
      pose proof (header_columns_seven (header_text lines i (Py.strip raw)))
        as H7.
      destruct (header_columns _); [discriminate | reflexivity]. }
    rewrite En. split.
    + apply header_columns_seven.
    + apply final_columns_view.
  - rewrite final_columns_length.
    unfold st, lines. rewrite names_or_default_seven. fold lines. fold st.
    repeat split.
    + lia.
    + destruct d as [d|]; [destruct (mem _ _) |]; lia.
    + destruct d as [d|]; [discriminate | lia].
    + destruct d as [d|]; [intros _; apply final_columns_dated | congruence].
Qed.


End SchemaFacts.

(** ** Further properties: the legacy documents *)

Section ValidateFacts.
Context `{Pandas}.

(** X7.  [validate_prison_data] accepts the collected rows exactly when
    there are two of them at least, every row has from 2 to 10 fields,
    every name holds a letter, and no value reads as a number below 0 or
    above 10000; a value that is no number does not count against the
    rows. *)
Theorem validate_prison_data_iff (data : list (list string)) :
  validate_prison_data data = true <->
  2 <= List.length data /\
  forall row, In row data ->
    2 <= List.length row <= 10 /\
    (exists c, In c (Py.chars (hd EmptyString row)) /\ isalpha_char c = true) /\
    (forall value, In value (tl row) ->
       float_outside (Py.remove_char "%" (Py.remove_char "," value)) = false).
Proof.
  unfold validate_prison_data.
  match goal with
  | |- context [if ?a then false else if negb ?b then false else negb ?c] =>
      set (short := a); set (named := b); set (outside := c)
  end.
  assert (Hshort : short = false <->
            forall row, In row data -> 2 <= List.length row <= 10).
  { unfold short. rewrite <- not_true_iff_false, existsb_exists. split.
    - intros Hno row Hin.
      destruct (Nat.ltb_spec (List.length row) 2) as [H2 | H2];
        [exfalso; apply Hno; exists row; split; auto; apply orb_true_iff; left;
         now apply Nat.ltb_lt |].
      destruct (Nat.ltb_spec 10 (List.length row)) as [H10 | H10];
        [exfalso; apply Hno; exists row; split; auto; apply orb_true_iff; right;
         now apply Nat.ltb_lt |].
      lia.
    - intros Hall (row & Hin & Hrow). specialize (Hall row Hin).
      apply orb_true_iff in Hrow as [Hrow | Hrow];
        apply Nat.ltb_lt in Hrow; lia. }
  assert (Hnamed : named = true <->
            forall row, In row data ->
              exists c, In c (Py.chars (hd EmptyString row))
                        /\ isalpha_char c = true).
  { unfold named. rewrite forallb_forall. split; intros Hall row Hin.
    - now apply existsb_exists, Hall.
    - now apply existsb_exists, Hall. }
  assert (Hout : outside = false <->
            forall row, In row data -> forall value, In value (tl row) ->
              float_outside (Py.remove_char "%" (Py.remove_char "," value))
              = false).
  { unfold outside. rewrite <- not_true_iff_false, existsb_exists. split.
    - intros Hno row Hin value Hv. apply not_true_iff_false. intros Hf.
      apply Hno. exists row. split; auto. apply existsb_exists. now exists value.
    - intros Hall (row & Hin & Hrow).
      apply existsb_exists in Hrow as (value & Hv & Hf).
      rewrite (Hall row Hin value Hv) in Hf. discriminate. }
  destruct (Nat.ltb_spec (List.length data) 2) as [Hl | Hl].
  { split; [discriminate | intros [Hl' _]; lia]. }
  destruct short.
  { split; [discriminate |]. intros [_ Hall].
    assert (true = false) by (apply Hshort; intros; now apply Hall).
    discriminate. }
  destruct named; cbn [negb].
  2:{ split; [discriminate |]. intros [_ Hall].
      assert (false = true) by (apply Hnamed; intros; now apply Hall).
      discriminate. }
  rewrite negb_true_iff, Hout. split.
  - intros Hvals. split; [exact Hl |]. intros row Hin. repeat split.
    + now apply (proj1 Hshort eq_refl).
    + now apply (proj1 Hshort eq_refl).
    + now apply (proj1 Hnamed eq_refl).
    + now apply Hvals.
  - intros [_ Hall] row Hin. now apply Hall.
Qed.

End ValidateFacts.

Section ChainFacts.
Context `{OsPath} `{Pandas}.
Variable hst : host.

Lemma first_text_checked (file_path : string) (stages : list stage) :
  Forall (fun s : stage => forall t, snd s = Some t -> checked hst file_path t)
         stages ->
  snd (first_text stages) = EmptyString
  \/ checked hst file_path (snd (first_text stages)).
Proof.
  induction stages as [|s stages IH]; intros Hall; cbn [first_text].
  - now left.
  - inversion Hall as [|? ? Hs Hrest]; subst.
    rewrite snd_bind. destruct (snd s) as [t|] eqn:Es.
    + right. cbn. now apply Hs.
    + now apply IH.
Qed.

(** X8.  The text [doc_to_text] returns is empty, or it passed the
    validity oracle, or it is the text of the raw bytes and holds one of
    the four keywords of the last stage. *)
Theorem doc_to_text_is_checked (file_path : string) :
  let text := snd (doc_to_text hst file_path) in
  text = EmptyString
  \/ is_valid_doc_text text = true
  \/ (raw_text hst file_path = Some text
      /\ Py.any_in [ "Prison"; "CNA"; "Capacity"; "Population" ] text = true).
Proof.
  cbv zeta. apply (first_text_checked file_path).
  unfold checked.
  repeat apply Forall_cons; [.. | apply Forall_nil]; intros t.
  - unfold word_stage. destruct (windows hst && word_available hst);
      [| discriminate].
    rewrite !snd_bind. cbn [snd ret].
    destruct (word_read hst _) as [text|]; [| discriminate].
    unfold valid_text. destruct (Py.nonempty text && is_valid_doc_text text) eqn:E;
      [| discriminate].
    intros [= <-]. left. now apply andb_true_iff in E.
  - unfold ole_stage. rewrite snd_bind. cbn [snd ret].
    destruct (ole_text hst file_path) as [text|]; [| discriminate].
    destruct (_ && _) eqn:E; [| discriminate].
    intros [= <-]. left. now apply andb_true_iff in E.
  - unfold tool_stage. rewrite snd_bind. cbn [snd ret].
    destruct (tool_stdout hst _ _) as [text|]; [| discriminate].
    destruct (is_valid_doc_text text) eqn:E; [| discriminate].
    intros [= <-]. now left.
  - unfold tool_stage. rewrite snd_bind. cbn [snd ret].
    destruct (tool_stdout hst _ _) as [text|]; [| discriminate].
    destruct (is_valid_doc_text text) eqn:E; [| discriminate].
    intros [= <-]. now left.
  - unfold convert_stage. destruct (windows hst); [| discriminate].
    cbv zeta. rewrite snd_bind.
    destruct (Py.nonempty _); [| discriminate].
    rewrite snd_bind.
    destruct (path_exists _ _); [| discriminate].
    rewrite snd_bind. cbn [snd ret].
    unfold valid_text.
    destruct (Py.nonempty _ && is_valid_doc_text _) eqn:E; [| discriminate].
    intros [= <-]. left. now apply andb_true_iff in E.
  - unfold raw_stage. rewrite snd_bind. cbn [snd ret].
    destruct (raw_text hst file_path) as [text|] eqn:Er; [| discriminate].
    destruct (Py.any_in _ text) eqn:E; [| discriminate].
    intros [= <-]. now right.
Qed.

Lemma ole_stage_log (file_path : string) :
  ole_stage hst file_path
  = ([ OleRead file_path ], snd (ole_stage hst file_path)).
Proof. reflexivity. Qed.

Lemma tool_stage_log (tool file_path : string) :
  tool_stage hst tool file_path
  = ([ Run tool file_path ], snd (tool_stage hst tool file_path)).
Proof. reflexivity. Qed.

Lemma raw_stage_log (file_path : string) :
  raw_stage hst file_path
  = ([ BytesRead file_path ], snd (raw_stage hst file_path)).
Proof. reflexivity. Qed.

Lemma ole_stage_offer (file_path : string) :
  match snd (ole_stage hst file_path) with
  | Some t => stage_accepts hst (OleRead file_path) t
  | None => forall t, ~ stage_accepts hst (OleRead file_path) t
  end.
Proof.
  unfold ole_stage. rewrite snd_bind. cbn [snd ret stage_accepts].
  destruct (ole_text hst file_path) as [text|];
    [| intros t [E _]; discriminate].
  destruct (Py.nonempty text && (100 <? String.length text)
            && is_valid_doc_text text) eqn:E.
  - apply andb_true_iff in E as [E Ev]. apply andb_true_iff in E as [_ El].
    apply Nat.ltb_lt in El. auto.
  - intros t (Et & Hlen & Hv). injection Et as ->.
    assert (Hn : Py.nonempty t = true)
      by (destruct t; [simpl in Hlen; lia | reflexivity]).
    apply Nat.ltb_lt in Hlen. rewrite Hn, Hlen, Hv in E. discriminate.
Qed.

Lemma tool_stage_offer (tool file_path : string) :
  match snd (tool_stage hst tool file_path) with
  | Some t => stage_accepts hst (Run tool file_path) t
  | None => forall t, ~ stage_accepts hst (Run tool file_path) t
  end.
Proof.
  unfold tool_stage. rewrite snd_bind. cbn [snd ret stage_accepts].
  destruct (tool_stdout hst tool file_path) as [text|];
    [| intros t [E _]; discriminate].
  destruct (is_valid_doc_text text) eqn:E; [auto |].
  intros t (Et & Hv). injection Et as ->. congruence.
Qed.

Lemma raw_stage_offer (file_path : string) :
  match snd (raw_stage hst file_path) with
  | Some t => stage_accepts hst (BytesRead file_path) t
  | None => forall t, ~ stage_accepts hst (BytesRead file_path) t
  end.
Proof.
  unfold raw_stage. rewrite snd_bind. cbn [snd ret stage_accepts].
  destruct (raw_text hst file_path) as [text|];
    [| intros t [E _]; discriminate].
  destruct (Py.any_in _ text) eqn:E; [auto |].
  intros t (Et & Hv). injection Et as ->. congruence.
Qed.

(** X9.  On a host that is not Windows, [doc_to_text] reads the file with
    olefile, then runs antiword, then catdoc, then reads the raw bytes,
    and stops at the first stage whose text is accepted, which it
    returns; when no stage accepts a text it runs the four and returns the
    empty string.  It opens no document in Word, converts nothing and
    probes no path. *)
Theorem portable_chain_only (file_path : string) :
  windows hst = false ->
  let log := fst (doc_to_text hst file_path) in
  let text := snd (doc_to_text hst file_path) in
  (exists done e rest,
      portable_chain file_path = (done ++ e :: rest)%list
      /\ log = (done ++ [ e ])%list
      /\ (forall e' t, In e' done -> ~ stage_accepts hst e' t)
      /\ stage_accepts hst e text)
  \/ (log = portable_chain file_path
      /\ text = EmptyString
      /\ forall e t, In e (portable_chain file_path) ->
                     ~ stage_accepts hst e t).
Proof.
  intros Hw. cbv zeta.
  pose proof (ole_stage_offer file_path) as O1.
  pose proof (tool_stage_offer "antiword" file_path) as O2.
  pose proof (tool_stage_offer "catdoc" file_path) as O3.
  pose proof (raw_stage_offer file_path) as O4.
  unfold doc_to_text, portable_chain. cbn [first_text].
  unfold word_stage, convert_stage. rewrite Hw. cbn [andb].
  rewrite (ole_stage_log file_path), (tool_stage_log "antiword" file_path),
    (tool_stage_log "catdoc" file_path), (raw_stage_log file_path).
  destruct (snd (ole_stage hst file_path)) as [t1|].
  { left. exists [], (OleRead file_path),
      [ Run "antiword" file_path; Run "catdoc" file_path; BytesRead file_path ].
    unfold bind, ret; cbn [fst snd app]. split; [reflexivity |].
    split; [reflexivity |]. split; [intros e' t [] | exact O1]. }
  destruct (snd (tool_stage hst "antiword" file_path)) as [t2|].
  { left. exists [ OleRead file_path ], (Run "antiword" file_path),
      [ Run "catdoc" file_path; BytesRead file_path ].
    unfold bind, ret; cbn [fst snd app]. split; [reflexivity |]. split; [reflexivity |]. split; [| exact O2].
    intros e' t [<- | []]. apply O1. }
  destruct (snd (tool_stage hst "catdoc" file_path)) as [t3|].
  { left. exists [ OleRead file_path; Run "antiword" file_path ],
      (Run "catdoc" file_path), [ BytesRead file_path ].
    unfold bind, ret; cbn [fst snd app]. split; [reflexivity |]. split; [reflexivity |]. split; [| exact O3].
    intros e' t [<- | [<- | []]]; [apply O1 | apply O2]. }
  destruct (snd (raw_stage hst file_path)) as [t4|].
  { left. exists [ OleRead file_path; Run "antiword" file_path;
                   Run "catdoc" file_path ],
      (BytesRead file_path), [].
    unfold bind, ret; cbn [fst snd app]. split; [reflexivity |]. split; [reflexivity |]. split; [| exact O4].
    intros e' t [<- | [<- | [<- | []]]]; [apply O1 | apply O2 | apply O3]. }
  right. unfold bind, ret; cbn [fst snd app]. split; [reflexivity |]. split; [reflexivity |].
  intros e t [<- | [<- | [<- | [<- | []]]]];
    [apply O1 | apply O2 | apply O3 | apply O4].
Qed.

(** X10.  The table of a legacy document is empty, or it is the table the
    line parser builds from the recovered text: the file is no temporary
    file, the text passed the validity oracle and the collected rows
    passed [validate_prison_data]. *)
Theorem doc_table_is_text_table (file_path : string) :
  let text := snd (doc_to_text hst file_path) in
  let df := snd (extract_data_from_doc hst file_path) in
  df = empty_frame
  \/ (is_temp_file file_path = false
      /\ is_valid_doc_text text = true
      /\ validate_prison_data
           (map snd (data (parse_lines (Py.split_on Py.newline text)))) = true
      /\ exists d, df = table_of_text file_path text d).
Proof.
  cbv zeta. unfold extract_data_from_doc.
  destruct (is_temp_file file_path) eqn:Et; [now left |].
  cbv zeta. rewrite snd_bind.
  set (text := snd (doc_to_text hst file_path)).
  destruct (negb (valid_text text) && windows _).
  { left. now rewrite !snd_bind. }
  destruct (negb (Py.nonempty text)); [now left |].
  destruct (is_valid_doc_text text) eqn:Ev; cbn [negb]; [| now left].
  cbv zeta. unfold table_of_text. cbv zeta.
  destruct (data (parse_lines (Py.split_on Py.newline text))) as [|r rs] eqn:Ed;
    [now left |].
  destruct (validate_prison_data _) eqn:Eval; cbn [negb]; [| now left].
  right. repeat split; auto.
  rewrite snd_bind. cbn [snd ret]. eauto.
Qed.

End ChainFacts.

Section ConvertFacts.
Context `{OsPath} `{Pandas}.
Variable hst : host.

(** X11.  [convert_doc_to_docx] returns the empty string or the path of
    the converted document.  It returns the path in two cases only: the
    converted document is already there, and Word is not opened; or the
    host is Windows with Word, and Word saved the document on this call.
    A path that does not end in [.doc], in any case, is answered without
    any access. *)
Theorem convert_doc_to_docx_result (doc_path : string) :
  let r := convert_doc_to_docx hst doc_path in
  let docx_path := converted_path doc_path in
  (Py.endswith ".doc" (Py.lower doc_path) = false -> r = ([], EmptyString))
  /\ (snd r = EmptyString \/ snd r = docx_path)
  /\ (snd r = docx_path ->
      Py.endswith ".doc" (Py.lower doc_path) = true
      /\ ((path_exists hst docx_path = true /\ fst r = [Probe docx_path])
          \/ (path_exists hst docx_path = false /\ windows hst = true
              /\ word_available hst = true
              /\ In (WordSaveAs (abspath hst docx_path)) (fst r)))).
Proof.
  cbv zeta. unfold convert_doc_to_docx. cbv zeta.
  fold (converted_path doc_path).
  assert (Hne : converted_path doc_path <> EmptyString).
  { unfold converted_path.
    destruct (String.substring _ _ _); discriminate. }
  assert (Hdead : forall e : list event,
            (snd (e, EmptyString) = EmptyString
             \/ snd (e, EmptyString) = converted_path doc_path)
            /\ (snd (e, EmptyString) = converted_path doc_path ->
                true = true
                /\ ((path_exists hst (converted_path doc_path) = true
                     /\ fst (e, EmptyString) = [Probe (converted_path doc_path)])
                    \/ (path_exists hst (converted_path doc_path) = false
                        /\ windows hst = true /\ word_available hst = true
                        /\ In (WordSaveAs (abspath hst (converted_path doc_path)))
                              (fst (e, EmptyString)))))).
  { intros e. split; [now left |]. cbn [snd]. intros E. exfalso.
    apply Hne. now symmetry. }
  destruct (Py.endswith ".doc" (Py.lower doc_path)); cbn [negb].
  { split; [discriminate |].
    assert (Hprobe : forall (m : io string),
              (tell (Probe (converted_path doc_path)) ;;; m)%io
              = (Probe (converted_path doc_path) :: fst m, snd m)).
    { intros [e x]. reflexivity. }
    rewrite Hprobe.
    destruct (path_exists hst (converted_path doc_path)) eqn:Ex.
    { cbn [fst snd ret]. split; [now right |]. intros _. split; [reflexivity |].
      now left. }
    destruct (windows hst) eqn:Ew; cbn [negb]; [| apply Hdead].
    destruct (word_available hst) eqn:Ea; cbn [negb]; [| apply Hdead].
    io_simpl.
    destruct (word_convert hst _).
    - io_simpl. split; [now right |]. intros _. split; [reflexivity |].
      right. repeat split; auto.
      right. apply in_or_app. right. cbn. auto.
    - io_simpl. apply Hdead. }
  split; [reflexivity |]. split; [now left |].
  cbn [snd ret]. intros E. exfalso. apply Hne. now symmetry.
Qed.

End ConvertFacts.


(** ** Further properties: the PDF extractor *)

Lemma pdf_reconcile_seven (row_data : list string) (row : list (option string)) :
  pdf_reconcile row_data = Some row -> List.length row = 7.
Proof.
  destruct (Nat.lt_ge_cases (List.length row_data) 6) as [H6 | H6].
  { rewrite pdf_reconcile_drop by exact H6. discriminate. }
  destruct (Nat.eq_dec (List.length row_data) 6) as [E6 | N6].
  { rewrite pdf_reconcile_pad by exact E6. intros [= <-].
    rewrite length_app, length_map. cbn. lia. }
  destruct (Nat.eq_dec (List.length row_data) 7) as [E7 | N7].
  { rewrite pdf_reconcile_exact by exact E7. intros [= <-].
    now rewrite length_map. }
  rewrite pdf_reconcile_fold by lia. intros [= <-].
  cbn [map List.length]. rewrite ?length_map, length_skipn. lia.
Qed.

Lemma pdf_add_seven (st : pdf_state) (i : nat) (row_data : list string)
  (current : option string) :
  Forall (fun p => List.length (snd p) = 7) (data_rows st) ->
  Forall (fun p => List.length (snd p) = 7)
         (data_rows (pdf_add st i row_data current)).
Proof.
  intros Hst. unfold pdf_add.
  destruct (pdf_reconcile row_data) as [row|] eqn:E; cbn [data_rows]; auto.
  apply Forall_app. split; auto.
  constructor; [| constructor]. cbn [snd]. now apply pdf_reconcile_seven in E.
Qed.

Lemma pdf_step_seven (st : pdf_state) (i : nat) (raw : string) :
  Forall (fun p => List.length (snd p) = 7) (data_rows st) ->
  Forall (fun p => List.length (snd p) = 7) (data_rows (pdf_step st i raw)).
Proof.
  intros Hst. unfold pdf_step; cbv zeta.
  repeat match goal with
         | |- context [if ?b then _ else _] => destruct b
         | |- context [match ?x with Some _ => _ | None => _ end] => destruct x
         end; cbn [data_rows]; auto using pdf_add_seven.
Qed.

Lemma pdf_loop_seven (rest : list string) :
  forall i st,
  Forall (fun p => List.length (snd p) = 7) (data_rows st) ->
  Forall (fun p => List.length (snd p) = 7) (data_rows (pdf_loop i rest st)).
Proof.
  induction rest as [|raw rest IH]; intros i st Hst; cbn [pdf_loop]; auto.
  apply IH. now apply pdf_step_seven.
Qed.

Lemma pages_loop_rows (n : nat) (pages : list pdf_page) :
  forall page_num r,
  In r (pages_loop n page_num pages) ->
  exists page text,
    nth_error pages (fst (fst r) - page_num) = Some page
    /\ page_num <= fst (fst r)
    /\ (1 < n -> fst (fst r) < n - 1)
    /\ page_text page = Some text
    /\ In (snd (fst r), snd r) (page_rows text).
Proof.
  induction pages as [|page pages IH]; intros page_num r; cbn [pages_loop];
    [intros [] |].
  rewrite in_app_iff. intros [Hin | Hin].
  - destruct (Nat.leb (n - 1) page_num && (1 <? n)) eqn:Eskip; [destruct Hin |].
    destruct (page_text page) as [text|] eqn:Et; [| destruct Hin].
    destruct (Py.nonempty text); [| destruct Hin].
    apply in_map_iff in Hin as ([j row] & <- & Hin). cbn [fst snd].
    exists page, text. rewrite Nat.sub_diag. repeat split; auto.
    intros Hn. apply andb_false_iff in Eskip as [E | E].
    + apply Nat.leb_gt in E. lia.
    + apply Nat.ltb_ge in E. lia.
  - destruct (IH _ _ Hin) as (pg & text & Hn & Hle & Hlast & Ht & Hr).
    exists pg, text. repeat split; auto; [| lia].
    replace (fst (fst r) - page_num) with (S (fst (fst r) - S page_num)) by lia.
    exact Hn.
Qed.

(** X12.  Every row of the main pass over a PDF has exactly seven fields
    and is read in the text of one page; when the document has several
    pages, no row is read in the last one. *)
Theorem pdf_main_rows_shape (pages : list pdf_page) (page_num line : nat)
  (row : list (option string)) :
  In ((page_num, line), row) (pdf_main_rows pages) ->
  List.length row = 7
  /\ (1 < List.length pages -> page_num < List.length pages - 1)
  /\ exists page text,
       nth_error pages page_num = Some page
       /\ page_text page = Some text
       /\ In (line, row) (page_rows text).
Proof.
  intros Hin. unfold pdf_main_rows in Hin.
  destruct (pages_loop_rows _ _ _ _ Hin) as (page & text & Hn & _ & Hlast & Ht & Hr).
  cbn [fst snd] in *. rewrite Nat.sub_0_r in Hn.
  repeat split; eauto.
  assert (Hall : Forall (fun p => List.length (snd p) = 7) (page_rows text)).
  { unfold page_rows. apply pdf_loop_seven. constructor. }
  rewrite Forall_forall in Hall. exact (Hall _ Hr).
Qed.

Lemma width_cons {A : Type} (r : list A) (rows : list (list A)) :
  width (r :: rows) = Nat.max (List.length r) (width rows).
Proof. reflexivity. Qed.

Lemma width_all {A : Type} (n : nat) (rows : list (list A)) :
  Forall (fun r => List.length r = n) rows -> rows <> [] -> width rows = n.
Proof.
  induction rows as [|r rows IH]; intros Hall Hne; [congruence |].
  inversion Hall as [|? ? Hr Hrest]; subst. rewrite width_cons.
  destruct rows as [|r' rows'].
  - cbn. lia.
  - rewrite IH by (auto; discriminate). lia.
Qed.

Lemma main_rows_width (pages : list pdf_page) :
  pdf_main_rows pages <> [] -> width (map snd (pdf_main_rows pages)) = 7.
Proof.
  intros Hne. apply width_all.
  - apply Forall_forall. intros row Hin.
    apply in_map_iff in Hin as ([[p l] r] & <- & Hin).
    now apply pdf_main_rows_shape in Hin.
  - destruct (pdf_main_rows pages); [congruence | discriminate].
Qed.


Section PdfFacts.
Context `{OsPath} `{Pandas}.

Lemma pdf_report_date_none (file_path : string) (pages : list pdf_page) :
  pdf_report_date file_path pages = None <-> first_page_unread file_path pages.
Proof.
  unfold pdf_report_date, first_page_unread. destruct pages as [|page rest].
  - split; [discriminate | intros (p & r & E & _); discriminate].
  - destruct (page_text page) as [text|] eqn:Et.
    + split; [discriminate |]. intros (p & r & [= <- <-] & Hp & _). congruence.
    + destruct (String.eqb_spec (Py.lower (extension file_path)) ".pdf")
        as [E | Hne].
      * split; [| reflexivity]. intros _. now exists page, rest.
      * split; [discriminate |]. intros (p & r & _ & _ & E). congruence.
Qed.

Lemma frame_of_rows_pdf (all_data : list (list (option string))) :
  frame_of_rows pdf_column_names all_data = None <-> width all_data <> 7.
Proof.
  unfold frame_of_rows. change (List.length pdf_column_names) with 7.
  destruct (Nat.eqb_spec (width all_data) 7); split;
    try discriminate; try congruence; tauto.
Qed.

Lemma finish_pdf_frame (all_data : list (list (option string)))
  (df : frame) (d : option date) :
  frame_of_rows pdf_column_names all_data = Some df ->
  exists df', finish_frame df d = Some df'
    /\ columns df' = match d with
                     | Some _ => (standard_columns ++ ["Report_Date"])%list
                     | None => standard_columns
                     end.
Proof.
  unfold frame_of_rows. destruct (_ =? _); [| discriminate].
  intros [= <-]. unfold finish_frame. cbn [columns].
  change (has_dup pdf_column_names) with false. cbv iota.
  eexists. split; [reflexivity |].
  rewrite drop_null_and_total_columns.
  destruct d; reflexivity.
Qed.

(** X14.  The PDF extractor raises in two cases only: the rows it
    gathered, which then come from the relaxed pass over the tables, are
    not seven fields wide; or it gathered rows and the first page of a
    [.pdf] file has no text for the date search. *)
Theorem pdf_extractor_raises_iff (file_path : string) (pages : list pdf_page) :
  extract_data_from_pdf file_path pages = Raised <->
  (pdf_main_rows pages <> [] /\ first_page_unread file_path pages)
  \/ (pdf_main_rows pages = []
      /\ extract_data_from_pdf_relaxed pages <> []
      /\ (width (extract_data_from_pdf_relaxed pages) <> 7
          \/ first_page_unread file_path pages)).
Proof.
  unfold extract_data_from_pdf. cbv zeta.
  set (all_data := match map snd (pdf_main_rows pages) with
                   | [] => extract_data_from_pdf_relaxed pages
                   | rows => rows
                   end).
  assert (G : all_data <> [] ->
            (match all_data with
             | [] => Returned empty_frame
             | _ =>
                 match frame_of_rows pdf_column_names all_data,
                       pdf_report_date file_path pages with
                 | Some df, Some report_date =>
                     match finish_frame df report_date with
                     | Some df' => Returned df'
                     | None => Raised
                     end
                 | _, _ => Raised
                 end
             end = Raised
             <-> width all_data <> 7 \/ first_page_unread file_path pages)).
  { intros Hne. destruct all_data as [|r rs]; [congruence |].
    rewrite <- pdf_report_date_none, <- frame_of_rows_pdf.
    destruct (frame_of_rows pdf_column_names (r :: rs)) as [df|] eqn:Ef.
    - destruct (pdf_report_date file_path pages) as [d|].
      + destruct (finish_pdf_frame _ _ d Ef) as (df' & -> & _).
        split; [discriminate | intros [E | E]; discriminate].
      + split; auto.
    - split; auto. }
  destruct (pdf_main_rows pages) as [|r rs] eqn:Em.
  - assert (Ea : all_data = extract_data_from_pdf_relaxed pages) by reflexivity.
    destruct (extract_data_from_pdf_relaxed pages) as [|x xs] eqn:Er.
    + rewrite Ea. split; [discriminate |].
      intros [[Hne _] | (_ & Hne & _)]; congruence.
    + rewrite G by (rewrite Ea; discriminate). rewrite Ea. split.
      * intros Hw. right. repeat split; auto. discriminate.
      * intros [[Hne _] | (_ & _ & Hw)]; [congruence | exact Hw].
  - assert (Ea : all_data = map snd (r :: rs)) by reflexivity.
    rewrite G by (rewrite Ea; discriminate).
    assert (Hw : width all_data = 7).
    { rewrite Ea, <- Em. apply main_rows_width. rewrite Em. discriminate. }
    rewrite Hw. split.
    + intros [Hc | Hd]; [congruence |]. left. split; [discriminate | exact Hd].
    + intros [[_ Hd] | (Hc & _)]; [now right | discriminate].
Qed.

(** X15.  A table the PDF extractor returns is empty, or it has the seven
    standard labels, with ['Population *'] for the population, followed
    by ['Report_Date'] exactly when a date was found for the file. *)
Theorem pdf_table_schema (file_path : string) (pages : list pdf_page)
  (df : frame) :
  extract_data_from_pdf file_path pages = Returned df ->
  df = empty_frame
  \/ (exists d, pdf_report_date file_path pages = Some (Some d)
                /\ columns df = (standard_columns ++ [ "Report_Date" ])%list)
  \/ (pdf_report_date file_path pages = Some None
      /\ columns df = standard_columns).
Proof.
  unfold extract_data_from_pdf.
  match goal with
  | |- context [match ?x with [] => Returned empty_frame | _ => _ end] =>
      destruct x as [|r rs] eqn:Ea
  end.
  { intros [= <-]. now left. }
  destruct (frame_of_rows pdf_column_names (r :: rs)) as [df0|] eqn:Ef;
    [| discriminate].
  destruct (pdf_report_date file_path pages) as [d|]; [| discriminate].
  destruct (finish_pdf_frame _ _ d Ef) as (df' & -> & Hc).
  intros [= <-]. right. destruct d as [d|]; [left; eauto | right; auto].
Qed.

End PdfFacts.

Lemma chars_of_list (l : list ascii) : Py.chars (string_of_list_ascii l) = l.
Proof. induction l as [|c l IH]; cbn; congruence. Qed.

Lemma lstrip_chars (s : string) (c : ascii) :
  In c (Py.chars (Py.lstrip s)) -> In c (Py.chars s).
Proof.
  induction s as [|a s IH]; cbn [Py.lstrip Py.chars]; auto.
  destruct (Py.isspace a); cbn [Py.chars In]; auto.
Qed.

Lemma rstrip_chars (s : string) (c : ascii) :
  In c (Py.chars (Py.rstrip s)) -> In c (Py.chars s).
Proof.
  induction s as [|a s IH]; cbn [Py.rstrip Py.chars]; auto.
  destruct (Py.rstrip s) as [|b r] eqn:E.
  - destruct (Py.isspace a); cbn [Py.chars In]; tauto.
  - cbn [Py.chars In] in *. intros [<- | Hin]; auto.
Qed.

Lemma strip_chars (s : string) (c : ascii) :
  In c (Py.chars (Py.strip s)) -> In c (Py.chars s).
Proof. unfold Py.strip. intros Hin. now apply lstrip_chars, rstrip_chars. Qed.

Lemma char_in_chars (c : ascii) (s : string) :
  Py.char_in c s = true <-> In c (Py.chars s).
Proof.
  induction s as [|a s IH]; cbn [Py.char_in Py.chars In]; [split; [discriminate | tauto] |].
  rewrite orb_true_iff, IH, Ascii.eqb_eq. split; intros [E | Hin]; auto.
Qed.

Lemma clean_cell_one_line (s : string) :
  Py.char_in Py.newline (clean_cell s) = false.
Proof.
  apply not_true_iff_false. rewrite char_in_chars. intros Hin.
  unfold clean_cell in Hin. apply strip_chars in Hin.
  rewrite chars_of_list in Hin. apply in_map_iff in Hin as (a & Ha & _).
  destruct (Ascii.eqb a Py.newline) eqn:E.
  - vm_compute in Ha. discriminate Ha.
  - apply Ascii.eqb_neq in E. congruence.
Qed.

(** X16.  Every row of the relaxed pass is a row under the header of a
    table whose header names a prison, a CNA or a capacity; the first
    cell of the row is there, is not empty and does not hold "total" in
    any case; the cells are cleaned, so that none holds a line break, and
    the cleaned name is not empty and does not start with a digit. *)
Theorem relaxed_row_provenance (pages : list pdf_page)
  (row : list (option string)) :
  In row (extract_data_from_pdf_relaxed pages) ->
  exists page header second rest raw first cells,
    In page pages
    /\ In (header :: second :: rest) (page_tables page)
    /\ relaxed_header header = true
    /\ In raw (second :: rest)
    /\ raw = Some first :: cells
    /\ Py.nonempty first = true
    /\ Py.contains "total" (Py.lower first) = false
    /\ row = Some (clean_cell first) :: map (option_map clean_cell) cells
    /\ Py.nonempty (clean_cell first) = true
    /\ Re.rmatch Re.digit (clean_cell first) = false
    /\ forall c, In (Some c) row -> Py.char_in Py.newline c = false.
Proof.
  unfold extract_data_from_pdf_relaxed.
  rewrite in_flat_map. intros (page & Hpage & Hin).
  apply in_flat_map in Hin as (table & Htable & Hin).
  destruct table as [|header [|second rest]]; try destruct Hin.
  destruct (relaxed_header header) eqn:Eh; [| destruct Hin].
  cbn [tl] in Hin. apply in_flat_map in Hin as (raw & Hraw & Hin).
  unfold relaxed_row in Hin.
  destruct raw as [|first cells]; [destruct Hin |].
  destruct first as [first|]; cbn [truthy negb orb] in Hin; [| destruct Hin].
  destruct (Py.nonempty first) eqn:En; cbn [negb orb] in Hin; [| destruct Hin].
  destruct (Py.contains "total" (Py.lower first)) eqn:Et; [destruct Hin |].
  cbn [map option_map] in Hin.
  destruct (Py.nonempty (clean_cell first)) eqn:Ec; cbn [andb] in Hin;
    [| destruct Hin].
  destruct (Re.rmatch Re.digit (clean_cell first)) eqn:Ed; cbn [negb] in Hin;
    [destruct Hin |].
  destruct Hin as [<- | []].
  exists page, header, second, rest, (Some first :: cells), first, cells.
  repeat split; auto.
  intros c [[= <-] | Hc]; [apply clean_cell_one_line |].
  apply in_map_iff in Hc as ([x|] & Hx & _); [| discriminate].
  injection Hx as <-. apply clean_cell_one_line.
Qed.

(** ** Further properties: the master table *)

Section MasterColumnFacts.
Context `{OsPath} `{Pandas}.
Variable hst : host.

Lemma set_column_keeps (c col : string) (v : cell) (df : frame) :
  In c (columns df) -> In c (columns (set_column col v df)).
Proof.
  unfold set_column. destruct (index_of col (columns df)); cbn [columns]; auto.
  intros Hin. apply in_or_app. now left.
Qed.

Lemma index_of_none (x : string) (l : list string) :
  index_of x l = None <-> ~ In x l.
Proof.
  induction l as [|y l IH]; cbn [index_of In]; [tauto |].
  destruct (String.eqb_spec x y) as [-> | Hne].
  - split; [discriminate | intros Hno; exfalso; apply Hno; now left].
  - destruct (index_of x l); cbn [option_map].
    + split; [discriminate |]. intros Hno. exfalso.
      assert (Hn : ~ In x l) by tauto. now apply IH in Hn.
    + split; [| reflexivity]. intros _ [E | Hin]; [congruence |].
      now apply (proj1 IH eq_refl).
Qed.

Lemma set_column_has (col : string) (v : cell) (df : frame) :
  In col (columns (set_column col v df)).
Proof.
  unfold set_column. destruct (index_of col (columns df)) eqn:E; cbn [columns].
  - destruct (in_dec string_dec col (columns df)) as [Hin | Hno]; auto.
    apply index_of_none in Hno. congruence.
  - apply in_or_app. right. now left.
Qed.

Lemma accept_required (f : file) (df : frame) :
  accept hst f = Some df ->
  In "Prison Name" (columns df) /\ In "Report_Date" (columns df).
Proof.
  unfold accept.
  destruct (extract hst f) as [[|df0]|]; try discriminate.
  destruct (is_empty df0 || negb (mem "Prison Name" (columns df0))) eqn:E;
    [discriminate |].
  apply orb_false_iff in E as [_ E]. apply negb_false_iff, mem_In in E.
  destruct (mem "Report_Date" (columns df0)) eqn:Ed.
  - intros [= <-]. split; auto. now apply mem_In.
  - destruct (resolve_date hst f) as [[d|]|]; try discriminate;
      intros [= <-]; split;
      solve [now apply set_column_keeps | apply set_column_has].
Qed.

Lemma returned_master (files : list file) (m : frame) :
  combine_prison_data hst files = Returned m ->
  let dfs := collect hst (unprocessed [] files) in
  m = master dfs /\ dfs <> [] /\ columns m = union_columns dfs.
Proof.
  intros Hret dfs.
  destruct (combine_returned hst files m Hret) as (-> & Hne & _).
  fold dfs in Hne |- *. repeat split; auto.
  rewrite master_columns_eq. apply master_columns_union.
  intros df Hdf. apply collect_in in Hdf as (f & _ & Ha).
  now apply accept_ok in Ha.
Qed.

(** X17.  A master table always has the name column and the date column,
    whatever the files hold. *)
Theorem master_has_required_columns (files : list file) (m : frame) :
  combine_prison_data hst files = Returned m ->
  In "Prison Name" (columns m) /\ In "Report_Date" (columns m)
  /\ ~ In "% Pop to In Use CNA" (columns m)
  /\ ~ In "% Accommodation Available" (columns m).
Proof.
  intros Hret. destruct (returned_master files m Hret) as (_ & Hne & Hc).
  rewrite Hc.
  destruct (collect hst (unprocessed [] files)) as [|df dfs] eqn:E;
    [congruence |].
  assert (Hdf : In df (collect hst (unprocessed [] files)))
    by (rewrite E; now left).
  apply collect_in in Hdf as (f & _ & Ha).
  apply accept_required in Ha as [Hn Hd].
  repeat split.
  - apply union_columns_in. split; [exists df; split; auto; now left |].
    cbn. intros [E' | [E' | []]]; discriminate.
  - apply union_columns_in. split; [exists df; split; auto; now left |].
    cbn. intros [E' | [E' | []]]; discriminate.
  - intros Hin. apply union_columns_in in Hin as [_ Hno]. apply Hno. cbn. auto.
  - intros Hin. apply union_columns_in in Hin as [_ Hno]. apply Hno. cbn. auto.
Qed.

Lemma numeric_cell_typed (c : cell) : number_or_null (numeric_cell c).
Proof.
  unfold number_or_null. destruct c as [|s|x|d]; cbn; eauto.
  destruct (to_numeric s); eauto.
Qed.

Lemma datetime_cell_typed (c : cell) : day_or_null (datetime_cell c).
Proof.
  unfold day_or_null. destruct c as [|s|x|d]; cbn; eauto.
  - destruct (datetime_of_string s); eauto.
  - destruct (datetime_of_number x); eauto.
  - destruct (timestamp_in_bounds d); eauto.
Qed.

Lemma cell_at_absent (cols : list string) (c : string) (row : list cell) :
  ~ In c cols -> cell_at cols c row = Null.
Proof.
  intros Hno. unfold cell_at. apply index_of_none in Hno. now rewrite Hno.
Qed.

(** X18.  In a master table every cell of the date column is a day or
    null, and every cell of the four metric columns is a number or
    null: no string is left in them. *)
Theorem master_columns_are_typed (files : list file) (m : frame)
  (row : list cell) :
  combine_prison_data hst files = Returned m ->
  In row (rows m) ->
  day_or_null (cell_at (columns m) "Report_Date" row)
  /\ forall c, In c combiner_numeric_cols ->
       number_or_null (cell_at (columns m) c row).
Proof.
  intros Hret Hrow.
  destruct (returned_master files m Hret) as (-> & Hne & Hc).
  set (dfs := collect hst (unprocessed [] files)) in *.
  assert (Hmc : master_columns dfs = union_columns dfs)
    by (now rewrite <- master_columns_eq).
  apply master_rows_in in Hrow as (df & r & Hdf & Hr & ->).
  rewrite (master_row_view dfs df r Hmc), Hc.
  split.
  - destruct (in_dec string_dec "Report_Date" (union_columns dfs)) as [Hin | Hno].
    + rewrite (cell_at_map _ _ _ Hin). cbn [String.eqb Ascii.eqb Bool.eqb].
      apply datetime_cell_typed.
    + rewrite cell_at_absent by exact Hno. now left.
  - intros c Hnum.
    destruct (in_dec string_dec c (union_columns dfs)) as [Hin | Hno].
    + rewrite (cell_at_map _ _ _ Hin).
      assert (Ec : String.eqb c "Report_Date" = false).
      { cbn in Hnum. destruct Hnum as [<- | [<- | [<- | [<- | []]]]];
          reflexivity. }
      rewrite Ec. apply mem_In in Hnum. rewrite Hnum.
      apply numeric_cell_typed.
    + rewrite cell_at_absent by exact Hno. now left.
Qed.

Lemma unprocessed_paths (files : list file) :
  forall seen,
  NoDup (map path (unprocessed seen files))
  /\ forall f, In f (unprocessed seen files) -> ~ In (path f) seen.
Proof.
  induction files as [|g files IH]; intros seen; cbn [unprocessed map].
  - split; [constructor | intros f []].
  - destruct (mem (path g) seen) eqn:Eg; [apply IH |].
    destruct (IH (path g :: seen)) as [Hnd Hout].
    apply mem_false in Eg. cbn [map]. split.
    + constructor; [| exact Hnd].
      intros Hin. apply in_map_iff in Hin as (f & Ef & Hf).
      apply (Hout f Hf). left. now symmetry.
    + intros f [<- | Hf]; [exact Eg |].
      intros Hin. apply (Hout f Hf). now right.
Qed.

Lemma unprocessed_skips (f : file) (l2 : list file) :
  forall l1 seen,
  In (path f) seen \/ In (path f) (map path l1) ->
  unprocessed seen (l1 ++ f :: l2) = unprocessed seen (l1 ++ l2).
Proof.
  induction l1 as [|g l1 IH]; intros seen Hin; cbn [app unprocessed map].
  - destruct Hin as [Hin | []]. apply mem_In in Hin. now rewrite Hin.
  - destruct (mem (path g) seen) eqn:Eg.
    + apply IH. destruct Hin as [Hin | [E | Hin]]; auto.
      left. rewrite <- E. now apply mem_In.
    + f_equal. apply IH. destruct Hin as [Hin | [E | Hin]]; auto.
      * left. now right.
      * left. now left.
Qed.

(** X19.  No path is read twice: the files the combiner reads have
    pairwise distinct paths, and an entry whose path the walk has yielded
    before is ignored, whatever it holds. *)
Theorem each_path_is_read_once (files : list file) :
  NoDup (map path (unprocessed [] files))
  /\ forall l1 f l2,
       files = (l1 ++ f :: l2)%list ->
       In (path f) (map path l1) ->
       combine_prison_data hst files = combine_prison_data hst (l1 ++ l2).
Proof.
  split; [apply unprocessed_paths |].
  intros l1 f l2 -> Hin. unfold combine_prison_data.
  rewrite unprocessed_skips by (now right). reflexivity.
Qed.

End MasterColumnFacts.

(** ** Further properties: the single-file entry points *)

Section CallFacts.
Context `{OsPath} `{Pandas}.
Variable hst : host.

(** X20.  [extract_prison_data] returns the empty table for every file,
    and so does [process_prison_file], whatever it would do with a table
    that is not empty. *)
Theorem extract_prison_data_is_empty (f : file) :
  extract_prison_data hst f = empty_frame
  /\ forall rest, process_prison_file hst rest f = empty_frame.
Proof.
  assert (E : extract_prison_data hst f = empty_frame).
  { unfold extract_prison_data, positional, extractor_parameters.
    cbn [Nat.eqb].
    repeat match goal with
           | |- context [if ?b then _ else _] => destruct b
           end; reflexivity. }
  split; [exact E |].
  intros rest. unfold process_prison_file. cbv zeta. rewrite E. reflexivity.
Qed.

End CallFacts.

Lemma split_on_app (c : ascii) (a b : string) :
  Py.split_on c (a ++ String c b)
  = (Py.split_on c a ++ Py.split_on c b)%list.
Proof.
  induction a as [|x a IH]; cbn [append Py.split_on].
  - now rewrite Ascii.eqb_refl.
  - destruct (Ascii.eqb x c); [now rewrite IH |].
    rewrite IH. pose proof (split_on_nonempty c a) as Hne.
    destruct (Py.split_on c a) as [|w ws]; [congruence | reflexivity].
Qed.

Lemma split_on_absent (c : ascii) (s : string) :
  Py.char_in c s = false -> Py.split_on c s = [s].
Proof.
  induction s as [|a s IH]; cbn [Py.char_in Py.split_on]; [reflexivity |].
  intros Hno. apply orb_false_iff in Hno as [Ha Hs].
  rewrite Ascii.eqb_sym in Ha. rewrite Ha, (IH Hs). reflexivity.
Qed.

Lemma char_in_app (c : ascii) (a b : string) :
  Py.char_in c (a ++ b) = Py.char_in c a || Py.char_in c b.
Proof.
  induction a as [|x a IH]; cbn [append Py.char_in]; [reflexivity |].
  now rewrite IH, orb_assoc.
Qed.

Lemma rfind_dot_absent (s : string) :
  Py.char_in "." s = false -> Pathlib.rfind_dot s = None.
Proof.
  induction s as [|a s IH]; cbn [Py.char_in Pathlib.rfind_dot]; [reflexivity |].
  intros Hno. apply orb_false_iff in Hno as [Ha Hs].
  rewrite (IH Hs). rewrite Ascii.eqb_sym in Ha. now rewrite Ha.
Qed.

Lemma rfind_dot_last (n e : string) :
  Py.char_in "." e = false ->
  Pathlib.rfind_dot (n ++ "." ++ e) = Some (String.length n).
Proof.
  intros He. induction n as [|a n IH]; cbn [append Pathlib.rfind_dot String.length].
  - change (Pathlib.rfind_dot (String "." e))
      with (match Pathlib.rfind_dot e with
            | Some i => Some (S i)
            | None => if Ascii.eqb "." "." then Some 0 else None
            end).
    now rewrite (rfind_dot_absent e He).
  - cbn [append] in IH. now rewrite IH.
Qed.

Lemma substring_prefix_app (n r : string) :
  String.substring 0 (String.length n) (n ++ r) = n.
Proof.
  induction n as [|a n IH]; cbn [append String.length String.substring].
  - now destruct r.
  - now rewrite IH.
Qed.

Lemma length_append (a b : string) :
  String.length (a ++ b) = String.length a + String.length b.
Proof. induction a as [|x a IH]; cbn; [reflexivity | now rewrite IH]. Qed.

Lemma nonempty_length (s : string) :
  Py.nonempty s = true -> 0 < String.length s.
Proof. destruct s; [discriminate | cbn; lia]. Qed.

Lemma stem_of_file (d n e : string) :
  Py.nonempty n = true -> Py.char_in "/" n = false ->
  Py.nonempty e = true -> Py.char_in "/" e = false ->
  Py.char_in "." e = false ->
  Pathlib.stem (d ++ "/" ++ n ++ "." ++ e) = n.
Proof.
  intros Hn Hns He Hes Hed.
  assert (Hname : Pathlib.name (d ++ "/" ++ n ++ "." ++ e) = n ++ "." ++ e).
  { unfold Pathlib.name, Pathlib.parts.
    change (d ++ "/" ++ n ++ "." ++ e) with (d ++ String "/" (n ++ "." ++ e)).
    rewrite split_on_app, filter_app.
    rewrite (split_on_absent "/" (n ++ "." ++ e)).
    - cbn [filter].
      assert (Hk : Py.nonempty (n ++ "." ++ e)
                   && negb (String.eqb (n ++ "." ++ e) ".") = true).
      { destruct n as [|a n]; [discriminate |]. cbn [append Py.nonempty andb].
        apply negb_true_iff, String.eqb_neq.
        destruct n; cbn [append]; [| discriminate].
        destruct e; [discriminate | discriminate]. }
      rewrite Hk. apply last_last.
    - rewrite !char_in_app, Hns, Hes. reflexivity. }
  unfold Pathlib.stem. cbv zeta. rewrite Hname, rfind_dot_last by exact Hed.
  apply nonempty_length in Hn, He.
  assert (H0 : (0 <? String.length n) = true) by (apply Nat.ltb_lt; lia).
  assert (H1 : (String.length n <? String.length (n ++ "." ++ e) - 1) = true).
  { apply Nat.ltb_lt. rewrite !length_append. cbn [String.length]. lia. }
  rewrite H0, H1. cbn [andb]. apply substring_prefix_app.
Qed.

Section SaveFacts.
Context `{Pandas}.

(** X21.  [save_to_csv] writes nothing for an empty table.  For a table
    with rows, the file it writes is named after the stem of the source
    file alone: two reports with the same stem, whatever their
    directories and their formats, are written to the same file of the
    output directory. *)
Theorem same_stem_same_csv (df1 df2 : frame) (d1 d2 n e1 e2 out : string) :
  is_empty df1 = false -> is_empty df2 = false ->
  Py.nonempty n = true -> Py.char_in "/" n = false ->
  Py.nonempty e1 = true -> Py.char_in "/" e1 = false ->
  Py.char_in "." e1 = false ->
  Py.nonempty e2 = true -> Py.char_in "/" e2 = false ->
  Py.char_in "." e2 = false ->
  save_to_csv df1 (d1 ++ "/" ++ n ++ "." ++ e1) out = Some (out, n ++ ".csv", df1)
  /\ save_to_csv df2 (d2 ++ "/" ++ n ++ "." ++ e2) out
     = Some (out, n ++ ".csv", df2)
  /\ save_to_csv empty_frame (d1 ++ "/" ++ n ++ "." ++ e1) out = None.
Proof.
  intros Hdf1 Hdf2 Hn Hns He1 He1s He1d He2 He2s He2d.
  unfold save_to_csv. rewrite Hdf1, Hdf2.
  rewrite !stem_of_file by assumption.
  repeat split.
Qed.

End SaveFacts.

Lemma lower_char_idem (c : ascii) :
  Py.lower_char (Py.lower_char c) = Py.lower_char c.
Proof. destruct c as [[] [] [] [] [] [] [] []]; reflexivity. Qed.

Lemma lower_idem (s : string) : Py.lower (Py.lower s) = Py.lower s.
Proof.
  induction s as [|c s IH]; cbn [Py.lower]; [reflexivity |].
  now rewrite lower_char_idem, IH.
Qed.

Lemma standardize_death_type_cases (x : string) :
  (exists kv, In kv death_type_mapping /\ standardize_death_type x = snd kv)
  \/ standardize_death_type x = "Other"
  \/ (standardize_death_type x = Py.lower x
      /\ Py.startswith "other:" (Py.lower x) = false
      /\ find (fun kv => String.eqb (fst kv) (Py.lower x)) death_type_mapping
         = None).
Proof.
  unfold standardize_death_type, replace_value. cbv zeta.
  destruct (find _ death_type_mapping) as [kv|] eqn:Ef.
  - left. apply find_some in Ef as [Hin _]. exists kv. split; [exact Hin |].
    cbn in Hin.
    destruct Hin as [<- | [<- | [<- | [<- | []]]]]; reflexivity.
  - destruct (Py.startswith "other:" (Py.lower x)) eqn:Eo; auto.
Qed.

(** One value: it becomes one of the four categories, or stays as it is in
    lower case; a second pass keeps it unless it is ["Other"]. *)
Lemma standardize_death_type_twice (x : string) :
  let y := standardize_death_type x in
  (In y [ "Natural Causes"; "Self-Inflicted"; "Homicide"; "Other" ]
   \/ (y = Py.lower x /\ Py.startswith "other:" y = false
       /\ forall kv, In kv death_type_mapping -> fst kv <> y))
  /\ standardize_death_type y
     = (if String.eqb y "Other" then "other" else y).
Proof.
  cbv zeta.
  destruct (standardize_death_type_cases x)
    as [(kv & Hin & Hy) | [Hy | (Hy & Eo & Ef)]]; rewrite Hy.
  - cbn in Hin.
    destruct Hin as [<- | [<- | [<- | [<- | []]]]]; cbn [snd];
      (split; [left; cbn; tauto | reflexivity]).
  - split; [left; cbn; tauto | reflexivity].
  - assert (Hkeys : forall kv, In kv death_type_mapping ->
                               fst kv <> Py.lower x).
    { intros kv Hin E.
      pose proof (find_none _ _ Ef kv Hin) as Hk. cbn beta in Hk.
      rewrite E, String.eqb_refl in Hk. discriminate. }
    split; [right; auto |].
    unfold standardize_death_type, replace_value. cbv zeta.
    rewrite lower_idem, Ef, Eo.
    destruct (String.eqb_spec (Py.lower x) "Other") as [E | _];
      [| reflexivity].
    exfalso. pose proof (lower_idem x) as Hl. rewrite E in Hl.
    discriminate Hl.
Qed.

Lemma standardize_death_types_spec (column : list (option string)) :
  (standardize_death_types column = None <-> In None column)
  /\ forall out, standardize_death_types column = Some out ->
       out = flat_map (fun v => match v with
                                | Some x => [standardize_death_type x]
                                | None => []
                                end) column.
Proof.
  induction column as [|[x|] column [IHn IHs]]; cbn [standardize_death_types].
  - split; [split; [discriminate | intros []] |]. now intros out [= <-].
  - destruct (standardize_death_types column) as [o|].
    + split.
      * split; [discriminate |]. intros [E | Hin]; [discriminate |].
        now apply IHn in Hin.
      * intros out [= <-]. cbn [flat_map app]. now rewrite <- (IHs o).
    + split; [| discriminate]. split; [| reflexivity].
      intros _. right. now apply IHn.
  - split; [| discriminate]. split; [| reflexivity]. intros _. now left.
Qed.

Lemma standardize_death_types_values (values : list string) :
  standardize_death_types (map Some values)
  = Some (map standardize_death_type values).
Proof.
  induction values as [|x values IH]; cbn [map standardize_death_types];
    [reflexivity |].
  now rewrite IH.
Qed.

(** X22.  [standardize_death_types] raises exactly when a value of the
    column is missing.  Otherwise every value becomes one of the four
    categories, or stays as it is in lower case.  The function is not
    idempotent: applied to its own result it keeps every value but
    ["Other"], which it turns into ["other"]. *)
Theorem death_types_second_pass (column : list (option string)) :
  (standardize_death_types column = None <-> In None column)
  /\ forall out, standardize_death_types column = Some out ->
       List.length out = List.length column
       /\ (forall y, In y out ->
             In y [ "Natural Causes"; "Self-Inflicted"; "Homicide"; "Other" ]
             \/ y = Py.lower y)
       /\ standardize_death_types (map Some out)
          = Some (map (fun y => if String.eqb y "Other" then "other" else y)
                      out).
Proof.
  destruct (standardize_death_types_spec column) as [Hnone Hsome].
  split; [exact Hnone |]. intros out Hout.
  assert (Hno : ~ In None column).
  { intros Hin. apply Hnone in Hin. congruence. }
  specialize (Hsome out Hout). subst out. clear Hout Hnone.
  induction column as [|[x|] column IH]; cbn [flat_map app List.length].
  - repeat split. intros y [].
  - destruct IH as (Hlen & Hval & Htwice).
    { intros Hin. apply Hno. now right. }
    destruct (standardize_death_type_twice x) as [Hx Hxx]. cbv zeta in *.
    repeat split.
    + cbn [List.length]. now rewrite Hlen.
    + intros y [<- | Hy]; [| now apply Hval].
      destruct Hx as [Hx | (Hx & _)]; [now left |].
      right. rewrite Hx at 2. rewrite lower_idem. exact Hx.
    + cbn [map standardize_death_types]. rewrite Htwice, Hxx. reflexivity.
  - exfalso. apply Hno. now left.
Qed.

(** ** Further properties: the death rates *)

Lemma flat_map_same {A B : Type} (f g : A -> list B) (l : list A) :
  (forall a, In a l -> f a = g a) -> flat_map f l = flat_map g l.
Proof.
  induction l as [|x l IH]; intros Hfg; cbn [flat_map]; [reflexivity |].
  rewrite (Hfg x) by now left. rewrite IH; [reflexivity |].
  intros a Ha. apply Hfg. now right.
Qed.

Section RateFacts.
Variable rate : Type.
Variable zero : rate.
Variable per_thousand : Z -> Z -> rate.

Lemma cause_deaths_skip (deaths1 deaths2 : list Rates.death) (d : Rates.death)
  (y : Z) (age_cat cause : string) :
  Rates.type_of_death d <> cause \/ Rates.age_category d <> age_cat ->
  Rates.cause_deaths (deaths1 ++ d :: deaths2)%list y age_cat cause
  = Rates.cause_deaths (deaths1 ++ deaths2)%list y age_cat cause.
Proof.
  intros Hd. unfold Rates.cause_deaths.
  rewrite !filter_app. cbn [filter].
  destruct (Z.eqb (Rates.year d) y); [| reflexivity].
  cbn [filter].
  destruct (String.eqb_spec (Rates.age_category d) age_cat) as [Ea | Ea];
    [| reflexivity].
  cbn [filter].
  destruct (String.eqb_spec (Rates.type_of_death d) cause) as [Ec | Ec];
    [| reflexivity].
  tauto.
Qed.

(** X23.  [calculate_age_specific_rates] gives twenty rows for every row
    of the population table.  A death whose cause is none of the four
    names the function lists, or whose age category is none of its
    five, is counted in no row: the result is the one without it.  The
    rate is zero whenever the population is missing or not positive. *)
Theorem deaths_outside_the_lists_are_not_counted
  (deaths1 deaths2 : list Rates.death) (d : Rates.death)
  (populations : list Rates.population) :
  let calc := Rates.calculate_age_specific_rates rate zero per_thousand in
  List.length (calc (deaths1 ++ d :: deaths2)%list populations)
  = 20 * List.length populations
  /\ (~ In (Rates.type_of_death d) Rates.causes
      \/ ~ In (Rates.age_category d) Rates.age_categories ->
      calc (deaths1 ++ d :: deaths2)%list populations
      = calc (deaths1 ++ deaths2)%list populations)
  /\ (forall r, In r (calc (deaths1 ++ d :: deaths2)%list populations) ->
      (forall n, Rates.r_population rate r = Some n -> (n <= 0)%Z ->
                 Rates.r_rate_per_1000 rate r = zero)
      /\ (Rates.r_population rate r = None ->
          Rates.r_rate_per_1000 rate r = zero)).
Proof.
  cbv zeta. unfold Rates.calculate_age_specific_rates.
  split; [| split].
  - induction populations as [|p ps IH]; cbn [flat_map]; [reflexivity |].
    rewrite length_app, IH. cbn. lia.
  - intros Hout.
    apply flat_map_same. intros p _.
    apply flat_map_same. intros age_cat Ha.
    apply map_ext_in. intros cause Hc.
    unfold Rates.cell_of. cbv zeta.
    rewrite cause_deaths_skip; [reflexivity |].
    destruct Hout as [Hout | Hout]; [left | right]; intros E; apply Hout;
      now rewrite E.
  - intros r Hr.
    apply in_flat_map in Hr as (p & _ & Hin).
    apply in_flat_map in Hin as (a & _ & Hin).
    apply in_map_iff in Hin as (c & <- & _).
    unfold Rates.cell_of. cbn [Rates.r_population Rates.r_rate_per_1000].
    split.
    + intros n Hn Hle. rewrite Hn.
      destruct (Z.ltb_spec 0 n); [lia | reflexivity].
    + intros Hn. now rewrite Hn.
Qed.

End RateFacts.

(** ** Instances of the further properties *)

Lemma portable_chain_only_witness :
  windows linux_host = false
  /\ ((exists done e rest,
         portable_chain "in/report.doc" = (done ++ e :: rest)%list
         /\ fst (@doc_to_text posixpath linux_host "in/report.doc")
            = (done ++ [ e ])%list
         /\ (forall e' t, In e' done -> ~ stage_accepts linux_host e' t)
         /\ stage_accepts linux_host e
              (snd (@doc_to_text posixpath linux_host "in/report.doc")))
      \/ (fst (@doc_to_text posixpath linux_host "in/report.doc")
          = portable_chain "in/report.doc"
          /\ snd (@doc_to_text posixpath linux_host "in/report.doc")
             = EmptyString
          /\ forall e t, In e (portable_chain "in/report.doc") ->
                         ~ stage_accepts linux_host e t)).
Proof.
  split; [reflexivity |].
  exact (@portable_chain_only posixpath linux_host "in/report.doc" eq_refl).
Defined.

Lemma pdf_main_rows_shape_witness :
  List.length [ Some "Beta"; Some "1"; Some "2"; Some "3"; Some "4";
                Some "5%"; Some "6%" ] = 7
  /\ exists page text,
       nth_error [ reopened_page ] 0 = Some page
       /\ page_text page = Some text
       /\ In (4, [ Some "Beta"; Some "1"; Some "2"; Some "3"; Some "4";
                   Some "5%"; Some "6%" ]) (page_rows text).
Proof.
  assert (Hin : In ((0, 4), [ Some "Beta"; Some "1"; Some "2"; Some "3";
                              Some "4"; Some "5%"; Some "6%" ])
                   (pdf_main_rows [ reopened_page ]))
    by (vm_compute; tauto).
  destruct (pdf_main_rows_shape [ reopened_page ] 0 4 _ Hin) as (Hlen & _ & Hp).
  split; [exact Hlen | exact Hp].
Defined.


Lemma pdf_table_schema_witness :
  @extract_data_from_pdf posixpath plain_numbers "prison-pop-august-2022.pdf"
    [ reopened_page ]
  = Returned dated_pdf_table
  /\ columns dated_pdf_table = (standard_columns ++ [ "Report_Date" ])%list
  /\ pdf_report_date "prison-pop-august-2022.pdf" [ reopened_page ]
     = Some (Some (mkdate 2022 8 31)).
Proof.
  pose (E := @eq_refl _ (Returned dated_pdf_table)
             <: @extract_data_from_pdf posixpath plain_numbers
                  "prison-pop-august-2022.pdf" [ reopened_page ]
                = Returned dated_pdf_table).
  pose (Ed := @eq_refl _ (Some (Some (mkdate 2022 8 31)))
              <: @pdf_report_date posixpath "prison-pop-august-2022.pdf"
                   [ reopened_page ]
                 = Some (Some (mkdate 2022 8 31))).
  split; [exact E |]. split; [| exact Ed].
  destruct (@pdf_table_schema posixpath plain_numbers
              "prison-pop-august-2022.pdf" [ reopened_page ] dated_pdf_table E)
    as [He | [(d & _ & Hc) | (Hn & _)]].
  - discriminate He.
  - exact Hc.
  - rewrite Ed in Hn. discriminate Hn.
Defined.

Lemma relaxed_row_provenance_witness :
  extract_data_from_pdf_relaxed [ tabled_page ]
  = [ [ Some "Long Lartin"; Some "600" ] ]
  /\ Re.rmatch Re.digit "Long Lartin" = false.
Proof.
  split; [vm_compute; reflexivity |].
  assert (Hin : In [ Some "Long Lartin"; Some "600" ]
                   (extract_data_from_pdf_relaxed [ tabled_page ]))
    by (vm_compute; tauto).
  destruct (relaxed_row_provenance [ tabled_page ] _ Hin)
    as (page & header & second & rest & raw & first & cells
        & _ & _ & _ & _ & _ & _ & _ & Hrow & _ & Hd & _).
  injection Hrow as Hname _. rewrite Hname. exact Hd.
Defined.

Lemma master_has_required_columns_witness :
  In "Prison Name" (columns sample_master)
  /\ In "Report_Date" (columns sample_master).
Proof.
  pose (E := @eq_refl _ (Returned sample_master)
             <: @combine_prison_data posixpath plain_numbers sample_host
                  sample_corpus = Returned sample_master).
  destruct (@master_has_required_columns posixpath plain_numbers sample_host
              sample_corpus sample_master E) as (Hn & Hd & _).
  split; [exact Hn | exact Hd].
Defined.

Lemma master_columns_are_typed_witness :
  day_or_null
    (cell_at (columns sample_master) "Report_Date"
       [ Str "Beta"; num 1200; num 1100; Null; Null; Day (mkdate 2022 8 31) ])
  /\ number_or_null
       (cell_at (columns sample_master) "Operational Capacity"
          [ Str "Beta"; num 1200; num 1100; Null; Null; Day (mkdate 2022 8 31) ]).
Proof.
  pose (E := @eq_refl _ (Returned sample_master)
             <: @combine_prison_data posixpath plain_numbers sample_host
                  sample_corpus = Returned sample_master).
  assert (Hrow : In [ Str "Beta"; num 1200; num 1100; Null; Null;
                      Day (mkdate 2022 8 31) ] (rows sample_master))
    by (cbn; tauto).
  destruct (@master_columns_are_typed posixpath plain_numbers sample_host
              sample_corpus sample_master _ E Hrow) as [Hd Hn].
  split; [exact Hd |]. apply Hn. cbn. tauto.
Defined.

Lemma same_stem_same_csv_witness :
  save_to_csv sample_master "in/2022/jan-2022.rtf" "Output/Monthly_reports_processed"
  = Some ("Output/Monthly_reports_processed", "jan-2022.csv", sample_master)
  /\ save_to_csv sample_master "in/pdf/jan-2022.pdf"
       "Output/Monthly_reports_processed"
     = Some ("Output/Monthly_reports_processed", "jan-2022.csv", sample_master).
Proof.
  destruct (@same_stem_same_csv plain_numbers sample_master sample_master
              "in/2022" "in/pdf" "jan-2022" "rtf" "pdf"
              "Output/Monthly_reports_processed"
              eq_refl eq_refl eq_refl eq_refl eq_refl eq_refl eq_refl
              eq_refl eq_refl eq_refl) as (H1 & H2 & _).
  split; [exact H1 | exact H2].
Defined.
